(** * swift-ring-builder: the command-line front end of the ring builder

    A shallow embedding of [swift/cli/ringbuilder.py].  Every command of the
    class [Commands] is a computation over an explicit world: the builder
    object held in the global [builder], the files on disk, the lines written
    to the terminal and the answers still to be read from it.  A command ends
    by [exit(status)] or by an exception nobody catches.

    The ring package itself ([swift.common.ring], [swift.common.exceptions],
    [swift.common.ring.utils]) is a collaborator of the command line: its
    methods are fields of the interface [RingLib], and every statement below
    holds for every implementation of that interface.

    Numbers: a Python [int] is a [Z].  A Python [float] is a double.  The
    floats that the builder object holds (weights, replica count, balances)
    are finite and are modelled by the rationals they denote ([Q]), so their
    comparisons are exact.  What [float()] reads off the command line can
    also be an infinity or NaN ([pyfloat]).  The one float operation whose
    rounding decides what a command does, the subtraction of the two balances
    in [rebalance], is rounded to the nearest double ([float_sub]); the
    arithmetic whose result is only printed is exact. *)

From Stdlib Require Import ZArith QArith Qabs Lqa Ascii String.
From Stdlib Require Import Qround.
From stdpp Require Import base option list strings gmap pretty.

Local Open Scope Z_scope.

(** ** Exit statuses (module level constants) *)

Definition EXIT_SUCCESS : Z := 0.
Definition EXIT_WARNING : Z := 1.
Definition EXIT_ERROR : Z := 2.

(** ** Floats *)

(** What [float(s)] gives: a finite double, kept as the rational it denotes,
    an infinity or NaN. *)
Inductive pyfloat : Type :=
| Finite (q : Q)
| Inf (negative : bool)
| NaN.

Coercion Finite : Q >-> pyfloat.
Bind Scope Q_scope with pyfloat.

(** [x < y] for a finite [y]: a comparison with NaN is false. *)
Definition float_lt (x : pyfloat) (y : Q) : bool :=
  match x with
  | Finite q => negb (Qle_bool y q)
  | Inf negative => negative
  | NaN => false
  end.

(** The value of a float where only finite ones are kept. *)
Definition finite (x : pyfloat) : Q :=
  match x with
  | Finite q => q
  | _ => 0%Q
  end.

(** The exponent [k] with [2^k <= |x| < 2^(k+1)], for [x] other than 0. *)
Definition binade (x : Q) : Z :=
  let k := Z.log2 (Z.abs (Qnum x)) - Z.log2 (Zpos (Qden x)) in
  if Qle_bool (Qpower 2 k) (Qabs x) then k else k - 1.

(** The integer nearest to [x], the even one of two that are equally near. *)
Definition round_half_even (x : Q) : Z :=
  let f := Qfloor x in
  match Qcompare (x - inject_Z f)%Q (1 # 2)%Q with
  | Lt => f
  | Gt => f + 1
  | Eq => if Z.even f then f else f + 1
  end.

(** The double nearest to [x], ties to the even mantissa: 53 bits of
    mantissa, and steps of [2^-1074] below [2^-1022].  Past the largest
    double the result stands for an infinity, of which it has the sign and
    more than the magnitude of any double. *)
Definition round64 (x : Q) : Q :=
  if Qeq_bool x 0 then 0%Q
  else let e := Z.max (binade x - 52) (-1074) in
       (inject_Z (round_half_even (x / Qpower 2 e)) * Qpower 2 e)%Q.

(** [x - y] on doubles: the exact difference, rounded. *)
Definition float_sub (x y : Q) : Q := round64 (x - y)%Q.

(** ** Devices *)

(** A device dict as the builder stores it.  (The builder also keeps
    ['parts_wanted'] in it; no command modelled here reads or writes it.) *)
Module Dev.
Record t : Type := mk {
  id : Z;
  region : Z;
  zone : Z;
  ip : string;
  port : Z;
  replication_ip : string;
  replication_port : Z;
  device : string;
  weight : Q;
  parts : Z;
  meta : string
}.
End Dev.

(** The dict that [_parse_add_values] builds for a device to add: the same
    keys without ['id'] and ['parts'], which [add_dev] sets. *)
Module NewDev.
Record t : Type := mk {
  region : Z;
  zone : Z;
  ip : string;
  port : Z;
  device : string;
  replication_ip : string;
  replication_port : Z;
  weight : pyfloat;
  meta : string
}.
End NewDev.

(** ** Exceptions and results *)

Inductive exn : Type :=
| ValueError (msg : string)
| IndexError
| ZeroDivisionError
| EOFError
| LibraryError (cls msg : string).

Definition message (e : exn) : string :=
  match e with
  | ValueError m => m
  | LibraryError _ m => m
  | _ => ""
  end.

(** What a call into the library gives back: a value or a raised exception. *)
Inductive result (A : Type) : Type :=
| Ok (a : A)
| Err (e : exn).
Arguments Ok {A} a.
Arguments Err {A} e.

(** How a command, or a part of one, ends. *)
Inductive outcome (A : Type) : Type :=
| Return (a : A)
| Exit (status : Z)
| Raise (e : exn).
Arguments Return {A} a.
Arguments Exit {A} status.
Arguments Raise {A} e.

(** ** The builder object and the files *)

(** Device dicts are objects: [builder.devs] holds references to them (or
    [None] in the slot of a removed device), [search_devs] hands the same
    references out, and an assignment [dev[key] = value] through any of them
    is seen through all.  A reference is an address in [heap], the store of
    the device dicts. *)
Definition ref : Type := nat.

(** The attributes of [RingBuilder] that the commands read or write; the
    assignment table and the move ledger stay behind [internal]. *)
Record RingBuilder (I : Type) : Type := mkBuilder {
  heap : ref -> Dev.t;
  devs : list (option ref);
  parts : Z;
  replicas : Q;
  min_part_hours : Z;
  version : Z;
  devs_changed : bool;
  internal : I
}.
Arguments mkBuilder {I}.
Arguments heap {I}.
Arguments devs {I}.
Arguments parts {I}.
Arguments replicas {I}.
Arguments min_part_hours {I}.
Arguments version {I}.
Arguments devs_changed {I}.
Arguments internal {I}.

(** [dev[key] = value ...] on the dict at [r], leaving it as [dev] *)
Definition store {I} (r : ref) (dev : Dev.t) (b : RingBuilder I) : RingBuilder I :=
  mkBuilder (fun r' => if (r' =? r)%nat then dev else heap b r')
            (devs b) (parts b) (replicas b) (min_part_hours b) (version b)
            (devs_changed b) (internal b).

(** [[d for d in builder.devs if d is not None]] *)
Definition live {I} (b : RingBuilder I) : list ref := omap id (devs b).

(** A builder method: it may change the object and returns or raises. *)
Definition method (I A : Type) : Type := RingBuilder I -> result A * RingBuilder I.

(** What [builder.save] and [ring.save] leave on disk. *)
Inductive File (I R : Type) : Type :=
| BuilderFile (b : RingBuilder I)
| RingFile (r : R).
Arguments BuilderFile {I R} b.
Arguments RingFile {I R} r.

(** ** The collaborators *)

(** How [parse_args] ends.  It hands its arguments to [optparse], which
    returns the options and the positional arguments, or ends the process by
    itself: [--help] prints the help text and exits with status 0, and an
    option that it does not know or whose value it cannot read prints the
    usage and an error to stderr and exits with status 2. *)
Inductive parsed (Opts : Type) : Type :=
| Parsed (opts : Opts) (args : list string)
| ParseHelp (text : string)
| ParseError (text : string).
Arguments Parsed {Opts} opts args.
Arguments ParseHelp {Opts} text.
Arguments ParseError {Opts} text.

(** Everything the command line imports and does not define. *)
Class RingLib : Type := {
  Internal : Type;
  RingData : Type;
  SearchValues : Type;
  Opts : Type;
  (** [swift.common.ring.builder.MAX_BALANCE] *)
  MAX_BALANCE : Q;
  (** the builtin [float] on a string; [None] is [ValueError] *)
  float : string -> option pyfloat;
  (** [except exceptions.RingBuilderError], [except exceptions.RingValidationError] *)
  isRingBuilderError : exn -> bool;
  isRingValidationError : exn -> bool;
  (** [swift.common.ring.utils] *)
  parse_search_value : string -> result SearchValues;
  parse_args : list string -> parsed Opts;
  opts_used : Opts -> bool;
  build_dev_from_opts : Opts -> result NewDev.t;
  (** [RingBuilder] methods; [search_devs] returns the matching dicts of
      [builder.devs] themselves *)
  search_devs : SearchValues -> method Internal (list ref);
  get_balance : method Internal Q;
  rebalance_ : option string -> method Internal (Z * Q);
  validate_ : method Internal unit;
  get_ring : method Internal RingData;
  add_dev : NewDev.t -> method Internal Z;
  remove_dev : Z -> method Internal unit;
  set_dev_weight : Z -> pyfloat -> method Internal unit;
  set_replicas_ : pyfloat -> method Internal unit;
  (** [os.path.join], [os.path.basename] *)
  pathjoin : string -> string -> string;
  basename : string -> string
}.

(** ** Terminal output *)

(** An argument of a [%] format. *)
Inductive pyval : Type :=
| VStr (s : string)
| VInt (z : Z)
| VFloat (x : pyfloat).

(** One [print]: the format string and the values it is applied to. *)
Record line : Type := Line { fmt : string; args : list pyval }.

Definition dq : string := String "034"%char "".
Definition nl : string := String "010"%char "".

(** ** The world of a command *)

Section Commands.
Context `{L : RingLib}.

Record World : Type := mkWorld {
  builder : RingBuilder Internal;
  fs : gmap string (File Internal RingData);
  stdout : list line;
  stderr : list string;
  stdin : list string;
  clock : Z
}.

Definition Cmd (A : Type) : Type := World -> outcome A * World.

Definition ret {A} (a : A) : Cmd A := fun w => (Return a, w).

Definition bind {A B} (c : Cmd A) (k : A -> Cmd B) : Cmd B :=
  fun w =>
    match c w with
    | (Return a, w') => k a w'
    | (Exit s, w') => (Exit s, w')
    | (Raise e, w') => (Raise e, w')
    end.

Definition exit {A} (status : Z) : Cmd A := fun w => (Exit status, w).
Definition raise {A} (e : exn) : Cmd A := fun w => (Raise e, w).

(** [try: c  except <class> as e: h e] *)
Definition try_except {A} (c : Cmd A) (cls : exn -> bool) (h : exn -> Cmd A) : Cmd A :=
  fun w =>
    match c w with
    | (Raise e, w') => if cls e then h e w' else (Raise e, w')
    | r => r
    end.

Definition with_builder (b : RingBuilder Internal) (w : World) : World :=
  mkWorld b (fs w) (stdout w) (stderr w) (stdin w) (clock w).

Definition print (f : string) (a : list pyval) : Cmd unit :=
  fun w => (Return tt,
            mkWorld (builder w) (fs w) (stdout w ++ [Line f a]) (stderr w)
                    (stdin w) (clock w)).

Definition stderr_write (s : string) : Cmd unit :=
  fun w => (Return tt,
            mkWorld (builder w) (fs w) (stdout w) (stderr w ++ [s])
                    (stdin w) (clock w)).

(** [raw_input(prompt)]: the prompt goes to the terminal, the answer is the
    next line of the input; [EOFError] when there is none. *)
Definition raw_input (prompt : string) (a : list pyval) : Cmd string :=
  fun w =>
    let w1 := mkWorld (builder w) (fs w) (stdout w ++ [Line prompt a])
                      (stderr w) (stdin w) (clock w) in
    match stdin w with
    | [] => (Raise EOFError, w1)
    | s :: rest =>
        (Return s, mkWorld (builder w) (fs w) (stdout w1) (stderr w) rest (clock w))
    end.

Definition get_builder : Cmd (RingBuilder Internal) := fun w => (Return (builder w), w).

(** A method call on the global [builder]. *)
Definition call {A} (m : method Internal A) : Cmd A :=
  fun w =>
    match m (builder w) with
    | (Ok a, b') => (Return a, with_builder b' w)
    | (Err e, b') => (Raise e, with_builder b' w)
    end.

(** A library function that returns or raises and touches nothing. *)
Definition lift {A} (r : result A) : Cmd A :=
  fun w => match r with Ok a => (Return a, w) | Err e => (Raise e, w) end.

Definition write_file (path : string) (f : File Internal RingData) : Cmd unit :=
  fun w => (Return tt,
            mkWorld (builder w) (<[path := f]> (fs w)) (stdout w) (stderr w)
                    (stdin w) (clock w)).

(** [builder.save(path)] *)
Definition builder_save (path : string) : Cmd unit :=
  fun w => write_file path (BuilderFile (builder w)) w.

(** [ring_data.save(path)] *)
Definition ring_save (r : RingData) (path : string) : Cmd unit :=
  write_file path (RingFile r).

(** [time()], as ['%d' % time()] shows it *)
Definition time_ : Cmd Z := fun w => (Return (clock w), w).

(** [for x in xs: body x] *)
Fixpoint for_each {A} (xs : list A) (body : A -> Cmd unit) : Cmd unit :=
  match xs with
  | [] => ret tt
  | x :: rest => bind (body x) (fun _ => for_each rest body)
  end.

(** [argv[i]]; the callers check [len(argv)] first. *)
Definition argv_get (argv : list string) (i : nat) : Cmd string :=
  match argv !! i with
  | Some s => ret s
  | None => raise IndexError
  end.

End Commands.

Declare Scope cmd_scope.
Delimit Scope cmd_scope with cmd.
Notation "x <- c ;; k" := (bind c (fun x => k))
  (at level 100, c at next level, right associativity) : cmd_scope.
Notation "c ;; k" := (bind c (fun _ => k))
  (at level 100, right associativity) : cmd_scope.

Local Open Scope cmd_scope.

(** ** Python strings *)

Definition isdigit (c : ascii) : bool :=
  ((48 <=? nat_of_ascii c) && (nat_of_ascii c <=? 57))%nat.

(** [c in '0123456789.'] for a character [c] *)
Definition in_digits_dot (c : ascii) : bool := isdigit c || Ascii.eqb c ".".

Definition is_not (x : ascii) (c : ascii) : bool := negb (Ascii.eqb c x).

(** [s.startswith(c)] for a one-character [c] *)
Definition startswith (c : ascii) (s : string) : bool :=
  match s with
  | String c' _ => Ascii.eqb c' c
  | EmptyString => false
  end.

(** [s[1:]] *)
Definition tail (s : string) : string :=
  match s with
  | String _ s' => s'
  | EmptyString => EmptyString
  end.

(** [s[:1]] *)
Definition first (s : string) : string :=
  match s with
  | String c _ => String c EmptyString
  | EmptyString => EmptyString
  end.

(** The longest prefix whose characters satisfy [p], and what follows it:
    [(s[:i], s[i:])] after [i = 0; while i < len(s) and p(s[i]): i += 1]. *)
Fixpoint span (p : ascii -> bool) (s : string) : string * string :=
  match s with
  | EmptyString => (EmptyString, EmptyString)
  | String c s' =>
      if p c then let (a, b) := span p s' in (String c a, b)
      else (EmptyString, s)
  end.

(** [s.lstrip(c)] and [s.rstrip(c)] for a one-character [c] *)
Fixpoint lstrip (c : ascii) (s : string) : string :=
  match s with
  | String c' s' => if Ascii.eqb c' c then lstrip c s' else s
  | EmptyString => EmptyString
  end.

Definition rstrip (c : ascii) (s : string) : string :=
  String.rev (lstrip c (String.rev s)).

(** [c in s] for a one-character [c] *)
Fixpoint contains (c : ascii) (s : string) : bool :=
  match s with
  | String c' s' => Ascii.eqb c' c || contains c s'
  | EmptyString => false
  end.

Fixpoint digits_value (acc : Z) (s : string) : option Z :=
  match s with
  | EmptyString => Some acc
  | String c s' =>
      if isdigit c then digits_value (10 * acc + (Z.of_nat (nat_of_ascii c) - 48)) s'
      else None
  end.

(** [int(s)] where [s] is a run of digits, as every call of it here is:
    [int('')] raises [ValueError]. *)
Definition py_int (s : string) : result Z :=
  match s with
  | EmptyString => Err (ValueError "invalid literal for int() with base 10")
  | _ => match digits_value 0 s with
         | Some z => Ok z
         | None => Err (ValueError "invalid literal for int() with base 10")
         end
  end.

(** [a < b] on floats *)
Definition Qlt_bool (a b : Q) : bool := negb (Qle_bool b a).

(** [a / b] on floats *)
Definition py_div (a b : Q) : result Q :=
  if Qeq_bool b 0 then Err ZeroDivisionError else Ok (a / b)%Q.

(** [izip(islice(l, 0, len(l), 2), islice(l, 1, len(l), 2))] *)
Fixpoint pairs (l : list string) : list (string * string) :=
  match l with
  | a :: b :: rest => (a, b) :: pairs rest
  | _ => []
  end.

(** The usage text [Commands.<cmd>.__doc__.strip()], named, not spelled out. *)
Definition doc (cmd : string) : string := "Commands." +:+ cmd +:+ ".__doc__".
Definition search_doc : string := "parse_search_value.__doc__".

(** ** [format_device] *)

Definition bracket (addr : string) : string :=
  if contains ":" addr then "[" +:+ addr +:+ "]" else addr.

Definition format_device (dev : Dev.t) : string :=
  "d" +:+ pretty (Dev.id dev) +:+ "r" +:+ pretty (Dev.region dev)
  +:+ "z" +:+ pretty (Dev.zone dev) +:+ "-" +:+ bracket (Dev.ip dev)
  +:+ ":" +:+ pretty (Dev.port dev) +:+ "R" +:+ bracket (Dev.replication_ip dev)
  +:+ ":" +:+ pretty (Dev.replication_port dev) +:+ "/" +:+ Dev.device dev
  +:+ "_" +:+ dq +:+ Dev.meta dev +:+ dq.

(** The dict [new_dev] once [add_dev] has stored the id it returns in it,
    as [format_device] reads it: the keys of the address, not the weight. *)
Definition added (new_dev : NewDev.t) (dev_id : Z) : Dev.t :=
  Dev.mk dev_id (NewDev.region new_dev) (NewDev.zone new_dev) (NewDev.ip new_dev)
         (NewDev.port new_dev) (NewDev.replication_ip new_dev)
         (NewDev.replication_port new_dev) (NewDev.device new_dev)
         (finite (NewDev.weight new_dev)) 0 (NewDev.meta new_dev).

(** ** The commands *)

Section CLI.
Context `{L : RingLib}.

(** [dev], read through the reference *)
Definition deref (r : ref) : Cmd Dev.t :=
  fun w => (Return (heap (builder w) r), w).

(** [dev[key] = value], for the keys that make [dev] differ from the dict *)
Definition assign (r : ref) (dev : Dev.t) : Cmd unit :=
  fun w => (Return tt, with_builder (store r dev (builder w)) w).

(** *** Per-device balance, as [default] and [search] compute it *)

(** [sum(d['weight'] for d in builder.devs if d is not None)] *)
Definition sum_weights (b : RingBuilder Internal) : Q :=
  fold_left Qplus (map (fun r => Dev.weight (heap b r)) (live b)) 0%Q.

(** [builder.parts * builder.replicas / sum(...)] *)
Definition weighted_parts (b : RingBuilder Internal) : result Q :=
  py_div (inject_Z (parts b) * replicas b)%Q (sum_weights b).

Definition dev_balance (weighted_parts : Q) (dev : Dev.t) : result Q :=
  if Qeq_bool (Dev.weight dev) 0 then
    if Dev.parts dev =? 0 then Ok 0%Q else Ok MAX_BALANCE
  else
    match py_div (100 * inject_Z (Dev.parts dev))%Q (Dev.weight dev * weighted_parts)%Q with
    | Ok q => Ok (q - 100)%Q
    | Err e => Err e
    end.

Definition devices_header : string :=
  "Devices:    id  region  zone      ip address  port  replication ip  replication port      name weight partitions balance meta".

Definition device_row_fmt : string :=
  "         %5d %7d %5d %15s %5d %15s %17d %9s %6.02f %10s %7.02f %s".

Definition device_row (dev : Dev.t) (balance : Q) : line :=
  Line device_row_fmt
       [VInt (Dev.id dev); VInt (Dev.region dev); VInt (Dev.zone dev);
        VStr (Dev.ip dev); VInt (Dev.port dev); VStr (Dev.replication_ip dev);
        VInt (Dev.replication_port dev); VStr (Dev.device dev);
        VFloat (Dev.weight dev); VInt (Dev.parts dev); VFloat balance;
        VStr (Dev.meta dev)].

Definition print_line (l : line) : Cmd unit := print (fmt l) (args l).

(** The body of the display loop for one device. *)
Definition show_device (weighted_parts : Q) (dev : Dev.t) : Cmd unit :=
  balance <- lift (dev_balance weighted_parts dev) ;;
  print_line (device_row dev balance).

(** The body of [for dev in builder.devs] in [default]. *)
Definition show_slot (weighted_parts : Q) (dev : option ref) : Cmd unit :=
  match dev with
  | None => ret tt
  | Some r => dev <- deref r ;; show_device weighted_parts dev
  end.

(** The body of [for dev in devs] in [search]. *)
Definition show_found (weighted_parts : Q) (r : ref) : Cmd unit :=
  dev <- deref r ;; show_device weighted_parts dev.

Definition default (argv : list string) : Cmd unit :=
  a1 <- argv_get argv 1 ;;
  b <- get_builder ;;
  print "%s, build version %d" [VStr a1; VInt (version b)] ;;
  stats <- match devs b with
           | [] => ret (0, 0, 0, 0%Q)
           | _ =>
               let ds := map (heap b) (live b) in
               let regions := length (remove_dups (map Dev.region ds)) in
               let zones :=
                 length (remove_dups (map (fun d => (Dev.region d, Dev.zone d)) ds)) in
               let dev_count := length ds in
               balance <- call get_balance ;;
               ret (Z.of_nat regions, Z.of_nat zones, Z.of_nat dev_count, balance)
           end ;;
  b <- get_builder ;;
  let '(regions, zones, dev_count, balance) := stats in
  print "%d partitions, %.6f replicas, %d regions, %d zones, %d devices, %.02f balance"
        [VInt (parts b); VFloat (replicas b); VInt regions; VInt zones;
         VInt dev_count; VFloat balance] ;;
  print "The minimum number of hours before a partition can be reassigned is %s"
        [VInt (min_part_hours b)] ;;
  match devs b with
  | [] => ret tt
  | _ =>
      print devices_header [] ;;
      wp <- lift (weighted_parts b) ;;
      for_each (devs b) (show_slot wp)
  end ;;
  exit EXIT_SUCCESS.

Definition search (argv : list string) : Cmd unit :=
  (if (length argv <? 4)%nat
   then print (doc "search") [] ;; print "" [] ;; print search_doc [] ;;
        exit EXIT_ERROR
   else ret tt) ;;
  a3 <- argv_get argv 3 ;;
  sv <- lift (parse_search_value a3) ;;
  found <- call (search_devs sv) ;;
  match found with
  | [] => print "No matching devices found" [] ;; exit EXIT_ERROR
  | _ => ret tt
  end ;;
  print devices_header [] ;;
  b <- get_builder ;;
  wp <- lift (weighted_parts b) ;;
  for_each found (show_found wp) ;;
  exit EXIT_SUCCESS.

(** *** [set_replicas] *)

Definition set_replicas (argv : list string) : Cmd unit :=
  (if (length argv <? 4)%nat
   then print (doc "set_replicas") [] ;; exit EXIT_ERROR
   else ret tt) ;;
  new_replicas <- argv_get argv 3 ;;
  new_replicas <- match float new_replicas with
                  | Some r => ret r
                  | None =>
                      print (doc "set_replicas") [] ;;
                      print (dq +:+ "%s" +:+ dq +:+ " is not a valid number.")
                            [VStr new_replicas] ;;
                      exit EXIT_ERROR
                  end ;;
  (if float_lt new_replicas 1
   then print "Replica count must be at least 1." [] ;; exit EXIT_ERROR
   else ret tt) ;;
  call (set_replicas_ new_replicas) ;;
  b <- get_builder ;;
  print "The replica count is now %.6f." [VFloat (replicas b)] ;;
  print "The change will take effect after the next rebalance." [] ;;
  a1 <- argv_get argv 1 ;;
  builder_save a1 ;;
  exit EXIT_SUCCESS.

(** *** [_parse_add_values] *)

Definition unchanged_msg : string := "The on-disk ring builder is unchanged." +:+ nl.

Definition invalid_add_value {A} (devstr : string) : Cmd A :=
  print "Invalid add value: %s" [VStr devstr] ;;
  print unchanged_msg [] ;;
  exit EXIT_ERROR.

(** With [rest] starting with the separator before an address ('-' or 'R'):
    the address and what follows it.  [rest[1]] raises [IndexError] when
    nothing follows the separator. *)
Definition scan_ip (rest : string) : Cmd (string * string) :=
  match tail rest with
  | EmptyString => raise IndexError
  | String c after =>
      if Ascii.eqb c "["
      then let (body, r) := span (is_not "]") after in
           ret (rstrip "]" (lstrip "[" ("[" +:+ body +:+ first r)), tail r)
      else ret (span in_digits_dot (tail rest))
  end.

(** [i = 1; while i < len(rest) and rest[i].isdigit(): i += 1], then
    [int(rest[1:i])] and [rest[i:]] *)
Definition scan_int (rest : string) : Cmd (Z * string) :=
  let (tok, rest') := span isdigit (tail rest) in
  n <- lift (py_int tok) ;;
  ret (n, rest').

(** One turn of the loop over [devs_and_weights], up to [meta]: the device
    read off [devstr], still waiting for its weight. *)
Definition scan_device (devstr : string) : Cmd (pyfloat -> NewDev.t) :=
  rr <- (if startswith "r" devstr
         then scan_int devstr
         else stderr_write ("WARNING: No region specified for " +:+ devstr +:+
                            ". Defaulting to region 1." +:+ nl) ;;
              ret (1, devstr)) ;;
  let '(region, rest) := rr in
  (if startswith "z" rest then ret tt
   else print "Invalid add value: %s" [VStr devstr] ;; exit EXIT_ERROR) ;;
  zr <- scan_int rest ;;
  let '(zone, rest) := zr in
  (if startswith "-" rest then ret tt else invalid_add_value devstr) ;;
  ir <- scan_ip rest ;;
  let '(ip, rest) := ir in
  (if startswith ":" rest then ret tt else invalid_add_value devstr) ;;
  pr <- scan_int rest ;;
  let '(port, rest) := pr in
  rep <- (if startswith "R" rest
          then ir <- scan_ip rest ;;
               let '(replication_ip, rest) := ir in
               (if startswith ":" rest then ret tt else invalid_add_value devstr) ;;
               pr <- scan_int rest ;;
               let '(replication_port, rest) := pr in
               ret (replication_ip, replication_port, rest)
          else ret (ip, port, rest)) ;;
  let '(replication_ip, replication_port, rest) := rep in
  (if startswith "/" rest then ret tt else invalid_add_value devstr) ;;
  let (device_name, rest) := span (is_not "_") (tail rest) in
  let meta := if startswith "_" rest then tail rest else EmptyString in
  ret (fun weight => NewDev.mk region zone ip port device_name replication_ip
                               replication_port weight meta).

(** The rest of the turn: [float(weightstr)] and the test [weight < 0]. *)
Definition parse_weight (weightstr : string) : Cmd pyfloat :=
  weight <- match float weightstr with
            | Some weight => ret weight
            | None =>
                print "Invalid weight value: %s" [VStr weightstr] ;;
                print unchanged_msg [] ;;
                exit EXIT_ERROR
            end ;;
  (if float_lt weight 0
   then print "Invalid weight value (must be positive): %s" [VStr weightstr] ;;
        print unchanged_msg [] ;;
        exit EXIT_ERROR
   else ret tt) ;;
  ret weight.

Definition parse_add_value (devstr weightstr : string) : Cmd NewDev.t :=
  dev <- scan_device devstr ;;
  weight <- parse_weight weightstr ;;
  ret (dev weight).

(** [parsed_devs = []; for x in xs: ...; parsed_devs.append(f x)] *)
Fixpoint collect {A B} (f : A -> Cmd B) (xs : list A) : Cmd (list B) :=
  match xs with
  | [] => ret []
  | x :: rest => y <- f x ;; ys <- collect f rest ;; ret (y :: ys)
  end.

Definition isValueError (e : exn) : bool :=
  match e with
  | ValueError _ => true
  | _ => false
  end.

(** [parse_args(argvish)], which may end the process. *)
Definition call_parse_args (argvish : list string) : Cmd (Opts * list string) :=
  match parse_args argvish with
  | Parsed opts args => ret (opts, args)
  | ParseHelp text => print text [] ;; exit EXIT_SUCCESS
  | ParseError text => stderr_write text ;; exit EXIT_ERROR
  end.

Definition _parse_add_values (argvish : list string) : Cmd (list NewDev.t) :=
  oa <- call_parse_args argvish ;;
  let (opts, args) := oa : Opts * list string in
  if (0 <? length args)%nat && opts_used opts
  then print (doc "add") [] ;; exit EXIT_ERROR
  else if (0 <? length args)%nat
  then
    if negb (length args mod 2 =? 0)%nat
    then print (doc "add") [] ;; exit EXIT_ERROR
    else collect (fun p => parse_add_value (fst p) (snd p)) (pairs args)
  else
    dev <- try_except (lift (build_dev_from_opts opts)) isValueError
             (fun e => print "%s" [VStr (message e)] ;;
                       print unchanged_msg [] ;;
                       exit EXIT_ERROR) ;;
    ret [dev].

(** *** [add] *)

Definition same_address (ip : string) (port : Z) (device : string) (dev : Dev.t) : bool :=
  String.eqb (Dev.ip dev) ip && (Dev.port dev =? port) && String.eqb (Dev.device dev) device.

Definition already_uses (dev : Dev.t) : line :=
  Line "Device %d already uses %s:%d/%s."
       [VInt (Dev.id dev); VStr (Dev.ip dev); VInt (Dev.port dev); VStr (Dev.device dev)].

(** The body of [for dev in builder.devs] in [add]. *)
Definition check_duplicate (new_dev : NewDev.t) (dev : option ref) : Cmd unit :=
  match dev with
  | None => ret tt
  | Some r =>
      dev <- deref r ;;
      if same_address (NewDev.ip new_dev) (NewDev.port new_dev) (NewDev.device new_dev) dev
      then print_line (already_uses dev) ;;
           print unchanged_msg [] ;;
           exit EXIT_ERROR
      else ret tt
  end.

(** The body of [for new_dev in _parse_add_values(argv[3:])]. *)
Definition add_one (new_dev : NewDev.t) : Cmd unit :=
  b <- get_builder ;;
  for_each (devs b) (check_duplicate new_dev) ;;
  dev_id <- call (add_dev new_dev) ;;
  print "Device %s with %s weight got id %s"
        [VStr (format_device (added new_dev dev_id)); VFloat (NewDev.weight new_dev);
         VInt dev_id].

Definition add (argv : list string) : Cmd unit :=
  (if (length argv <? 5)%nat || negb (length argv mod 2 =? 1)%nat
   then print (doc "add") [] ;; exit EXIT_ERROR
   else ret tt) ;;
  new_devs <- _parse_add_values (drop 3 argv) ;;
  for_each new_devs add_one ;;
  a1 <- argv_get argv 1 ;;
  builder_save a1 ;;
  exit EXIT_SUCCESS.

(** *** The edits of several devices *)

Definition matched_zero (search_value : string) (tail_nl : bool) : line :=
  Line ("Search value " +:+ dq +:+ "%s" +:+ dq +:+ " matched 0 devices." +:+ nl +:+
        "The on-disk ring builder is unchanged." +:+ (if tail_nl then nl else EmptyString))
       [VStr search_value].

(** The question asked when a search value matches several devices; the
    three edit commands spell it out with their own wording. *)
Definition confirm (found : list ref) (question abort : string) : Cmd unit :=
  if (1 <? length found)%nat
  then
    print "Matched more than one device:" [] ;;
    for_each found (fun r => dev <- deref r ;; print "    %s" [VStr (format_device dev)]) ;;
    answer <- raw_input question [VInt (Z.of_nat (length found))] ;;
    if String.eqb answer "y" then ret tt
    else print abort [] ;; exit EXIT_ERROR
  else ret tt.

(** **** [set_weight] *)

(** The turn of the loop over [devs_and_weights], up to [for dev in devs]:
    the devices matched and the weight to give them. *)
Definition set_weight_matched (devstr weightstr : string) : Cmd (list ref * pyfloat) :=
  sv <- lift (parse_search_value devstr) ;;
  found <- call (search_devs sv) ;;
  weight <- match float weightstr with
            | Some weight => ret weight
            | None => raise (ValueError "could not convert string to float")
            end ;;
  match found with
  | [] => print_line (matched_zero devstr true) ;; exit EXIT_ERROR
  | _ => ret tt
  end ;;
  confirm found "Are you sure you want to update the weight for these %s devices? (y/N) "
          "Aborting device modifications" ;;
  ret (found, weight).

(** The body of [for dev in devs] in [set_weight]. *)
Definition set_weight_dev (weight : pyfloat) (r : ref) : Cmd unit :=
  dev <- deref r ;;
  call (set_dev_weight (Dev.id dev) weight) ;;
  dev <- deref r ;;
  print "%s weight set to %s" [VStr (format_device dev); VFloat (Dev.weight dev)].

Definition set_weight_one (devstr weightstr : string) : Cmd unit :=
  m <- set_weight_matched devstr weightstr ;;
  for_each (fst m) (set_weight_dev (snd m)).

Definition set_weight (argv : list string) : Cmd unit :=
  (if (length argv <? 5)%nat || negb (length argv mod 2 =? 1)%nat
   then print (doc "set_weight") [] ;; print "" [] ;; print search_doc [] ;;
        exit EXIT_ERROR
   else ret tt) ;;
  for_each (pairs (drop 3 argv)) (fun p => set_weight_one (fst p) (snd p)) ;;
  a1 <- argv_get argv 1 ;;
  builder_save a1 ;;
  exit EXIT_SUCCESS.

(** **** [set_info] *)

(** One pair [(key, value)] of the list [change]. *)
Inductive change : Type :=
| SetIp (v : string)
| SetPort (v : Z)
| SetReplicationIp (v : string)
| SetReplicationPort (v : Z)
| SetDevice (v : string)
| SetMeta (v : string).

(** [dev[key] = value] *)
Definition apply_change (dev : Dev.t) (c : change) : Dev.t :=
  match c with
  | SetIp v =>
      Dev.mk (Dev.id dev) (Dev.region dev) (Dev.zone dev) v (Dev.port dev)
             (Dev.replication_ip dev) (Dev.replication_port dev) (Dev.device dev)
             (Dev.weight dev) (Dev.parts dev) (Dev.meta dev)
  | SetPort v =>
      Dev.mk (Dev.id dev) (Dev.region dev) (Dev.zone dev) (Dev.ip dev) v
             (Dev.replication_ip dev) (Dev.replication_port dev) (Dev.device dev)
             (Dev.weight dev) (Dev.parts dev) (Dev.meta dev)
  | SetReplicationIp v =>
      Dev.mk (Dev.id dev) (Dev.region dev) (Dev.zone dev) (Dev.ip dev) (Dev.port dev)
             v (Dev.replication_port dev) (Dev.device dev)
             (Dev.weight dev) (Dev.parts dev) (Dev.meta dev)
  | SetReplicationPort v =>
      Dev.mk (Dev.id dev) (Dev.region dev) (Dev.zone dev) (Dev.ip dev) (Dev.port dev)
             (Dev.replication_ip dev) v (Dev.device dev)
             (Dev.weight dev) (Dev.parts dev) (Dev.meta dev)
  | SetDevice v =>
      Dev.mk (Dev.id dev) (Dev.region dev) (Dev.zone dev) (Dev.ip dev) (Dev.port dev)
             (Dev.replication_ip dev) (Dev.replication_port dev) v
             (Dev.weight dev) (Dev.parts dev) (Dev.meta dev)
  | SetMeta v =>
      Dev.mk (Dev.id dev) (Dev.region dev) (Dev.zone dev) (Dev.ip dev) (Dev.port dev)
             (Dev.replication_ip dev) (Dev.replication_port dev) (Dev.device dev)
             (Dev.weight dev) (Dev.parts dev) v
  end.

(** [for key, value in change: dev[key] = value] *)
Definition apply_changes (cs : list change) (dev : Dev.t) : Dev.t :=
  fold_left apply_change cs dev.

(** The address a change value may start with, and what follows it. *)
Definition scan_change_ip (cv : string) : option string * string :=
  match cv with
  | String c after =>
      if isdigit c
      then let (tok, r) := span in_digits_dot after in (Some (String c tok), r)
      else if Ascii.eqb c "["
      then let (body, r) := span (is_not "]") after in
           (Some (rstrip "]" (lstrip "[" ("[" +:+ body +:+ first r))), tail r)
      else (None, cv)
  | EmptyString => (None, cv)
  end.

(** The [:<port>] a change value may go on with. *)
Definition scan_change_port (cv : string) : result (option Z * string) :=
  if startswith ":" cv
  then let (tok, r) := span isdigit (tail cv) in
       match py_int tok with
       | Ok n => Ok (Some n, r)
       | Err e => Err e
       end
  else Ok (None, cv).

Definition appended {A} (f : A -> change) (o : option A) : list change :=
  match o with
  | Some v => [f v]
  | None => []
  end.

(** The list [change] that [set_info] reads off [change_value], or the
    [ValueError] it raises (whose text quotes [argv[4]]). *)
Definition parse_change (argv4 change_value : string) : result (list change) :=
  let (ip, cv) := scan_change_ip change_value in
  match scan_change_port cv with
  | Err e => Err e
  | Ok (port, cv) =>
      match (if startswith "R" cv
             then let (rip, cv) := scan_change_ip (tail cv) in
                  match scan_change_port cv with
                  | Err e => Err e
                  | Ok (rport, cv) =>
                      Ok (appended SetReplicationIp rip ++ appended SetReplicationPort rport, cv)
                  end
             else Ok ([], cv)) with
      | Err e => Err e
      | Ok (replication, cv) =>
          let (dev, cv) :=
            if startswith "/" cv
            then let (tok, r) := span (is_not "_") (tail cv) in ([SetDevice tok], r)
            else ([], cv) in
          let (meta, cv) :=
            if startswith "_" cv then ([SetMeta (tail cv)], EmptyString) else ([], cv) in
          let change := appended SetIp ip ++ appended SetPort port ++ replication ++ dev ++ meta in
          if negb (String.eqb cv EmptyString) || (length change =? 0)%nat
          then Err (ValueError ("Invalid set info change value: " +:+ argv4))
          else Ok change
      end
  end.

(** The body of [for check_dev in builder.devs] in [set_info]. *)
Definition check_collision (test_dev : Dev.t) (check_dev : option ref) : Cmd unit :=
  match check_dev with
  | None => ret tt
  | Some c =>
      check_dev <- deref c ;;
      if Dev.id check_dev =? Dev.id test_dev then ret tt
      else if same_address (Dev.ip test_dev) (Dev.port test_dev) (Dev.device test_dev)
                           check_dev
      then print_line (already_uses check_dev) ;; exit EXIT_ERROR
      else ret tt
  end.

(** The body of [for dev in devs] in [set_info]. *)
Definition set_info_dev (change : list change) (r : ref) : Cmd unit :=
  dev <- deref r ;;
  let orig_dev_string := format_device dev in
  let test_dev := apply_changes change dev in
  b <- get_builder ;;
  for_each (devs b) (check_collision test_dev) ;;
  dev <- deref r ;;
  assign r (apply_changes change dev) ;;
  dev <- deref r ;;
  print "Device %s is now %s" [VStr orig_dev_string; VStr (format_device dev)].

(** The turn of the loop over [searches_and_changes], up to
    [for dev in devs]: the devices matched and the changes to make. *)
Definition set_info_matched (argv4 search_value change_value : string)
    : Cmd (list ref * list change) :=
  sv <- lift (parse_search_value search_value) ;;
  found <- call (search_devs sv) ;;
  change <- lift (parse_change argv4 change_value) ;;
  match found with
  | [] => print_line (matched_zero search_value true) ;; exit EXIT_ERROR
  | _ => ret tt
  end ;;
  confirm found "Are you sure you want to update the info for these %s devices? (y/N) "
          "Aborting device modifications" ;;
  ret (found, change).

Definition set_info_one (argv4 search_value change_value : string) : Cmd unit :=
  m <- set_info_matched argv4 search_value change_value ;;
  for_each (fst m) (set_info_dev (snd m)).

Definition set_info (argv : list string) : Cmd unit :=
  (if (length argv <? 5)%nat || negb (length argv mod 2 =? 1)%nat
   then print (doc "set_info") [] ;; print "" [] ;; print search_doc [] ;;
        exit EXIT_ERROR
   else ret tt) ;;
  a4 <- argv_get argv 4 ;;
  for_each (pairs (drop 3 argv)) (fun p => set_info_one a4 (fst p) (snd p)) ;;
  a1 <- argv_get argv 1 ;;
  builder_save a1 ;;
  exit EXIT_SUCCESS.

(** **** [remove] *)

(** ['-' * 79] *)
Definition dashes : string := string_of_list_ascii (repeat "-"%char 79).

Definition remove_failed {A} (r : ref) (e : exn) : Cmd A :=
  dev <- deref r ;;
  print dashes [] ;;
  print ("An error occurred while removing device with id %d" +:+ nl +:+
         "This usually means that you attempted to remove" +:+ nl +:+
         "the last device in a ring. If this is the case," +:+ nl +:+
         "consider creating a new ring instead." +:+ nl +:+
         "The on-disk ring builder is unchanged." +:+ nl +:+
         "Original exception message: %s")
        [VInt (Dev.id dev); VStr (message e)] ;;
  print dashes [] ;;
  exit EXIT_ERROR.

(** The body of [for dev in devs] in [remove]. *)
Definition remove_dev_one (r : ref) : Cmd unit :=
  dev <- deref r ;;
  try_except (call (remove_dev (Dev.id dev))) isRingBuilderError (remove_failed r) ;;
  dev <- deref r ;;
  print "%s marked for removal and will be removed next rebalance."
        [VStr (format_device dev)].

(** The turn of the loop over [argv[3:]], up to [for dev in devs]. *)
Definition remove_matched (search_value : string) : Cmd (list ref) :=
  sv <- lift (parse_search_value search_value) ;;
  found <- call (search_devs sv) ;;
  match found with
  | [] => print_line (matched_zero search_value false) ;; exit EXIT_ERROR
  | _ => ret tt
  end ;;
  confirm found "Are you sure you want to remove these %s devices? (y/N) "
          "Aborting device removals" ;;
  ret found.

Definition remove_one (search_value : string) : Cmd unit :=
  found <- remove_matched search_value ;;
  for_each found remove_dev_one.

Definition remove (argv : list string) : Cmd unit :=
  (if (length argv <? 4)%nat
   then print (doc "remove") [] ;; print "" [] ;; print search_doc [] ;;
        exit EXIT_ERROR
   else ret tt) ;;
  for_each (drop 3 argv) remove_one ;;
  a1 <- argv_get argv 1 ;;
  builder_save a1 ;;
  exit EXIT_SUCCESS.

(** *** [rebalance] *)

Definition validation_failed {A} (e : exn) : Cmd A :=
  print dashes [] ;;
  print ("An error has occurred during ring validation. Common" +:+ nl +:+
         "causes of failure are rings that are empty or do not" +:+ nl +:+
         "have enough devices to accommodate the replica count." +:+ nl +:+
         "Original exception message:" +:+ nl +:+ " %s")
        [VStr (message e)] ;;
  print dashes [] ;;
  exit EXIT_ERROR.

(** The test under which a computed rebalance is not worth saving:
    [abs(last_balance - balance) < 1] on the difference as doubles give
    it. *)
Definition too_small (devs_changed : bool) (last_balance balance : Q) : bool :=
  negb devs_changed && Qlt_bool (Qabs (float_sub last_balance balance)) 1
  && negb (Qeq_bool last_balance MAX_BALANCE && Qeq_bool balance MAX_BALANCE).

(** ['%d.' % ts + basename(path)], in [backup_dir] *)
Definition backup_path (backup_dir : string) (ts : Z) (path : string) : string :=
  pathjoin backup_dir (pretty ts +:+ "." +:+ basename path).

Definition rebalance (argv : list string) (backup_dir ring_file : string) : Cmd unit :=
  b <- get_builder ;;
  let devs_changed := devs_changed b in
  r <- try_except
         (last_balance <- call get_balance ;;
          moved <- call (rebalance_ (argv !! 3%nat)) ;;
          ret (last_balance, moved))
         isRingBuilderError validation_failed ;;
  let '(last_balance, (moved, balance)) := r in
  (if moved =? 0
   then print "No partitions could be reassigned." [] ;;
        b <- get_builder ;;
        print "Either none need to be or none can be due to min_part_hours [%s]."
              [VInt (min_part_hours b)] ;;
        exit EXIT_WARNING
   else ret tt) ;;
  (if too_small devs_changed last_balance balance
   then print "Cowardly refusing to save rebalance as it did not change at least 1%." [] ;;
        exit EXIT_WARNING
   else ret tt) ;;
  try_except (call validate_) isRingValidationError validation_failed ;;
  b <- get_builder ;;
  percent <- lift (py_div (100 * inject_Z moved)%Q (inject_Z (parts b))) ;;
  print "Reassigned %d (%.02f%%) partitions. Balance is now %.02f."
        [VInt moved; VFloat percent; VFloat balance] ;;
  status <- (if Qlt_bool 5 balance
             then print dashes [] ;;
                  print "NOTE: Balance of %.02f indicates you should push this " [VFloat balance] ;;
                  b <- get_builder ;;
                  print "      ring, wait at least %d hours, and rebalance/repush."
                        [VInt (min_part_hours b)] ;;
                  print dashes [] ;;
                  ret EXIT_WARNING
             else ret EXIT_SUCCESS) ;;
  ts <- time_ ;;
  ring <- call get_ring ;;
  ring_save ring (backup_path backup_dir ts ring_file) ;;
  a1 <- argv_get argv 1 ;;
  builder_save (backup_path backup_dir ts a1) ;;
  ring <- call get_ring ;;
  ring_save ring ring_file ;;
  builder_save a1 ;;
  exit status.

(** ** What the statements below speak of *)

(** A computation that leaves the files on disk as they are. *)
Definition keeps_fs {A} (c : Cmd A) : Prop := forall w, fs (snd (c w)) = fs w.

(** Some live device of [b] has this ip, port and device name. *)
Definition address_in_use (ip : string) (port : Z) (device : string)
    (b : RingBuilder Internal) : Prop :=
  exists r, In (Some r) (devs b) /\ same_address ip port device (heap b r) = true.

(** What the registry promises of [add_dev]: the device it adds is live
    afterwards, under the address it was given, and so is every address that
    was in use before. *)
Definition add_dev_registers : Prop :=
  forall new_dev b dev_id b',
    add_dev new_dev b = (Ok dev_id, b') ->
    address_in_use (NewDev.ip new_dev) (NewDev.port new_dev) (NewDev.device new_dev) b'
    /\ forall ip port device,
         address_in_use ip port device b -> address_in_use ip port device b'.

(** A computation that ended without doing its work: by [exit(EXIT_ERROR)] or
    by an exception that nobody caught. *)
Definition stopped {A} (o : outcome A) : Prop :=
  o = Exit EXIT_ERROR \/ exists e, o = Raise e.

(** The same of a command. *)
Definition failed (o : outcome unit) : Prop := stopped o.

(** A search value that [parse_search_value] refuses. *)
Definition malformed_search (search_value : string) : Prop :=
  exists e, parse_search_value search_value = Err e.

(** A search value that matches no device of the builder in [w]. *)
Definition matches_none (search_value : string) (w : World) : Prop :=
  exists sv b', parse_search_value search_value = Ok sv
                /\ search_devs sv (builder w) = (Ok [], b').

(** A computation that only reads and reports: it leaves the builder object
    and the files as they are, and when it exits, it exits with status 2. *)
Definition only_reports {A} (c : Cmd A) : Prop :=
  forall w,
    builder (snd (c w)) = builder w
    /\ fs (snd (c w)) = fs w
    /\ forall s, fst (c w) = Exit s -> s = EXIT_ERROR.


(** [w] after the lines [ls] were printed. *)
Definition printed (ls : list line) (w : World) : World :=
  mkWorld (builder w) (fs w) (stdout w ++ ls) (stderr w) (stdin w) (clock w).

(** The balance of a device by the formula, [weighted_parts] being the
    number of partitions a unit of weight is due. *)
Definition formula (weighted_parts : Q) (dev : Dev.t) : Q :=
  (100 * inject_Z (Dev.parts dev) / (Dev.weight dev * weighted_parts) - 100)%Q.

(** The fair share of a device: its weight times [weighted_parts]. *)
Definition fair_share (weighted_parts : Q) (dev : Dev.t) : Q :=
  (Dev.weight dev * weighted_parts)%Q.

(** What the specification says a displayed balance [v] is. *)
Definition reported (weighted_parts : Q) (dev : Dev.t) (v : Q) : Prop :=
  (~ (Dev.weight dev == 0)%Q -> v = formula weighted_parts dev)
  /\ ((Dev.weight dev == 0)%Q -> 0 < Dev.parts dev -> v = MAX_BALANCE)
  /\ ((Dev.weight dev == 0)%Q -> Dev.parts dev = 0 -> v = 0%Q).

(** The balance that [dev_balance] computes, when it raises nothing. *)
Definition balance_value (weighted_parts : Q) (dev : Dev.t) : Q :=
  match dev_balance weighted_parts dev with
  | Ok v => v
  | Err _ => 0%Q
  end.

End CLI.

(** ** The other commands

    [create], [list_parts], [validate], [write_ring],
    [pretend_min_part_hours_passed], [set_min_part_hours] and [unknown] call
    into the ring package and the platform beyond [RingLib]. *)

Class RingTools `{L : RingLib} : Type := {
  (** the builtin [int] on any string; [None] is [ValueError] *)
  int_ : string -> option Z;
  (** [RingBuilder(part_power, replicas, min_part_hours)] *)
  RingBuilder_ : Z -> pyfloat -> Z -> result (RingBuilder Internal);
  (** further [RingBuilder] methods; [get_part_devices] returns dicts of
      [builder.devs] *)
  get_part_devices : Z -> method Internal (list ref);
  change_min_part_hours : Z -> method Internal unit;
  pretend_min_part_hours_passed_ : method Internal unit;
  (** [not ring_data._replica2part2dev_id] and [not ring_data.devs] *)
  no_assignments : RingData -> bool;
  no_devs : RingData -> bool;
  (** [os.path.dirname] *)
  dirname : string -> string;
  (** [os.mkdir(path)]: the [OSError] it raises, if any (directories are
      not among the files of the world); [err.errno == EEXIST] *)
  mkdir_ : string -> World -> option exn;
  isOSError : exn -> bool;
  errno_is_EEXIST : exn -> bool
}.

Section MoreCommands.
Context `{T : RingTools}.

(** [int(s)] and [float(s)] where nothing catches the [ValueError] *)
Definition int_of (s : string) : Cmd Z :=
  match int_ s with
  | Some n => ret n
  | None => raise (ValueError "invalid literal for int() with base 10")
  end.

Definition float_of (s : string) : Cmd pyfloat :=
  match float s with
  | Some q => ret q
  | None => raise (ValueError "could not convert string to float")
  end.

(** [mkdir(path)] *)
Definition mkdir (path : string) : Cmd unit :=
  fun w => match mkdir_ path w with
           | None => (Return tt, w)
           | Some e => (Raise e, w)
           end.

(** [try: mkdir(backup_dir)  except OSError as err: if err.errno != EEXIST: raise] *)
Definition make_backup_dir (backup_dir : string) : Cmd unit :=
  try_except (mkdir backup_dir) isOSError
             (fun e => if errno_is_EEXIST e then ret tt else raise e).

Definition unknown (argv : list string) : Cmd unit :=
  a2 <- argv_get argv 2 ;;
  print "Unknown command: %s" [VStr a2] ;;
  exit EXIT_ERROR.

(** [create] builds a builder of its own (the name [builder] is local to
    it) and saves that. *)
Definition create (argv : list string) : Cmd unit :=
  (if (length argv <? 6)%nat
   then print (doc "create") [] ;; exit EXIT_ERROR
   else ret tt) ;;
  a3 <- argv_get argv 3 ;;
  part_power <- int_of a3 ;;
  a4 <- argv_get argv 4 ;;
  replicas <- float_of a4 ;;
  a5 <- argv_get argv 5 ;;
  min_part_hours <- int_of a5 ;;
  new_builder <- lift (RingBuilder_ part_power replicas min_part_hours) ;;
  a1 <- argv_get argv 1 ;;
  let backup_dir := pathjoin (dirname a1) "backups" in
  make_backup_dir backup_dir ;;
  ts <- time_ ;;
  write_file (backup_path backup_dir ts a1) (BuilderFile new_builder) ;;
  write_file a1 (BuilderFile new_builder) ;;
  exit EXIT_SUCCESS.

(** *** [list_parts] *)

(** [s = s0; for x in xs: s = body s x] *)
Fixpoint fold_each {A S} (xs : list A) (body : S -> A -> Cmd S) (s : S) : Cmd S :=
  match xs with
  | [] => ret s
  | x :: rest => s' <- body s x ;; fold_each rest body s'
  end.

(** The slot that the index [i] names in a list of [n] items: Python counts
    a negative index from the end. *)
Definition py_index (n : nat) (i : Z) : option nat :=
  if (0 <=? i) && (i <? Z.of_nat n) then Some (Z.to_nat i)
  else if (i <? 0) && (0 <=? i + Z.of_nat n) then Some (Z.to_nat (i + Z.of_nat n))
  else None.

(** The largest number that an [array('i')] holds. *)
Definition INT_MAX : Z := 2147483647.

(** [len([d for d in builder.get_part_devices(part) if d['id'] in devs])] *)
Definition count_matches (ids : list Z) (part : Z) : Cmd Z :=
  on <- call (get_part_devices part) ;;
  b <- get_builder ;;
  ret (Z.of_nat (length (filter (fun r => existsb (Z.eqb (Dev.id (heap b r))) ids = true) on))).

(** The body of [for part in xrange(builder.parts)]. *)
Definition list_parts_turn (ids : list Z) (max_replicas : Z) (matches : list (list Z))
    (part : Z) : Cmd (list (list Z)) :=
  count <- count_matches ids part ;;
  if count =? 0 then ret matches
  else match py_index (length matches) (max_replicas - count) with
       | None => raise IndexError
       | Some i =>
           if part <=? INT_MAX then ret (alter (fun a => a ++ [part]) i matches)
           else raise (LibraryError "OverflowError" "signed integer is greater than maximum")
       end.

Definition partition_row (part matches : Z) : line :=
  Line "%9d   %7d" [VInt part; VInt matches].

(** [builder.search_devs(parse_search_value(arg))] *)
Definition list_parts_search (arg : string) : Cmd (list ref) :=
  sv <- lift (parse_search_value arg) ;;
  call (search_devs sv).

Definition list_parts (argv : list string) : Cmd unit :=
  (if (length argv <? 4)%nat
   then print (doc "list_parts") [] ;; print "" [] ;; print search_doc [] ;;
        exit EXIT_ERROR
   else ret tt) ;;
  found <- collect list_parts_search (drop 3 argv) ;;
  let devs := concat found in
  match devs with
  | [] => print "No matching devices found" [] ;; exit EXIT_ERROR
  | _ => ret tt
  end ;;
  b <- get_builder ;;
  let ids := map (fun r => Dev.id (heap b r)) devs in
  let max_replicas := Qceiling (replicas b) in
  matches <- fold_each (map Z.of_nat (seq 0 (Z.to_nat (parts b))))
                       (list_parts_turn ids max_replicas)
                       (repeat [] (Z.to_nat max_replicas)) ;;
  print "Partition   Matches" [] ;;
  for_each (imap (fun index ps => (index, ps)) matches)
           (fun ip => for_each (snd ip)
                        (fun part => print_line
                                       (partition_row part
                                          (max_replicas - Z.of_nat (fst ip))))) ;;
  exit EXIT_SUCCESS.

(** *** [validate], [write_ring], [pretend_min_part_hours_passed],
    [set_min_part_hours] *)

Definition validate : Cmd unit :=
  call validate_ ;;
  exit EXIT_SUCCESS.

Definition write_ring (backup_dir ring_file : string) : Cmd unit :=
  ring_data <- call get_ring ;;
  (if no_assignments ring_data
   then if negb (no_devs ring_data)
        then print ("Warning: Writing a ring with no partition assignments but with " +:+
                    "devices; did you forget to run " +:+ dq +:+ "rebalance" +:+ dq +:+ "?") []
        else print "Warning: Writing an empty ring" []
   else ret tt) ;;
  ts <- time_ ;;
  ring_save ring_data (backup_path backup_dir ts ring_file) ;;
  ring_save ring_data ring_file ;;
  exit EXIT_SUCCESS.

Definition pretend_min_part_hours_passed (argv : list string) : Cmd unit :=
  call pretend_min_part_hours_passed_ ;;
  a1 <- argv_get argv 1 ;;
  builder_save a1 ;;
  exit EXIT_SUCCESS.

Definition set_min_part_hours (argv : list string) : Cmd unit :=
  (if (length argv <? 4)%nat
   then print (doc "set_min_part_hours") [] ;; exit EXIT_ERROR
   else ret tt) ;;
  a3 <- argv_get argv 3 ;;
  hours <- int_of a3 ;;
  call (change_min_part_hours hours) ;;
  print "The minimum number of hours before a partition can be reassigned is now set to %s"
        [VStr a3] ;;
  a1 <- argv_get argv 1 ;;
  builder_save a1 ;;
  exit EXIT_SUCCESS.

End MoreCommands.

(** ** What the further statements speak of *)

(** Every character of [s] satisfies [p]; the first character of [s] does. *)
Fixpoint every (p : ascii -> bool) (s : string) : bool :=
  match s with
  | EmptyString => true
  | String c s' => p c && every p s'
  end.

Definition led_by (p : ascii -> bool) (s : string) : bool :=
  match s with
  | String c _ => p c
  | EmptyString => false
  end.

(** An address of digits and dots, which [format_device] prints as it is. *)
Definition plain_address (s : string) : bool := every in_digits_dot s.

(** An address that [format_device] prints in brackets and that comes back
    out of them: it has a colon, no closing bracket, and does not start with
    an opening one. *)
Definition bracketed_address (s : string) : bool :=
  contains ":" s && negb (contains "]" s) && negb (startswith "[" s).

(** The addresses that [add] reads back, and those that [set_info] does: a
    change value shows a plain address by its leading digit. *)
Definition address (s : string) : bool := plain_address s || bracketed_address s.

Definition change_address (s : string) : bool :=
  (plain_address s && led_by isdigit s) || bracketed_address s.

(** A character that an address can start with in a device string, and one
    that a change value can start with. *)
Definition address_char (c : ascii) : bool :=
  in_digits_dot c || Ascii.eqb c "[" || Ascii.eqb c ":".

Definition change_lead (c : ascii) : bool :=
  isdigit c || Ascii.eqb c "[" || Ascii.eqb c ":" || Ascii.eqb c "R" || Ascii.eqb c "/"
  || Ascii.eqb c "_".

(** A device string without region, replication address and meta data. *)
Definition short_form (zone : Z) (ip : string) (port : Z) (device : string) : string :=
  "z" +:+ pretty zone +:+ "-" +:+ bracket ip +:+ ":" +:+ pretty port +:+ "/" +:+ device.

Section Statements.
Context `{T : RingTools}.

(** [w] after the warning about the region that [devstr] does not give. *)
Definition warned (devstr : string) (w : World) : World :=
  mkWorld (builder w) (fs w) (stdout w)
          (stderr w ++ ["WARNING: No region specified for " +:+ devstr +:+
                        ". Defaulting to region 1." +:+ nl])
          (stdin w) (clock w).

(** A computation that exits, when it does, with one of [statuses]. *)
Definition exits_with {A} (statuses : list Z) (c : Cmd A) : Prop :=
  forall w s, fst (c w) = Exit s -> In s statuses.

(** A command that, when it ends with status 0, has written the builder
    object as it leaves it under [argv[1]] and no other file, and that has
    written nothing when it ends otherwise. *)
Definition saves_on_success (argv : list string) (c : Cmd unit) : Prop :=
  forall w,
    (fst (c w) = Exit EXIT_SUCCESS
     /\ exists a1, argv !! 1%nat = Some a1
                   /\ fs (snd (c w)) = <[a1 := BuilderFile (builder (snd (c w)))]> (fs w))
    \/ (fst (c w) <> Exit EXIT_SUCCESS /\ fs (snd (c w)) = fs w).

(** The same of [add], whose arguments [parse_args] reads first: asked for
    its help, it ends the command with status 0 before anything is added or
    written. *)
Definition saves_or_helps (argv : list string) (c : Cmd unit) : Prop :=
  forall w,
    (fst (c w) = Exit EXIT_SUCCESS
     /\ exists a1, argv !! 1%nat = Some a1
                   /\ fs (snd (c w)) = <[a1 := BuilderFile (builder (snd (c w)))]> (fs w))
    \/ (fst (c w) = Exit EXIT_SUCCESS
        /\ (exists text, parse_args (drop 3 argv) = ParseHelp text)
        /\ builder (snd (c w)) = builder w /\ fs (snd (c w)) = fs w)
    \/ (fst (c w) <> Exit EXIT_SUCCESS /\ fs (snd (c w)) = fs w).

(** The partitions of a ring of [n] partitions, in order. *)
Definition partitions (n : Z) : list Z := map Z.of_nat (seq 0 (Z.to_nat n)).

(** How many of the devices [on] have their id among [ids]. *)
Definition matching (b : RingBuilder Internal) (ids : list Z) (on : list ref) : Z :=
  Z.of_nat (length (filter (fun r => existsb (Z.eqb (Dev.id (heap b r))) ids = true) on)).

(** The partitions among [ps] with [most], [most - 1], ..., 1 matches. *)
Definition buckets (most : Z) (count : Z -> Z) (ps : list Z) : list (list Z) :=
  map (fun i => filter (fun part => count part = most - Z.of_nat i) ps)
      (seq 0 (Z.to_nat most)).

(** The rows that [list_parts] owes for the partitions [ps], [count] giving
    the number of matches of each: those with [most] matches first, then
    those with one less, down to one match. *)
Definition rows_by_matches (most : Z) (count : Z -> Z) (ps : list Z) : list line :=
  flat_map (fun i => map (fun part => partition_row part (most - Z.of_nat i))
                         (filter (fun part => count part = most - Z.of_nat i) ps))
           (seq 0 (Z.to_nat most)).

End Statements.

(** ** A small ring package

    One implementation of [RingLib], to run the commands on concrete
    command lines.  The registry follows the specification of the ring
    builder; the rebalance engine is scripted: what the next [rebalance] and
    [validate] answer is read from the internal state. *)

Module Example.

Record script : Type := mkScript {
  balance_now : Q;
  next_moved : Z;
  next_balance : Q;
  valid : bool
}.

Inductive search_value : Type :=
| ById (id : Z)
| ByZone (zone : Z).

Definition t : Type := RingBuilder script.

Definition with_internal (s : script) (b : t) : t :=
  mkBuilder (heap b) (devs b) (parts b) (replicas b) (min_part_hours b)
            (version b) (devs_changed b) s.

Fixpoint pow10 (n : nat) : positive :=
  match n with
  | O => 1%positive
  | S n' => (10 * pow10 n')%positive
  end.

(** [s.strip()] *)
Definition strip (s : string) : string :=
  String.rev (snd (span Ascii.is_space (String.rev (snd (span Ascii.is_space s))))).

(** Digits with an optional fraction, [inf], [infinity] or [nan]. *)
Definition unsigned (body : string) : option pyfloat :=
  if String.eqb body "nan" then Some NaN
  else if String.eqb body "inf" || String.eqb body "infinity" then Some (Inf false)
  else
    let (int_part, rest) := span isdigit body in
    let frac :=
      if startswith "." rest then Some (tail rest)
      else if String.eqb rest EmptyString then Some EmptyString else None in
    match frac with
    | None => None
    | Some f =>
        if String.eqb (int_part +:+ f) EmptyString then None
        else match digits_value 0 (int_part +:+ f) with
             | Some n => Some (Finite (Qmake n (pow10 (String.length f))))
             | None => None
             end
    end.

Definition float_neg (x : pyfloat) : pyfloat :=
  match x with
  | Finite q => Finite (- q)
  | Inf negative => Inf (negb negative)
  | NaN => NaN
  end.

(** [float] on the numerals without an exponent: blanks around it, an
    optional sign, then digits with an optional fraction, [inf],
    [infinity] or [nan] (in lower case). *)
Definition decimal (s : string) : option pyfloat :=
  let s := strip s in
  let (neg, body) :=
    if startswith "-" s then (true, tail s)
    else if startswith "+" s then (false, tail s) else (false, s) in
  match unsigned body with
  | Some x => Some (if neg then float_neg x else x)
  | None => None
  end.

(** [parse_args] when no option of the devices is given: [optparse] takes
    the arguments from the left, stops reading options at [--], prints the
    help at [--help] or [-h], and refuses any other argument that starts
    with a dash and is not the dash alone.  (The options of a device,
    [--zone] and the like, are not among these examples.) *)
Fixpoint impl_parse_args_from (seen argvish : list string) : parsed unit :=
  match argvish with
  | [] => Parsed tt seen
  | a :: rest =>
      if String.eqb a "--" then Parsed tt (seen ++ rest)
      else if String.eqb a "--help" || String.eqb a "-h"
      then ParseHelp ("Usage: swift-ring-builder [options]" +:+ nl)
      else if startswith "-" a && negb (String.eqb a "-")
      then ParseError ("swift-ring-builder: error: no such option: " +:+ a +:+ nl)
      else impl_parse_args_from (seen ++ [a]) rest
  end.

Definition impl_parse_args (argvish : list string) : parsed unit :=
  impl_parse_args_from [] argvish.

(** Search values [d<id>] and [z<zone>]. *)
Definition parse (s : string) : result search_value :=
  if startswith "d" s
  then match py_int (tail s) with Ok n => Ok (ById n) | Err e => Err e end
  else if startswith "z" s
  then match py_int (tail s) with Ok n => Ok (ByZone n) | Err e => Err e end
  else Err (ValueError "Invalid search value").

Definition matches (sv : search_value) (dev : Dev.t) : bool :=
  match sv with
  | ById n => Dev.id dev =? n
  | ByZone n => Dev.zone dev =? n
  end.

(** Modelled from the spec: [RingBuilder.search_devs] "returns all devices
    matching a structured filter", the live devices only. *)
Definition impl_search_devs (sv : search_value) (b : t) : result (list ref) * t :=
  (Ok (filter (fun r => matches sv (heap b r) = true) (live b)), b).

Definition class_in (classes : list string) (e : exn) : bool :=
  match e with
  | LibraryError cls _ => existsb (String.eqb cls) classes
  | _ => false
  end.

(** The lowest free slot of [ds], counting from [i]. *)
Fixpoint free_slot (i : nat) (ds : list (option ref)) : nat :=
  match ds with
  | None :: _ => i
  | Some _ :: rest => free_slot (S i) rest
  | [] => i
  end.

(** An address that no live device of the builder has. *)
Definition fresh (b : t) : ref := S (foldr Nat.max 0%nat (live b)).

(** A weight that the registry takes: a finite one that is not below 0.
    (NaN is not at least 0; an infinite weight is, but the rationals of the
    device dicts cannot hold it, and this registry turns it down as well.) *)
Definition valid_weight (weight : pyfloat) : bool :=
  match weight with
  | Finite q => Qle_bool 0 q
  | _ => false
  end.

(** Modelled from the spec: [RingBuilder.add_dev] "assigns the next unused
    id (reusing the lowest-numbered tombstone if one exists), validates
    weight >= 0, initializes parts=0, ... marks devs_changed=true.  Fails
    with DuplicateDeviceError if (ip, port, device_name) already present on
    any non-tombstoned device." *)
Definition impl_add_dev (new_dev : NewDev.t) (b : t) : result Z * t :=
  if existsb (fun r => same_address (NewDev.ip new_dev) (NewDev.port new_dev)
                                    (NewDev.device new_dev) (heap b r))
             (live b)
  then (Err (LibraryError "DuplicateDeviceError" "the address is in use"), b)
  else if negb (valid_weight (NewDev.weight new_dev))
  then (Err (ValueError "the weight must be at least 0"), b)
  else
    let slot := free_slot 0 (devs b) in
    let r := fresh b in
    (Ok (Z.of_nat slot),
     mkBuilder (fun r' => if (r' =? r)%nat then added new_dev (Z.of_nat slot) else heap b r')
               (if (slot <? length (devs b))%nat then <[slot := Some r]> (devs b)
                else devs b ++ [Some r])
               (parts b) (replicas b) (min_part_hours b) (version b + 1) true
               (internal b)).

Definition with_weight (weight : Q) (dev : Dev.t) : Dev.t :=
  Dev.mk (Dev.id dev) (Dev.region dev) (Dev.zone dev) (Dev.ip dev) (Dev.port dev)
         (Dev.replication_ip dev) (Dev.replication_port dev) (Dev.device dev)
         weight (Dev.parts dev) (Dev.meta dev).

(** [self.devs[dev_id]['weight'] = weight] *)
Definition reweigh (dev_id : Z) (weight : Q) (b : t) : t :=
  match devs b !! Z.to_nat dev_id with
  | Some (Some r) =>
      mkBuilder (heap (store r (with_weight weight (heap b r)) b)) (devs b) (parts b)
                (replicas b) (min_part_hours b) (version b + 1) true (internal b)
  | _ => b
  end.

(** Modelled from the spec: [set_weight] "updates weight; marks
    devs_changed=true"; it validates nothing.  (A weight that is not finite
    raises here, as the device dicts of the model hold rationals.) *)
Definition impl_set_dev_weight (dev_id : Z) (weight : pyfloat) (b : t) : result unit * t :=
  match weight with
  | Finite q => (Ok tt, reweigh dev_id q b)
  | _ => (Err (ValueError "the weight is not finite"), b)
  end.

(** Modelled from the spec: [RingBuilder.remove_dev] "fails with
    RingBuilderError if removing it would leave fewer devices than needed to
    satisfy the replica count for at least one partition (e.g., removing
    the last device)": the devices that stay are then fewer than the
    replicas.  Otherwise the device is marked for removal, its weight set so
    that it sheds everything. *)
Definition impl_remove_dev (dev_id : Z) (b : t) : result unit * t :=
  if Qlt_bool (inject_Z (Z.of_nat (length (live b)) - 1)) (replicas b)
  then (Err (LibraryError "RingBuilderError" "too few devices would be left"), b)
  else (Ok tt, reweigh dev_id 0 b).

Definition impl_get_balance (b : t) : result Q * t :=
  (Ok (balance_now (internal b)), b).

Definition impl_rebalance (seed : option string) (b : t) : result (Z * Q) * t :=
  let s := internal b in
  (Ok (next_moved s, next_balance s),
   mkBuilder (heap b) (devs b) (parts b) (replicas b) (min_part_hours b)
             (version b + 1) false
             (mkScript (next_balance s) (next_moved s) (next_balance s) (valid s))).

Definition impl_validate (b : t) : result unit * t :=
  if valid (internal b) then (Ok tt, b)
  else (Err (LibraryError "RingValidationError" "a partition lacks replicas"), b).

Definition impl_get_ring (b : t) : result (list Dev.t) * t :=
  (Ok (map (heap b) (live b)), b).

(** [builder.set_replicas]: the count is stored.  (One that is not finite
    raises here: the replica count of the model's builder is a rational.) *)
Definition impl_set_replicas (r : pyfloat) (b : t) : result unit * t :=
  match r with
  | Finite q =>
      (Ok tt,
       mkBuilder (heap b) (devs b) (parts b) q (min_part_hours b) (version b + 1)
                 (devs_changed b) (internal b))
  | _ => (Err (ValueError "cannot convert float to integer"), b)
  end.

Definition lib : RingLib := {|
  Internal := script;
  RingData := list Dev.t;
  SearchValues := search_value;
  Opts := unit;
  MAX_BALANCE := 99999 # 100;
  float := decimal;
  isRingBuilderError := class_in ["RingBuilderError"; "RingValidationError"];
  isRingValidationError := class_in ["RingValidationError"];
  parse_search_value := parse;
  parse_args := impl_parse_args;
  opts_used := fun _ => false;
  build_dev_from_opts := fun _ => Err (ValueError "Required argument --zone not specified.");
  search_devs := impl_search_devs;
  get_balance := impl_get_balance;
  rebalance_ := impl_rebalance;
  validate_ := impl_validate;
  get_ring := impl_get_ring;
  add_dev := impl_add_dev;
  remove_dev := impl_remove_dev;
  set_dev_weight := impl_set_dev_weight;
  set_replicas_ := impl_set_replicas;
  pathjoin := fun a b => a +:+ "/" +:+ b;
  basename := fun p => p
|}.

Definition none : Dev.t := Dev.mk 0 0 0 "" 0 "" 0 "" 0 0 "".

(** A builder over the device dicts [ds], in slots 0, 1, ... *)
Definition ring (ds : list Dev.t) (parts : Z) (replicas : Q) (changed : bool)
    (s : script) : t :=
  mkBuilder (fun r => nth r ds none) (map Some (seq 0 (length ds)))
            parts replicas 1 1 changed s.

Definition world (b : t) (answers : list string) : World (L := lib) :=
  mkWorld (L := lib) b ∅ [] [] answers 1700000000.

(** *** Rings and command lines to run the commands on *)

Definition quiet : script := mkScript 0 0 0 true.

Definition sda : Dev.t := Dev.mk 0 1 1 "10.0.0.1" 6000 "10.0.0.1" 6000 "sda" 100 128 "".
Definition sdb : Dev.t := Dev.mk 1 1 2 "10.0.0.2" 6000 "10.0.0.2" 6000 "sdb" 100 128 "".

(** Two devices of a ring of 2^17 partitions, one of them holding far more
    than its share, and two devices without weight. *)
Definition heavy : Dev.t :=
  Dev.mk 0 1 1 "10.0.0.1" 6000 "10.0.0.1" 6000 "sda" 10000 109999 "".
Definition light : Dev.t :=
  Dev.mk 1 1 2 "10.0.0.2" 6000 "10.0.0.2" 6000 "sdb" 121072 21068 "".
Definition drained : Dev.t :=
  Dev.mk 2 1 3 "10.0.0.3" 6000 "10.0.0.3" 6000 "sdc" 0 5 "".
Definition idle : Dev.t :=
  Dev.mk 3 1 3 "10.0.0.4" 6000 "10.0.0.4" 6000 "sdd" 0 0 "".

Definition pair_ring : t := ring [sda; sdb] 128 2 false quiet.
Definition single_ring : t := ring [sda] 128 1 false quiet.
Definition empty_ring : t := ring [] 128 1 false quiet.
Definition uneven_ring : t := ring [heavy; light; drained; idle] 131072 1 false quiet.

Definition command (name : string) (rest : list string) : list string :=
  "swift-ring-builder" :: "x.builder" :: name :: rest.

(** A rebalance that moves nothing, one that moves 4 partitions and the
    balance from 3 to 2.5, and one that moves 10 partitions on a ring that
    then fails validation. *)
Definition nothing_moves : World (L := lib) :=
  world (ring [sda; sdb] 128 2 true (mkScript 0 0 0 true)) [].
Definition validation_fails : World (L := lib) :=
  world (ring [sda; sdb] 128 2 true (mkScript 50 10 2 false)) [].


(** *** The other collaborators *)

Definition impl_int (s : string) : option Z :=
  match py_int s with
  | Ok n => Some n
  | Err _ => None
  end.

Definition impl_RingBuilder (part_power : Z) (replicas : pyfloat) (min_part_hours : Z) :
    result t :=
  match replicas with
  | Finite q =>
      Ok (mkBuilder (fun _ => none) [] (2 ^ part_power) q min_part_hours 0 false quiet)
  | _ => Err (ValueError "cannot convert float to integer")
  end.

(** The device in slot [i mod n] of the [n] slots of the builder. *)
Definition slot (b : t) (i : Z) : option ref :=
  match devs b !! Z.to_nat (i mod Z.of_nat (length (devs b))) with
  | Some (Some r) => Some r
  | _ => None
  end.

(** An assignment table: partition [part] is on the devices in the slots
    [part] and [part + 1], counted round the slots. *)
Definition impl_get_part_devices (part : Z) (b : t) : result (list ref) * t :=
  (Ok (remove_dups (omap (slot b) [part; part + 1])), b).

Definition impl_change_min_part_hours (hours : Z) (b : t) : result unit * t :=
  (Ok tt,
   mkBuilder (heap b) (devs b) (parts b) (replicas b) hours (version b)
             (devs_changed b) (internal b)).

Definition impl_pretend_min_part_hours_passed (b : t) : result unit * t := (Ok tt, b).

Definition impl_errno_is_EEXIST (e : exn) : bool :=
  match e with
  | LibraryError _ msg => String.eqb msg "EEXIST"
  | _ => false
  end.

Definition tools : RingTools (L := lib) :=
  Build_RingTools lib
    impl_int
    impl_RingBuilder
    impl_get_part_devices
    impl_change_min_part_hours
    impl_pretend_min_part_hours_passed
    (forallb (fun dev => Dev.parts dev =? 0))
    (fun ring => match ring with [] => true | _ => false end)
    (fun _ => ".")
    (fun _ _ => None)
    (class_in ["OSError"])
    impl_errno_is_EEXIST.

(** *** More rings and worlds *)

(** A device with addresses that [format_device] puts in brackets. *)
Definition sdq : Dev.t := Dev.mk 7 2 3 "fe80::1" 6000 "fe80::2" 6001 "sdq" 50 0 "rack 4".

(** Two devices without weight; three devices and four partitions. *)
Definition weightless_ring : t := ring [drained; idle] 131072 1 false quiet.
Definition small_ring : t := ring [sda; sdb; drained] 4 2 false quiet.

(** A rebalance that moves 10 partitions and the balance from 50 to 2, and
    one that leaves the balance at 7.5. *)
Definition much_moves : World (L := lib) :=
  world (ring [sda; sdb] 128 2 true (mkScript 50 10 2 true)) [].
Definition still_uneven : World (L := lib) :=
  world (ring [sda; sdb] 128 2 true (mkScript 50 10 7.5 true)) [].

(** A world in which [x.builder] already holds a builder. *)
Definition on_disk (b saved : t) : World (L := lib) :=
  mkWorld (L := lib) b (<["x.builder" := BuilderFile saved]> ∅) [] [] [] 1700000000.

(** The same package with an engine that refuses to rebalance a builder
    without devices. *)
Definition impl_rebalance_strict (seed : option string) (b : t) : result (Z * Q) * t :=
  match live b with
  | [] => (Err (LibraryError "RingBuilderError" "no devices to rebalance"), b)
  | _ => impl_rebalance seed b
  end.

Definition strict : RingLib := {|
  Internal := script;
  RingData := list Dev.t;
  SearchValues := search_value;
  Opts := unit;
  MAX_BALANCE := 99999 # 100;
  float := decimal;
  isRingBuilderError := class_in ["RingBuilderError"; "RingValidationError"];
  isRingValidationError := class_in ["RingValidationError"];
  parse_search_value := parse;
  parse_args := impl_parse_args;
  opts_used := fun _ => false;
  build_dev_from_opts := fun _ => Err (ValueError "Required argument --zone not specified.");
  search_devs := impl_search_devs;
  get_balance := impl_get_balance;
  rebalance_ := impl_rebalance_strict;
  validate_ := impl_validate;
  get_ring := impl_get_ring;
  add_dev := impl_add_dev;
  remove_dev := impl_remove_dev;
  set_dev_weight := impl_set_dev_weight;
  set_replicas_ := impl_set_replicas;
  pathjoin := fun a b => a +:+ "/" +:+ b;
  basename := fun p => p
|}.

End Example.

(** * Properties *)

Section Properties.
Context `{L : RingLib}.

Local Open Scope cmd_scope.

(** ** Comparisons *)

Lemma Qlt_bool_true (a b : Q) : Qlt_bool a b = true <-> (a < b)%Q.
Proof.
  unfold Qlt_bool. rewrite negb_true_iff.
  destruct (Qle_bool b a) eqn:E.
  - apply Qle_bool_iff in E. split; [discriminate | intros H; lra].
  - split; [intros _ | reflexivity].
    destruct (Qlt_le_dec a b) as [H | H]; [exact H |].
    apply Qle_bool_iff in H. congruence.
Qed.

Lemma Qlt_bool_false (a b : Q) : Qlt_bool a b = false <-> (b <= a)%Q.
Proof.
  destruct (Qlt_bool a b) eqn:E.
  - apply Qlt_bool_true in E. split; [discriminate | intros H; lra].
  - split; [intros _ | reflexivity].
    destruct (Qlt_le_dec a b) as [H | H]; [| exact H].
    apply Qlt_bool_true in H. congruence.
Qed.

(** ** What a computation leaves untouched *)

Lemma keeps_fs_ret {A} (a : A) : keeps_fs (ret a).
Proof. intros w. reflexivity. Qed.

Lemma keeps_fs_exit {A} (s : Z) : keeps_fs (exit (A := A) s).
Proof. intros w. reflexivity. Qed.

Lemma keeps_fs_raise {A} (e : exn) : keeps_fs (raise (A := A) e).
Proof. intros w. reflexivity. Qed.

Lemma keeps_fs_print f a : keeps_fs (print f a).
Proof. intros w. reflexivity. Qed.

Lemma keeps_fs_print_line l : keeps_fs (print_line l).
Proof. intros w. reflexivity. Qed.

Lemma keeps_fs_stderr_write s : keeps_fs (stderr_write s).
Proof. intros w. reflexivity. Qed.

Lemma keeps_fs_raw_input p a : keeps_fs (raw_input p a).
Proof. intros w. unfold raw_input. destruct (stdin w); reflexivity. Qed.

Lemma keeps_fs_get_builder : keeps_fs get_builder.
Proof. intros w. reflexivity. Qed.

Lemma keeps_fs_call {A} (m : method Internal A) : keeps_fs (call m).
Proof. intros w. unfold call. destruct (m (builder w)) as [[a | e] b]; reflexivity. Qed.

Lemma keeps_fs_lift {A} (r : result A) : keeps_fs (lift r).
Proof. intros w. destruct r; reflexivity. Qed.

Lemma keeps_fs_deref r : keeps_fs (deref r).
Proof. intros w. reflexivity. Qed.

Lemma keeps_fs_assign r dev : keeps_fs (assign r dev).
Proof. intros w. reflexivity. Qed.

Lemma keeps_fs_argv_get argv i : keeps_fs (argv_get argv i).
Proof. intros w. unfold argv_get. destruct (argv !! i); reflexivity. Qed.

Lemma keeps_fs_bind {A B} (c : Cmd A) (k : A -> Cmd B) :
  keeps_fs c -> (forall a, keeps_fs (k a)) -> keeps_fs (bind c k).
Proof.
  intros Hc Hk w. unfold bind. specialize (Hc w).
  destruct (c w) as [[a | s | e] w1]; simpl in *; try exact Hc.
  rewrite Hk. exact Hc.
Qed.

Lemma keeps_fs_try_except {A} (c : Cmd A) cls h :
  keeps_fs c -> (forall e, keeps_fs (h e)) -> keeps_fs (try_except c cls h).
Proof.
  intros Hc Hh w. unfold try_except. specialize (Hc w).
  destruct (c w) as [[a | s | e] w1]; simpl in *; try exact Hc.
  destruct (cls e); simpl; [rewrite Hh |]; exact Hc.
Qed.

Lemma keeps_fs_for_each {A} (xs : list A) (body : A -> Cmd unit) :
  (forall x, keeps_fs (body x)) -> keeps_fs (for_each xs body).
Proof.
  intros Hb. induction xs as [| x xs IH]; simpl.
  - apply keeps_fs_ret.
  - apply keeps_fs_bind; [apply Hb | intros _; exact IH].
Qed.

Lemma keeps_fs_collect {A B} (f : A -> Cmd B) (xs : list A) :
  (forall x, keeps_fs (f x)) -> keeps_fs (collect f xs).
Proof.
  intros Hf. induction xs as [| x xs IH]; simpl.
  - apply keeps_fs_ret.
  - apply keeps_fs_bind; [apply Hf | intros y].
    apply keeps_fs_bind; [exact IH | intros ys; apply keeps_fs_ret].
Qed.

Create HintDb keeps discriminated.

#[local] Hint Resolve keeps_fs_ret keeps_fs_exit keeps_fs_raise keeps_fs_print
  keeps_fs_print_line keeps_fs_stderr_write keeps_fs_raw_input keeps_fs_get_builder
  keeps_fs_call keeps_fs_lift keeps_fs_deref keeps_fs_assign
  keeps_fs_argv_get : keeps.

(** Walks down a computation built from the steps above. *)
Ltac keeps_fs_tac :=
  repeat (intros;
          lazymatch goal with
          | |- keeps_fs (bind _ _) => apply keeps_fs_bind
          | |- keeps_fs (try_except _ _ _) => apply keeps_fs_try_except
          | |- keeps_fs (for_each _ _) => apply keeps_fs_for_each
          | |- keeps_fs (collect _ _) => apply keeps_fs_collect
          | |- keeps_fs (if ?b then _ else _) => destruct b
          | |- keeps_fs (match ?x with _ => _ end) => destruct x
          | |- keeps_fs _ => solve [auto with keeps]
          end).

(** ** Floats off the command line *)

(** The floats that are not lower than [y]: the numbers from [y] upwards,
    plus infinity, and NaN, which no comparison finds lower. *)
Lemma float_lt_false (x : pyfloat) (y : Q) :
  float_lt x y = false
  <-> x = NaN \/ x = Inf false \/ exists q, x = Finite q /\ (y <= q)%Q.
Proof.
  destruct x as [q | [|] |]; cbn.
  - rewrite negb_false_iff, Qle_bool_iff. split.
    + intros H. right. right. eauto.
    + intros [H | [H | (q' & [= <-] & H)]]; [discriminate.. | exact H].
  - split; [discriminate |].
    intros [H | [H | (q & H & _)]]; discriminate.
  - split; [intros _; right; left; reflexivity | reflexivity].
  - split; [intros _; left; reflexivity | reflexivity].
Qed.

(** Those that are lower: the numbers below [y], and minus infinity. *)
Lemma float_lt_true (x : pyfloat) (y : Q) :
  float_lt x y = true <-> x = Inf true \/ exists q, x = Finite q /\ (q < y)%Q.
Proof.
  destruct x as [q | [|] |]; cbn.
  - fold (Qlt_bool q y). rewrite Qlt_bool_true. split.
    + intros H. right. eauto.
    + intros [H | (q' & [= <-] & H)]; [discriminate | exact H].
  - split; [intros _; left; reflexivity | reflexivity].
  - split; [discriminate |]. intros [H | (q & H & _)]; discriminate.
  - split; [discriminate |]. intros [H | (q & H & _)]; discriminate.
Qed.

(** ** [set_replicas] *)

(** C10.  [set_replicas] turns down a value that [float] does not read and
    one that compares lower than 1, a number below 1 or minus infinity: it
    exits with status 2, [builder.set_replicas] is not called, and the
    builder object and the files are as before.  Every other value that
    [float] reads is handed to [builder.set_replicas], and the builder it
    leaves is saved under [argv[1]]: the numbers from 1 upwards, whole or
    fractional, and also infinity and NaN, which is not a number and which
    no comparison finds lower than 1. *)
Theorem set_replicas_checks_the_count (argv : list string) (w : World) (a : string) :
  argv !! 3%nat = Some a ->
  (float a = None ->
   exists w', set_replicas argv w = (Exit EXIT_ERROR, w')
              /\ builder w' = builder w /\ fs w' = fs w)
  /\ (forall r, float a = Some r ->
      r = Inf true \/ (exists q, r = Finite q /\ (q < 1)%Q) ->
      exists w', set_replicas argv w = (Exit EXIT_ERROR, w')
                 /\ builder w' = builder w /\ fs w' = fs w)
  /\ (forall r b', float a = Some r ->
      r = NaN \/ r = Inf false \/ (exists q, r = Finite q /\ (1 <= q)%Q) ->
      set_replicas_ r (builder w) = (Ok tt, b') ->
      exists w' a1, argv !! 1%nat = Some a1
                    /\ set_replicas argv w = (Exit EXIT_SUCCESS, w')
                    /\ builder w' = b'
                    /\ fs w' = <[a1 := BuilderFile b']> (fs w))
  /\ (forall r e b', float a = Some r ->
      r = NaN \/ r = Inf false \/ (exists q, r = Finite q /\ (1 <= q)%Q) ->
      set_replicas_ r (builder w) = (Err e, b') ->
      exists w', set_replicas argv w = (Raise e, w')
                 /\ builder w' = b' /\ fs w' = fs w).
Proof.
  intros Ha.
  assert (Hlen : (length argv <? 4)%nat = false).
  { apply Nat.ltb_ge. apply lookup_lt_Some in Ha. lia. }
  assert (H1 : exists a1, argv !! 1%nat = Some a1).
  { destruct (argv !! 1%nat) eqn:E; [eauto |].
    apply lookup_ge_None in E. apply lookup_lt_Some in Ha. lia. }
  destruct H1 as [a1 Ha1].
  unfold set_replicas, bind, argv_get. rewrite Hlen, Ha. cbn.
  split; [| split; [| split]].
  - intros Hf. rewrite Hf. cbn. eauto.
  - intros r Hf Hr. rewrite Hf. cbn.
    apply float_lt_true in Hr. rewrite Hr. cbn. eauto.
  - intros r b' Hf Hr Hset. rewrite Hf. cbn.
    apply float_lt_false in Hr. rewrite Hr. cbn.
    unfold call. cbn. rewrite Hset. cbn. rewrite Ha1. cbn.
    eexists _, a1. repeat split; reflexivity.
  - intros r e b' Hf Hr Hset. rewrite Hf. cbn.
    apply float_lt_false in Hr. rewrite Hr. cbn.
    unfold call. cbn. rewrite Hset. cbn. eauto.
Qed.

(** ** [rebalance] *)

(** The first two calls of [rebalance], when neither raises. *)
Lemma rebalance_calls (argv : list string) (w : World) last b1 moved balance b2 :
  get_balance (builder w) = (Ok last, b1) ->
  rebalance_ (argv !! 3%nat) b1 = (Ok (moved, balance), b2) ->
  try_except
    (bind (call get_balance) (fun last_balance =>
       bind (call (rebalance_ (argv !! 3%nat))) (fun moved => ret (last_balance, moved))))
    isRingBuilderError validation_failed w
  = (Return (last, (moved, balance)), with_builder b2 w).
Proof.
  intros Hg Hr. unfold try_except, bind, call. rewrite Hg. cbn. rewrite Hr. reflexivity.
Qed.

(** C3.  When [builder.rebalance] reports that it moved no partition, the
    command says that no partitions could be reassigned and exits with the
    warning status 1, which is neither the success status 0 nor the error
    status 2; nothing is written. *)
Theorem rebalance_that_moves_nothing (argv : list string) (backup_dir ring_file : string)
    (w : World) last b1 balance b2 :
  get_balance (builder w) = (Ok last, b1) ->
  rebalance_ (argv !! 3%nat) b1 = (Ok (0, balance), b2) ->
  exists w',
    rebalance argv backup_dir ring_file w = (Exit EXIT_WARNING, w')
    /\ stdout w' =
         stdout w ++
         [Line "No partitions could be reassigned." [];
          Line "Either none need to be or none can be due to min_part_hours [%s]."
               [VInt (min_part_hours b2)]]
    /\ fs w' = fs w
    /\ builder w' = b2
    /\ EXIT_WARNING <> EXIT_SUCCESS /\ EXIT_WARNING <> EXIT_ERROR.
Proof.
  intros Hg Hr. unfold rebalance.
  unfold bind at 1. cbn [get_builder].
  unfold bind at 1. rewrite (rebalance_calls _ _ _ _ _ _ _ Hg Hr).
  cbn. eexists. split; [reflexivity |]. cbn.
  rewrite <- app_assoc. repeat split; discriminate.
Qed.


(** C2.  [rebalance] calls [builder.validate] on the rebalanced builder
    before it writes anything.  When that call raises a
    [RingValidationError], the command exits with status 2 and neither the
    ring file nor the builder file (nor a backup) is written; and whenever a
    run of the command has changed the files, the call had returned
    normally. *)
Theorem rebalance_validates_before_writing (argv : list string)
    (backup_dir ring_file : string) (w : World) :
  (forall last b1 moved balance b2 e b3,
      get_balance (builder w) = (Ok last, b1) ->
      rebalance_ (argv !! 3%nat) b1 = (Ok (moved, balance), b2) ->
      moved <> 0 ->
      too_small (devs_changed (builder w)) last balance = false ->
      validate_ b2 = (Err e, b3) ->
      isRingValidationError e = true ->
      exists w',
        rebalance argv backup_dir ring_file w = (Exit EXIT_ERROR, w') /\ fs w' = fs w)
  /\ (fs (snd (rebalance argv backup_dir ring_file w)) = fs w
      \/ exists last b1 moved balance b2 b3,
           get_balance (builder w) = (Ok last, b1)
           /\ rebalance_ (argv !! 3%nat) b1 = (Ok (moved, balance), b2)
           /\ validate_ b2 = (Ok tt, b3)).
Proof.
  split.
  - intros last b1 moved balance b2 e b3 Hg Hr Hm Hsmall Hv He.
    unfold rebalance.
    unfold bind at 1. cbn [get_builder].
    unfold bind at 1. rewrite (rebalance_calls _ _ _ _ _ _ _ Hg Hr).
    apply Z.eqb_neq in Hm.
    cbn. rewrite Hm. cbn. rewrite Hsmall. cbn.
    unfold bind, try_except, call. cbn. rewrite Hv, He. cbn. eauto.
  - unfold rebalance.
    unfold bind at 1. cbn [get_builder].
    unfold bind at 1.
    destruct (get_balance (builder w)) as [[last | e] b1] eqn:Hg.
    2: { left. unfold try_except, bind, call. rewrite Hg.
         destruct (isRingBuilderError e); reflexivity. }
    destruct (rebalance_ (argv !! 3%nat) b1) as [[[moved balance] | e] b2] eqn:Hr.
    2: { left. unfold try_except, bind, call. rewrite Hg. cbn. rewrite Hr.
         destruct (isRingBuilderError e); reflexivity. }
    rewrite (rebalance_calls _ _ _ _ _ _ _ Hg Hr).
    destruct (moved =? 0) eqn:Hm; [left; reflexivity |].
    destruct (too_small (devs_changed (builder w)) last balance) eqn:Hsmall.
    { left. reflexivity. }
    destruct (validate_ b2) as [[[] | e] b3] eqn:Hv.
    + right. eauto 10.
    + left. cbn.
      unfold bind, try_except, call. cbn. rewrite Hv.
      destruct (isRingValidationError e); reflexivity.
Qed.

(** ** Sequencing and loops *)

Lemma keeps_fs_run {A} (c : Cmd A) w o w1 :
  keeps_fs c -> c w = (o, w1) -> fs w1 = fs w.
Proof. intros H E. specialize (H w). rewrite E in H. exact H. Qed.

Lemma bind_return {A B} (c : Cmd A) (k : A -> Cmd B) w a w1 :
  c w = (Return a, w1) -> bind c k w = k a w1.
Proof. intros E. unfold bind. rewrite E. reflexivity. Qed.

Lemma bind_exit {A B} (c : Cmd A) (k : A -> Cmd B) w s w1 :
  c w = (Exit s, w1) -> bind c k w = (Exit s, w1).
Proof. intros E. unfold bind. rewrite E. reflexivity. Qed.

Lemma bind_raise {A B} (c : Cmd A) (k : A -> Cmd B) w e w1 :
  c w = (Raise e, w1) -> bind c k w = (Raise e, w1).
Proof. intros E. unfold bind. rewrite E. reflexivity. Qed.

(** A loop whose first turns return runs the next one where they left. *)
Lemma for_each_app {A} (pre post : list A) (body : A -> Cmd unit) w w1 :
  for_each pre body w = (Return tt, w1) ->
  for_each (pre ++ post) body w = for_each post body w1.
Proof.
  revert w. induction pre as [| x pre IH]; intros w E; simpl in *.
  - injection E as <-. reflexivity.
  - unfold bind in *. destruct (body x w) as [[[] | s | e] w0]; try discriminate.
    apply IH. exact E.
Qed.

Lemma for_each_app_returns {A} (pre post : list A) (body : A -> Cmd unit) w w1 :
  for_each (pre ++ post) body w = (Return tt, w1) ->
  exists w0, for_each pre body w = (Return tt, w0)
             /\ for_each post body w0 = (Return tt, w1).
Proof.
  revert w. induction pre as [| x pre IH]; intros w E; simpl in *.
  - eauto.
  - unfold bind in *. destruct (body x w) as [[[] | s | e] w0]; try discriminate.
    apply IH. exact E.
Qed.

(** A turn that exits or raises ends the loop, and the rest is not run. *)
Lemma for_each_exit {A} (pre post : list A) (x : A) (body : A -> Cmd unit) w w1 s w2 :
  for_each pre body w = (Return tt, w1) ->
  body x w1 = (Exit s, w2) ->
  for_each (pre ++ x :: post) body w = (Exit s, w2).
Proof.
  intros E1 E2. rewrite (for_each_app _ _ _ _ _ E1). simpl.
  apply bind_exit. exact E2.
Qed.

Lemma for_each_raise {A} (pre post : list A) (x : A) (body : A -> Cmd unit) w w1 e w2 :
  for_each pre body w = (Return tt, w1) ->
  body x w1 = (Raise e, w2) ->
  for_each (pre ++ x :: post) body w = (Raise e, w2).
Proof.
  intros E1 E2. rewrite (for_each_app _ _ _ _ _ E1). simpl.
  apply bind_raise. exact E2.
Qed.

(** ** The loop bodies write no file *)

Lemma keeps_fs_confirm found question abort : keeps_fs (confirm found question abort).
Proof. unfold confirm. keeps_fs_tac. Qed.

Lemma keeps_fs_remove_dev_one r : keeps_fs (remove_dev_one r).
Proof. unfold remove_dev_one, remove_failed. keeps_fs_tac. Qed.

Lemma keeps_fs_remove_matched search_value : keeps_fs (remove_matched search_value).
Proof. unfold remove_matched. pose proof keeps_fs_confirm. keeps_fs_tac. Qed.

Lemma keeps_fs_remove_one search_value : keeps_fs (remove_one search_value).
Proof.
  unfold remove_one. pose proof keeps_fs_remove_matched.
  pose proof keeps_fs_remove_dev_one. keeps_fs_tac.
Qed.

Lemma keeps_fs_set_weight_dev weight r : keeps_fs (set_weight_dev weight r).
Proof. unfold set_weight_dev. keeps_fs_tac. Qed.

Lemma keeps_fs_set_weight_matched devstr weightstr :
  keeps_fs (set_weight_matched devstr weightstr).
Proof. unfold set_weight_matched. pose proof keeps_fs_confirm. keeps_fs_tac. Qed.

Lemma keeps_fs_set_weight_one devstr weightstr : keeps_fs (set_weight_one devstr weightstr).
Proof.
  unfold set_weight_one. pose proof keeps_fs_set_weight_matched.
  pose proof keeps_fs_set_weight_dev. keeps_fs_tac.
Qed.

Lemma keeps_fs_set_info_dev change r : keeps_fs (set_info_dev change r).
Proof. unfold set_info_dev, check_collision. keeps_fs_tac. Qed.

Lemma keeps_fs_set_info_matched a4 search_value change_value :
  keeps_fs (set_info_matched a4 search_value change_value).
Proof. unfold set_info_matched. pose proof keeps_fs_confirm. keeps_fs_tac. Qed.

Lemma keeps_fs_set_info_one a4 search_value change_value :
  keeps_fs (set_info_one a4 search_value change_value).
Proof.
  unfold set_info_one. pose proof keeps_fs_set_info_matched.
  pose proof keeps_fs_set_info_dev. keeps_fs_tac.
Qed.

(** ** [remove] *)

(** The turn of the device loop in which [remove_dev] raises a
    [RingBuilderError]. *)
Lemma remove_dev_one_error (r : ref) (w : World) e b' :
  remove_dev (Dev.id (heap (builder w) r)) (builder w) = (Err e, b') ->
  isRingBuilderError e = true ->
  exists w', remove_dev_one r w = (Exit EXIT_ERROR, w') /\ fs w' = fs w.
Proof.
  intros Hr He. unfold remove_dev_one, bind, try_except, call, deref. cbn.
  rewrite Hr, He. cbn. eauto.
Qed.

(** C6.  When [builder.remove_dev] raises a [RingBuilderError] for a
    matched device, whichever search value and device of the command line
    that is, [remove] exits with status 2 and the files are as before: the
    builder is not saved. *)
Theorem remove_stops_on_builder_error (argv : list string) (w : World)
    (pre : list string) (search_value : string) (post : list string) (w1 : World)
    (before : list ref) (r : ref) (after : list ref) (w2 w3 : World) e b' :
  drop 3 argv = pre ++ search_value :: post ->
  for_each pre remove_one w = (Return tt, w1) ->
  remove_matched search_value w1 = (Return (before ++ r :: after), w2) ->
  for_each before remove_dev_one w2 = (Return tt, w3) ->
  remove_dev (Dev.id (heap (builder w3) r)) (builder w3) = (Err e, b') ->
  isRingBuilderError e = true ->
  exists w', remove argv w = (Exit EXIT_ERROR, w') /\ fs w' = fs w.
Proof.
  intros Hargv Hpre Hm Hbefore Hr He.
  destruct (remove_dev_one_error r w3 e b' Hr He) as (w4 & Hone & Hfs).
  assert (Hlen : (length argv <? 4)%nat = false).
  { apply Nat.ltb_ge. apply (f_equal length) in Hargv.
    rewrite length_drop, length_app in Hargv. simpl in Hargv. lia. }
  exists w4. split.
  - unfold remove. rewrite Hlen.
    unfold bind at 1. cbn [ret].
    apply bind_exit. rewrite Hargv.
    apply (for_each_exit _ _ _ _ _ _ _ _ Hpre).
    unfold remove_one. rewrite (bind_return _ _ _ _ _ Hm).
    apply (for_each_exit _ _ _ _ _ _ _ _ Hbefore). exact Hone.
  - rewrite Hfs.
    rewrite (keeps_fs_run _ _ _ _ (keeps_fs_for_each _ _ keeps_fs_remove_dev_one) Hbefore).
    rewrite (keeps_fs_run _ _ _ _ (keeps_fs_remove_matched _) Hm).
    apply (keeps_fs_run _ _ _ _ (keeps_fs_for_each _ _ keeps_fs_remove_one) Hpre).
Qed.

(** ** [set_info] *)

Lemma apply_change_id (dev : Dev.t) (c : change) : Dev.id (apply_change dev c) = Dev.id dev.
Proof. destruct c; reflexivity. Qed.

Lemma apply_changes_id (cs : list change) (dev : Dev.t) :
  Dev.id (apply_changes cs dev) = Dev.id dev.
Proof.
  unfold apply_changes. revert dev.
  induction cs as [| c cs IH]; intros dev; simpl; [reflexivity |].
  rewrite IH. apply apply_change_id.
Qed.

(** The loop over [builder.devs] exits once it meets a device with another
    id and the address of [test_dev]; until then it changes nothing. *)
Lemma check_collision_exits (test_dev : Dev.t) (ds : list (option ref)) (w : World) (c : ref) :
  In (Some c) ds ->
  Dev.id (heap (builder w) c) <> Dev.id test_dev ->
  same_address (Dev.ip test_dev) (Dev.port test_dev) (Dev.device test_dev)
               (heap (builder w) c) = true ->
  exists w', for_each ds (check_collision test_dev) w = (Exit EXIT_ERROR, w')
             /\ builder w' = builder w /\ fs w' = fs w.
Proof.
  intros Hin Hid Hsame. induction ds as [| d ds IH]; [destruct Hin |].
  simpl. unfold bind at 1.
  destruct d as [c0 |]; simpl.
  - unfold bind at 1, deref. cbn.
    destruct (Dev.id (heap (builder w) c0) =? Dev.id test_dev) eqn:Eid.
    + cbn. apply IH. destruct Hin as [Hin | Hin]; [| exact Hin].
      injection Hin as ->. apply Z.eqb_eq in Eid. contradiction.
    + destruct (same_address _ _ _ (heap (builder w) c0)) eqn:Es.
      * cbn. eauto.
      * cbn. apply IH. destruct Hin as [Hin | Hin]; [| exact Hin].
        injection Hin as ->. congruence.
  - apply IH. destruct Hin as [Hin | Hin]; [discriminate | exact Hin].
Qed.

Lemma set_info_dev_collision (change : list change) (r c : ref) (w : World) :
  In (Some c) (devs (builder w)) ->
  Dev.id (heap (builder w) c) <> Dev.id (heap (builder w) r) ->
  same_address (Dev.ip (apply_changes change (heap (builder w) r)))
               (Dev.port (apply_changes change (heap (builder w) r)))
               (Dev.device (apply_changes change (heap (builder w) r)))
               (heap (builder w) c) = true ->
  exists w', set_info_dev change r w = (Exit EXIT_ERROR, w')
             /\ builder w' = builder w /\ fs w' = fs w.
Proof.
  intros Hin Hid Hsame.
  rewrite <- (apply_changes_id change (heap (builder w) r)) in Hid.
  destruct (check_collision_exits _ _ w c Hin Hid Hsame) as (w' & E & Hb & Hf).
  exists w'. split; [| auto].
  unfold set_info_dev. unfold bind at 1, deref. cbn.
  unfold bind at 1, get_builder. cbn.
  apply bind_exit. exact E.
Qed.

(** C7.  In [set_info], when the requested changes would give the target
    device the ip, port and device name of another live device, one with a
    different id, the command exits with status 2.  The builder object is
    then as it was when the turn of the target device began, so none of its
    fields was changed, and the files are as before: nothing is saved. *)
Theorem set_info_rejects_collision (argv : list string) (w : World) (a4 : string)
    (pre : list (string * string)) (search_value change_value : string)
    (post : list (string * string)) (w1 : World)
    (before : list ref) (r : ref) (after : list ref) (change : list change)
    (w2 w3 : World) (c : ref) :
  (length argv mod 2 = 1)%nat ->
  argv !! 4%nat = Some a4 ->
  pairs (drop 3 argv) = pre ++ (search_value, change_value) :: post ->
  for_each pre (fun p => set_info_one a4 (fst p) (snd p)) w = (Return tt, w1) ->
  set_info_matched a4 search_value change_value w1
  = (Return (before ++ r :: after, change), w2) ->
  for_each before (set_info_dev change) w2 = (Return tt, w3) ->
  In (Some c) (devs (builder w3)) ->
  Dev.id (heap (builder w3) c) <> Dev.id (heap (builder w3) r) ->
  same_address (Dev.ip (apply_changes change (heap (builder w3) r)))
               (Dev.port (apply_changes change (heap (builder w3) r)))
               (Dev.device (apply_changes change (heap (builder w3) r)))
               (heap (builder w3) c) = true ->
  exists w', set_info argv w = (Exit EXIT_ERROR, w')
             /\ builder w' = builder w3 /\ fs w' = fs w.
Proof.
  intros Hodd Ha4 Hargv Hpre Hm Hbefore Hin Hid Hsame.
  destruct (set_info_dev_collision change r c w3 Hin Hid Hsame) as (w4 & Hone & Hb & Hfs).
  assert (Hguard : (length argv <? 5)%nat || negb (length argv mod 2 =? 1)%nat = false).
  { apply lookup_lt_Some in Ha4. rewrite Hodd.
    replace (length argv <? 5)%nat with false; [reflexivity |].
    symmetry. apply Nat.ltb_ge. lia. }
  exists w4. split; [| split; [exact Hb |]].
  - unfold set_info. rewrite Hguard.
    unfold bind at 1. cbn [ret].
    unfold bind at 1, argv_get. rewrite Ha4. cbn [ret].
    apply bind_exit. rewrite Hargv.
    apply (for_each_exit _ _ _ _ _ _ _ _ Hpre). cbn [fst snd].
    unfold set_info_one. rewrite (bind_return _ _ _ _ _ Hm). cbn [fst snd].
    apply (for_each_exit _ _ _ _ _ _ _ _ Hbefore). exact Hone.
  - rewrite Hfs.
    rewrite (keeps_fs_run _ _ _ _ (keeps_fs_for_each _ _ (keeps_fs_set_info_dev _)) Hbefore).
    rewrite (keeps_fs_run _ _ _ _ (keeps_fs_set_info_matched _ _ _) Hm).
    apply (keeps_fs_run _ _ _ _
             (keeps_fs_for_each _ _ (fun p => keeps_fs_set_info_one a4 (fst p) (snd p))) Hpre).
Qed.

(** ** [add] *)

Lemma keeps_fs_scan_device devstr : keeps_fs (scan_device devstr).
Proof. unfold scan_device, scan_int, scan_ip, invalid_add_value. keeps_fs_tac. Qed.

Lemma keeps_fs_parse_weight weightstr : keeps_fs (parse_weight weightstr).
Proof. unfold parse_weight. keeps_fs_tac. Qed.

Lemma keeps_fs_parse_add_value devstr weightstr : keeps_fs (parse_add_value devstr weightstr).
Proof.
  unfold parse_add_value. pose proof keeps_fs_scan_device.
  pose proof keeps_fs_parse_weight. keeps_fs_tac.
Qed.

Lemma keeps_fs_parse_add_values argvish : keeps_fs (_parse_add_values argvish).
Proof.
  unfold _parse_add_values, call_parse_args. pose proof keeps_fs_parse_add_value.
  keeps_fs_tac.
Qed.

Lemma keeps_fs_add_one new_dev : keeps_fs (add_one new_dev).
Proof. unfold add_one, check_duplicate. keeps_fs_tac. Qed.

(** The loop over [builder.devs] exits once it meets a live device with the
    address of [new_dev]; until then it changes nothing. *)
Lemma check_duplicate_exits (new_dev : NewDev.t) (ds : list (option ref)) (w : World) (r : ref) :
  In (Some r) ds ->
  same_address (NewDev.ip new_dev) (NewDev.port new_dev) (NewDev.device new_dev)
               (heap (builder w) r) = true ->
  exists w', for_each ds (check_duplicate new_dev) w = (Exit EXIT_ERROR, w')
             /\ builder w' = builder w /\ fs w' = fs w.
Proof.
  intros Hin Hsame. induction ds as [| d ds IH]; [destruct Hin |].
  simpl. unfold bind at 1.
  destruct d as [r0 |]; simpl.
  - unfold bind at 1, deref. cbn.
    destruct (same_address _ _ _ (heap (builder w) r0)) eqn:Es.
    + cbn. eauto.
    + cbn. apply IH. destruct Hin as [Hin | Hin]; [| exact Hin].
      injection Hin as ->. congruence.
  - apply IH. destruct Hin as [Hin | Hin]; [discriminate | exact Hin].
Qed.

Lemma add_one_duplicate (new_dev : NewDev.t) (w : World) :
  address_in_use (NewDev.ip new_dev) (NewDev.port new_dev) (NewDev.device new_dev)
                 (builder w) ->
  exists w', add_one new_dev w = (Exit EXIT_ERROR, w')
             /\ builder w' = builder w /\ fs w' = fs w.
Proof.
  intros (r & Hin & Hsame).
  destruct (check_duplicate_exits new_dev _ w r Hin Hsame) as (w' & E & Hb & Hf).
  exists w'. split; [| auto].
  unfold add_one. unfold bind at 1, get_builder. cbn.
  apply bind_exit. exact E.
Qed.

(** A turn of [add] that returns has called [add_dev], which returned. *)
Lemma add_one_returns (new_dev : NewDev.t) (w w' : World) :
  add_one new_dev w = (Return tt, w') ->
  exists dev_id, add_dev new_dev (builder w) = (Ok dev_id, builder w').
Proof.
  unfold add_one. unfold bind at 1, get_builder. cbn.
  unfold bind at 1.
  destruct (for_each (devs (builder w)) (check_duplicate new_dev) w)
    as [[[] | s | e] w0] eqn:Eloop; try discriminate.
  assert (Hb : builder w0 = builder w).
  { clear -Eloop. revert Eloop. generalize (devs (builder w)) as ds.
    intros ds. revert w0. induction ds as [| d ds IH]; intros w0; simpl.
    - intros [= <-]. reflexivity.
    - unfold bind at 1. destruct d as [r |]; simpl.
      + unfold bind at 1, deref. cbn.
        destruct (same_address _ _ _ (heap (builder w) r)); cbn; [discriminate |].
        apply IH.
      + apply IH. }
  unfold bind, call. rewrite Hb.
  destruct (add_dev new_dev (builder w)) as [[dev_id | e] b'] eqn:Ea; cbn;
    [| discriminate].
  intros [= <-]. cbn. eauto.
Qed.

(** Once a device is added, its address stays in use while the loop of
    [add] goes on. *)
Lemma add_loop_keeps_addresses (news : list NewDev.t) (w w' : World) ip port device :
  add_dev_registers ->
  for_each news add_one w = (Return tt, w') ->
  address_in_use ip port device (builder w) ->
  address_in_use ip port device (builder w').
Proof.
  intros Hreg. revert w. induction news as [| n news IH]; intros w; simpl.
  - intros [= <-]. auto.
  - unfold bind at 1.
    destruct (add_one n w) as [[[] | s | e] w0] eqn:E1; try discriminate.
    intros E2 Hin. apply (IH w0 E2).
    destruct (add_one_returns _ _ _ E1) as [dev_id Ea].
    apply (Hreg _ _ _ _ Ea). exact Hin.
Qed.

(** C4.  In [add], a new device whose ip, port and device name are those of
    a live device of the builder at its turn makes the command exit with
    status 2: the builder object is as it was at that turn, so the device is
    not added, and the files are as before.  With a registry that keeps what
    it adds, this covers a device added earlier in the same batch. *)
Theorem add_rejects_duplicate (argv : list string) (w : World) :
  (length argv mod 2 = 1)%nat ->
  (5 <= length argv)%nat ->
  (forall pre new_dev post w0 w1,
      _parse_add_values (drop 3 argv) w = (Return (pre ++ new_dev :: post), w0) ->
      for_each pre add_one w0 = (Return tt, w1) ->
      address_in_use (NewDev.ip new_dev) (NewDev.port new_dev) (NewDev.device new_dev)
                     (builder w1) ->
      exists w', add argv w = (Exit EXIT_ERROR, w')
                 /\ builder w' = builder w1 /\ fs w' = fs w)
  /\ (add_dev_registers ->
      forall pre first mid second post w0 w1,
        _parse_add_values (drop 3 argv) w
        = (Return (pre ++ first :: mid ++ second :: post), w0) ->
        for_each (pre ++ first :: mid) add_one w0 = (Return tt, w1) ->
        NewDev.ip second = NewDev.ip first ->
        NewDev.port second = NewDev.port first ->
        NewDev.device second = NewDev.device first ->
        exists w', add argv w = (Exit EXIT_ERROR, w')
                   /\ builder w' = builder w1 /\ fs w' = fs w).
Proof.
  intros Hodd Hlen.
  assert (Hguard : (length argv <? 5)%nat || negb (length argv mod 2 =? 1)%nat = false).
  { rewrite Hodd. replace (length argv <? 5)%nat with false; [reflexivity |].
    symmetry. apply Nat.ltb_ge. lia. }
  assert (Hmain : forall pre new_dev post w0 w1,
      _parse_add_values (drop 3 argv) w = (Return (pre ++ new_dev :: post), w0) ->
      for_each pre add_one w0 = (Return tt, w1) ->
      address_in_use (NewDev.ip new_dev) (NewDev.port new_dev) (NewDev.device new_dev)
                     (builder w1) ->
      exists w', add argv w = (Exit EXIT_ERROR, w')
                 /\ builder w' = builder w1 /\ fs w' = fs w).
  { intros pre new_dev post w0 w1 Hparse Hpre Huse.
    destruct (add_one_duplicate new_dev w1 Huse) as (w2 & Hone & Hb & Hfs).
    exists w2. split; [| split; [exact Hb |]].
    - unfold add. rewrite Hguard.
      unfold bind at 1. cbn [ret].
      rewrite (bind_return _ _ _ _ _ Hparse).
      apply bind_exit. apply (for_each_exit _ _ _ _ _ _ _ _ Hpre). exact Hone.
    - rewrite Hfs.
      rewrite (keeps_fs_run _ _ _ _ (keeps_fs_for_each _ _ keeps_fs_add_one) Hpre).
      apply (keeps_fs_run _ _ _ _ (keeps_fs_parse_add_values _) Hparse). }
  split; [exact Hmain |].
  intros Hreg pre first mid second post w0 w1 Hparse Hloop Hip Hport Hdev.
  replace (pre ++ first :: mid ++ second :: post)
    with ((pre ++ first :: mid) ++ second :: post) in Hparse
    by (rewrite <- app_assoc; reflexivity).
  apply (Hmain _ _ _ _ _ Hparse Hloop).
  rewrite Hip, Hport, Hdev.
  destruct (for_each_app_returns _ _ _ _ _ Hloop) as (wa & Epre & Hrest).
  simpl in Hrest. unfold bind at 1 in Hrest.
  destruct (add_one first wa) as [[[] | s | e] wb] eqn:Efirst; try discriminate.
  apply (add_loop_keeps_addresses _ _ _ _ _ _ Hreg Hrest).
  destruct (add_one_returns _ _ _ Efirst) as [dev_id Ea].
  exact (proj1 (Hreg _ _ _ _ Ea)).
Qed.

(** ** The edits of several devices fail as a whole *)

Lemma bind_failed (c : Cmd unit) (k : unit -> Cmd unit) w o w1 :
  c w = (o, w1) -> failed o -> bind c k w = (o, w1).
Proof.
  intros E [-> | [e ->]]; [apply bind_exit | apply bind_raise]; exact E.
Qed.

Lemma for_each_failed {A} (pre post : list A) (x : A) (body : A -> Cmd unit) w w1 o w2 :
  for_each pre body w = (Return tt, w1) ->
  body x w1 = (o, w2) ->
  failed o ->
  for_each (pre ++ x :: post) body w = (o, w2).
Proof.
  intros E1 E2 [-> | [e ->]]; [eapply for_each_exit | eapply for_each_raise]; eauto.
Qed.

(** The turn of a pair whose weight is no number, or whose search value is
    malformed or matches nothing. *)
Lemma set_weight_one_fails (devstr weightstr : string) (w : World) :
  float weightstr = None \/ malformed_search devstr \/ matches_none devstr w ->
  exists o w', set_weight_one devstr weightstr w = (o, w') /\ failed o.
Proof.
  intros H. unfold set_weight_one, set_weight_matched.
  unfold bind at 1. unfold bind at 1. unfold lift.
  destruct (parse_search_value devstr) as [sv | e] eqn:Ep.
  2: { eexists _, _. split; [reflexivity | right; eauto]. }
  unfold bind at 1. unfold call at 1.
  destruct (search_devs sv (builder w)) as [[found | e] b1] eqn:Es.
  2: { eexists _, _. split; [reflexivity | right; eauto]. }
  unfold bind at 1.
  destruct (float weightstr) as [weight |] eqn:Ef.
  2: { eexists _, _. split; [reflexivity | right; eauto]. }
  cbn [ret].
  destruct H as [H | [[e H] | (sv' & b' & Hsv & Hnone)]]; try congruence.
  rewrite Ep in Hsv. injection Hsv as <-. rewrite Es in Hnone.
  injection Hnone as -> _.
  cbn. eexists _, _. split; [reflexivity | left; reflexivity].
Qed.

(** The turn of a pair whose change value is malformed, or whose search
    value is malformed or matches nothing. *)
Lemma set_info_one_fails (a4 search_value change_value : string) (w : World) :
  (exists e, parse_change a4 change_value = Err e)
  \/ malformed_search search_value \/ matches_none search_value w ->
  exists o w', set_info_one a4 search_value change_value w = (o, w') /\ failed o.
Proof.
  intros H. unfold set_info_one, set_info_matched.
  unfold bind at 1. unfold bind at 1. unfold lift at 1.
  destruct (parse_search_value search_value) as [sv | e] eqn:Ep.
  2: { eexists _, _. split; [reflexivity | right; eauto]. }
  unfold bind at 1. unfold call at 1.
  destruct (search_devs sv (builder w)) as [[found | e] b1] eqn:Es.
  2: { eexists _, _. split; [reflexivity | right; eauto]. }
  unfold bind at 1. unfold lift.
  destruct (parse_change a4 change_value) as [change | e] eqn:Ec.
  2: { eexists _, _. split; [reflexivity | right; eauto]. }
  destruct H as [[e H] | [[e H] | (sv' & b' & Hsv & Hnone)]]; try congruence.
  rewrite Ep in Hsv. injection Hsv as <-. rewrite Es in Hnone.
  injection Hnone as -> _.
  cbn. eexists _, _. split; [reflexivity | left; reflexivity].
Qed.

(** The turn of a search value that is malformed or matches nothing. *)
Lemma remove_one_fails (search_value : string) (w : World) :
  malformed_search search_value \/ matches_none search_value w ->
  exists o w', remove_one search_value w = (o, w') /\ failed o.
Proof.
  intros H. unfold remove_one, remove_matched.
  unfold bind at 1. unfold bind at 1. unfold lift.
  destruct (parse_search_value search_value) as [sv | e] eqn:Ep.
  2: { eexists _, _. split; [reflexivity | right; eauto]. }
  destruct H as [[e H] | (sv' & b' & Hsv & Hnone)]; try congruence.
  rewrite Ep in Hsv. injection Hsv as <-.
  unfold bind at 1. unfold call at 1. rewrite Hnone.
  cbn. eexists _, _. split; [reflexivity | left; reflexivity].
Qed.

(** The shape of the three commands: a check of the command line, the loop
    over its items, and only then [builder.save(argv[1])]. *)
Lemma saved_only_at_the_end (guard loop : Cmd unit) (argv : list string)
    (w : World) (o : outcome unit) (w' : World) :
  keeps_fs guard -> keeps_fs loop ->
  bind guard (fun _ =>
    bind loop (fun _ =>
    bind (argv_get argv 1) (fun a1 =>
    bind (builder_save a1) (fun _ => exit EXIT_SUCCESS)))) w = (o, w') ->
  o = Exit EXIT_SUCCESS \/ fs w' = fs w.
Proof.
  intros Hg Hl.
  unfold bind at 1.
  pose proof (Hg w) as H0. destruct (guard w) as [[[] | s | e] w0]; cbn in H0;
    [| intros [= <- <-]; right; exact H0 | intros [= <- <-]; right; exact H0].
  unfold bind at 1.
  pose proof (Hl w0) as H. destruct (loop w0) as [[[] | s | e] w1]; cbn in H;
    [| intros [= <- <-]; right; congruence | intros [= <- <-]; right; congruence].
  unfold bind at 1, argv_get. destruct (argv !! 1%nat).
  - cbn. intros [= <- <-]. left. reflexivity.
  - cbn. intros [= <- <-]. right. congruence.
Qed.

Lemma keeps_fs_usage3 (a b c : string) :
  keeps_fs (bind (print a []) (fun _ => bind (print b []) (fun _ =>
            bind (print c []) (fun _ => exit (A := unit) EXIT_ERROR)))).
Proof. keeps_fs_tac. Qed.

(** C5.  In [set_weight], [set_info] and [remove], an item of the command
    line that is malformed (a weight that is no number, a change value or a
    search value that does not parse) or whose search value matches no
    device ends the command, by [exit(2)] or by the exception raised when
    the value is read, and the files are as they were before the command:
    what earlier items changed in the builder object is not saved.  More
    generally, each of the three commands writes a file only on the run
    that ends with status 0. *)
Theorem edits_fail_as_a_whole (argv : list string) (w : World) :
  (forall pre devstr weightstr post w1,
      pairs (drop 3 argv) = pre ++ (devstr, weightstr) :: post ->
      for_each pre (fun p => set_weight_one (fst p) (snd p)) w = (Return tt, w1) ->
      float weightstr = None \/ malformed_search devstr \/ matches_none devstr w1 ->
      exists o w', set_weight argv w = (o, w') /\ failed o /\ fs w' = fs w)
  /\ (forall a4 pre search_value change_value post w1,
      argv !! 4%nat = Some a4 ->
      pairs (drop 3 argv) = pre ++ (search_value, change_value) :: post ->
      for_each pre (fun p => set_info_one a4 (fst p) (snd p)) w = (Return tt, w1) ->
      (exists e, parse_change a4 change_value = Err e)
      \/ malformed_search search_value \/ matches_none search_value w1 ->
      exists o w', set_info argv w = (o, w') /\ failed o /\ fs w' = fs w)
  /\ (forall pre search_value post w1,
      drop 3 argv = pre ++ search_value :: post ->
      for_each pre remove_one w = (Return tt, w1) ->
      malformed_search search_value \/ matches_none search_value w1 ->
      exists o w', remove argv w = (o, w') /\ failed o /\ fs w' = fs w)
  /\ (forall cmd, In cmd [set_weight; set_info; remove] ->
      fst (cmd argv w) = Exit EXIT_SUCCESS \/ fs (snd (cmd argv w)) = fs w).
Proof.
  repeat split.
  - intros pre devstr weightstr post w1 Hargv Hpre Hbad.
    unfold set_weight.
    destruct ((length argv <? 5)%nat || negb (length argv mod 2 =? 1)%nat).
    { eexists _, _. split; [reflexivity |]. split; [left; reflexivity | reflexivity]. }
    destruct (set_weight_one_fails devstr weightstr w1 Hbad) as (o & w2 & Hone & Ho).
    pose proof (for_each_failed _ post (devstr, weightstr) _ _ _ _ _ Hpre Hone Ho) as Hloop.
    rewrite <- Hargv in Hloop.
    exists o, w2. split; [| split; [exact Ho |]].
    + unfold bind at 1. cbn [ret]. apply bind_failed; assumption.
    + apply (keeps_fs_run _ _ _ _
               (keeps_fs_for_each _ _ (fun p => keeps_fs_set_weight_one (fst p) (snd p)))
               Hloop).
  - intros a4 pre search_value change_value post w1 Ha4 Hargv Hpre Hbad.
    unfold set_info.
    destruct ((length argv <? 5)%nat || negb (length argv mod 2 =? 1)%nat).
    { eexists _, _. split; [reflexivity |]. split; [left; reflexivity | reflexivity]. }
    destruct (set_info_one_fails a4 search_value change_value w1 Hbad)
      as (o & w2 & Hone & Ho).
    pose proof (for_each_failed _ post (search_value, change_value)
                  (fun p => set_info_one a4 (fst p) (snd p))
                  _ _ _ _ Hpre Hone Ho) as Hloop.
    rewrite <- Hargv in Hloop.
    exists o, w2. split; [| split; [exact Ho |]].
    + unfold bind at 1. cbn [ret].
      unfold bind at 1, argv_get. rewrite Ha4. cbn [ret].
      apply bind_failed; assumption.
    + apply (keeps_fs_run _ _ _ _
               (keeps_fs_for_each _ _ (fun p => keeps_fs_set_info_one a4 (fst p) (snd p)))
               Hloop).
  - intros pre search_value post w1 Hargv Hpre Hbad.
    unfold remove.
    destruct (length argv <? 4)%nat.
    { eexists _, _. split; [reflexivity |]. split; [left; reflexivity | reflexivity]. }
    destruct (remove_one_fails search_value w1 Hbad) as (o & w2 & Hone & Ho).
    pose proof (for_each_failed _ post _ _ _ _ _ _ Hpre Hone Ho) as Hloop.
    rewrite <- Hargv in Hloop.
    exists o, w2. split; [| split; [exact Ho |]].
    + unfold bind at 1. cbn [ret]. apply bind_failed; assumption.
    + apply (keeps_fs_run _ _ _ _ (keeps_fs_for_each _ _ keeps_fs_remove_one) Hloop).
  - intros cmd [<- | [<- | [<- | []]]].
    + destruct (set_weight argv w) as [o w'] eqn:E. cbn.
      unfold set_weight in E.
      refine (saved_only_at_the_end _ _ _ _ _ _ _ _ E).
      * destruct (_ || _); [apply keeps_fs_usage3 | apply keeps_fs_ret].
      * apply keeps_fs_for_each. intros p. apply keeps_fs_set_weight_one.
    + destruct (set_info argv w) as [o w'] eqn:E. cbn.
      unfold set_info in E.
      destruct ((length argv <? 5)%nat || negb (length argv mod 2 =? 1)%nat).
      { injection E as <- <-. right. reflexivity. }
      unfold bind at 1 in E. cbn [ret] in E.
      unfold bind at 1, argv_get in E.
      destruct (argv !! 4%nat) as [a4 |].
      2: { injection E as <- <-. right. reflexivity. }
      cbn [ret] in E.
      refine (saved_only_at_the_end (ret tt) _ _ _ _ _ (keeps_fs_ret tt) _ E).
      apply keeps_fs_for_each. intros p. apply keeps_fs_set_info_one.
    + destruct (remove argv w) as [o w'] eqn:E. cbn.
      unfold remove in E.
      refine (saved_only_at_the_end _ _ _ _ _ _ _ _ E).
      * destruct (_ <? _)%nat; [apply keeps_fs_usage3 | apply keeps_fs_ret].
      * apply keeps_fs_for_each. intros p. apply keeps_fs_remove_one.
Qed.

(** ** The weight of a device to add *)

Lemma only_reports_ret {A} (a : A) : only_reports (ret a).
Proof. intros w. cbn. repeat split; discriminate. Qed.

Lemma only_reports_exit {A} : only_reports (exit (A := A) EXIT_ERROR).
Proof.
  intros w. cbn. split; [| split]; [reflexivity | reflexivity |].
  intros s [= <-]. reflexivity.
Qed.

Lemma only_reports_raise {A} (e : exn) : only_reports (raise (A := A) e).
Proof. intros w. cbn. repeat split; discriminate. Qed.

Lemma only_reports_print f a : only_reports (print f a).
Proof. intros w. cbn. repeat split; discriminate. Qed.

Lemma only_reports_stderr_write s : only_reports (stderr_write s).
Proof. intros w. cbn. repeat split; discriminate. Qed.

Lemma only_reports_lift {A} (r : result A) : only_reports (lift r).
Proof. intros w. destruct r; cbn; repeat split; discriminate. Qed.

Lemma only_reports_bind {A B} (c : Cmd A) (k : A -> Cmd B) :
  only_reports c -> (forall a, only_reports (k a)) -> only_reports (bind c k).
Proof.
  intros Hc Hk w. unfold bind. destruct (Hc w) as (Hb & Hf & Hs).
  destruct (c w) as [[a | s | e] w1]; cbn in *.
  - destruct (Hk a w1) as (Hb' & Hf' & Hs').
    split; [congruence |]. split; [congruence | exact Hs'].
  - split; [exact Hb |]. split; [exact Hf |]. intros s' [= <-]. apply Hs. reflexivity.
  - split; [exact Hb |]. split; [exact Hf |]. discriminate.
Qed.

#[local] Hint Resolve only_reports_ret only_reports_exit only_reports_raise
  only_reports_print only_reports_stderr_write only_reports_lift : keeps.

Ltac only_reports_tac :=
  repeat (intros;
          lazymatch goal with
          | |- only_reports (bind _ _) => apply only_reports_bind
          | |- only_reports (if ?b then _ else _) => destruct b
          | |- only_reports (match ?x with _ => _ end) => destruct x
          | |- only_reports _ => solve [auto with keeps]
          end).

Lemma only_reports_scan_device devstr : only_reports (scan_device devstr).
Proof. unfold scan_device, scan_int, scan_ip, invalid_add_value. only_reports_tac. Qed.

Lemma only_reports_parse_weight weightstr : only_reports (parse_weight weightstr).
Proof. unfold parse_weight. only_reports_tac. Qed.

Lemma only_reports_parse_add_value devstr weightstr :
  only_reports (parse_add_value devstr weightstr).
Proof.
  unfold parse_add_value. pose proof only_reports_scan_device.
  pose proof only_reports_parse_weight. only_reports_tac.
Qed.


Lemma only_reports_run {A} (c : Cmd A) w o w1 :
  only_reports c -> c w = (o, w1) -> builder w1 = builder w /\ fs w1 = fs w.
Proof. intros H E. destruct (H w) as (Hb & Hf & _). rewrite E in Hb, Hf. auto. Qed.

Lemma only_reports_try_except {A} (c : Cmd A) cls h :
  only_reports c -> (forall e, only_reports (h e)) -> only_reports (try_except c cls h).
Proof.
  intros Hc Hh w. unfold try_except. destruct (Hc w) as (Hb & Hf & Hs).
  destruct (c w) as [[a | s | e] w1]; cbn in *.
  - split; [exact Hb |]. split; [exact Hf |]. discriminate.
  - split; [exact Hb |]. split; [exact Hf |]. exact Hs.
  - destruct (cls e); cbn.
    + destruct (Hh e w1) as (Hb' & Hf' & Hs').
      split; [congruence |]. split; [congruence | exact Hs'].
    + split; [exact Hb |]. split; [exact Hf |]. discriminate.
Qed.

Lemma only_reports_collect {A B} (f : A -> Cmd B) (xs : list A) :
  (forall x, only_reports (f x)) -> only_reports (collect f xs).
Proof.
  intros Hf. induction xs as [| x xs IH]; simpl.
  - apply only_reports_ret.
  - apply only_reports_bind; [apply Hf | intros y].
    apply only_reports_bind; [exact IH | intros ys; apply only_reports_ret].
Qed.

(** [_parse_add_values] changes neither the builder object nor a file, and
    exits with status 2, or with status 0 from the help of [parse_args]. *)
Lemma parse_add_values_reports (argvish : list string) (w : World) :
  builder (snd (_parse_add_values argvish w)) = builder w
  /\ fs (snd (_parse_add_values argvish w)) = fs w
  /\ forall s, fst (_parse_add_values argvish w) = Exit s ->
               s = EXIT_ERROR
               \/ (s = EXIT_SUCCESS /\ exists text, parse_args argvish = ParseHelp text).
Proof.
  unfold _parse_add_values, call_parse_args.
  destruct (parse_args argvish) as [opts args | text | text] eqn:Hargs.
  - assert (H : only_reports
                  (if (0 <? length args)%nat && opts_used opts
                   then print (doc "add") [] ;; exit EXIT_ERROR
                   else if (0 <? length args)%nat
                   then
                     if negb (length args mod 2 =? 0)%nat
                     then print (doc "add") [] ;; exit EXIT_ERROR
                     else collect (fun p => parse_add_value (fst p) (snd p)) (pairs args)
                   else
                     dev <- try_except (lift (build_dev_from_opts opts)) isValueError
                              (fun e => print "%s" [VStr (message e)] ;;
                                        print unchanged_msg [] ;;
                                        exit EXIT_ERROR) ;;
                     ret [dev])).
    { destruct ((0 <? length args)%nat && opts_used opts); [only_reports_tac |].
      destruct (0 <? length args)%nat.
      - destruct (negb (length args mod 2 =? 0)%nat); [only_reports_tac |].
        apply only_reports_collect. intros p. apply only_reports_parse_add_value.
      - apply only_reports_bind; [| intros; apply only_reports_ret].
        apply only_reports_try_except; [apply only_reports_lift | only_reports_tac]. }
    destruct (H w) as (Hb & Hf & Hs).
    split; [exact Hb |]. split; [exact Hf |]. intros s E. left. apply Hs. exact E.
  - cbn. split; [reflexivity |]. split; [reflexivity |].
    intros s [= <-]. right. split; [reflexivity |]. exists text. reflexivity.
  - cbn. split; [reflexivity |]. split; [reflexivity |].
    intros s [= <-]. left. reflexivity.
Qed.





(** *** Whatever the device strings are *)






(** [_parse_add_values] once [parse_args] has returned. *)
Lemma parse_add_values_parsed (argvish : list string) opts args :
  parse_args argvish = Parsed opts args ->
  _parse_add_values argvish
  = if (0 <? length args)%nat && opts_used opts
    then print (doc "add") [] ;; exit EXIT_ERROR
    else if (0 <? length args)%nat
    then
      if negb (length args mod 2 =? 0)%nat
      then print (doc "add") [] ;; exit EXIT_ERROR
      else collect (fun p => parse_add_value (fst p) (snd p)) (pairs args)
    else
      dev <- try_except (lift (build_dev_from_opts opts)) isValueError
               (fun e => print "%s" [VStr (message e)] ;;
                         print unchanged_msg [] ;;
                         exit EXIT_ERROR) ;;
      ret [dev].
Proof.
  intros H. unfold _parse_add_values, call_parse_args. rewrite H. reflexivity.
Qed.


(** ** The balance shown for a device *)

Lemma Qeq_bool_false (a b : Q) : ~ (a == b)%Q -> Qeq_bool a b = false.
Proof.
  intros H. destruct (Qeq_bool a b) eqn:E; [| reflexivity].
  apply Qeq_bool_iff in E. contradiction.
Qed.

Lemma printed_nil (w : World) : printed [] w = w.
Proof. destruct w. unfold printed. cbn. rewrite app_nil_r. reflexivity. Qed.

Lemma printed_printed (l1 l2 : list line) (w : World) :
  printed l2 (printed l1 w) = printed (l1 ++ l2) w.
Proof. unfold printed. cbn. rewrite app_assoc. reflexivity. Qed.

(** With [weighted_parts] not zero, no division of [dev_balance] raises. *)
Lemma dev_balance_value (wp : Q) (dev : Dev.t) :
  ~ (wp == 0)%Q -> dev_balance wp dev = Ok (balance_value wp dev).
Proof.
  intros Hwp. unfold balance_value, dev_balance, py_div.
  destruct (Qeq_bool (Dev.weight dev) 0) eqn:Ew.
  - destruct (Dev.parts dev =? 0); reflexivity.
  - rewrite Qeq_bool_false; [reflexivity |].
    intros H. apply Qmult_integral in H. destruct H as [H | H]; [| contradiction].
    apply Qeq_bool_iff in H. congruence.
Qed.

(** What [dev_balance] computes is the balance of the specification. *)
Lemma balance_value_reported (wp : Q) (dev : Dev.t) :
  ~ (wp == 0)%Q -> reported wp dev (balance_value wp dev).
Proof.
  intros Hwp. unfold reported, balance_value, dev_balance, py_div, formula.
  destruct (Qeq_bool (Dev.weight dev) 0) eqn:Ew.
  - apply Qeq_bool_iff in Ew. split; [| split].
    + intros H. contradiction.
    + intros _ Hp. destruct (Dev.parts dev =? 0) eqn:E; [| reflexivity].
      apply Z.eqb_eq in E. lia.
    + intros _ Hp. rewrite Hp. reflexivity.
  - assert (Hne : ~ (Dev.weight dev == 0)%Q).
    { intros H. apply Qeq_bool_iff in H. congruence. }
    rewrite Qeq_bool_false.
    + split; [| split]; [reflexivity | intros H; contradiction | intros H; contradiction].
    + intros H. apply Qmult_integral in H. destruct H as [H | H]; contradiction.
Qed.

Lemma show_device_prints (wp : Q) (dev : Dev.t) (w : World) :
  ~ (wp == 0)%Q ->
  show_device wp dev w = (Return tt, printed [device_row dev (balance_value wp dev)] w).
Proof.
  intros Hwp. unfold show_device, bind, lift. rewrite (dev_balance_value _ _ Hwp).
  reflexivity.
Qed.

(** The display loop of [default] prints one row for each live device. *)
Lemma show_slots_print (wp : Q) (ds : list (option ref)) (w : World) :
  ~ (wp == 0)%Q ->
  for_each ds (show_slot wp) w
  = (Return tt,
     printed (map (fun r => device_row (heap (builder w) r)
                                       (balance_value wp (heap (builder w) r)))
                  (omap id ds)) w).
Proof.
  intros Hwp. revert w. induction ds as [| d ds IH]; intros w; simpl.
  - rewrite printed_nil. reflexivity.
  - unfold bind at 1. destruct d as [r |]; simpl.
    + unfold bind at 1, deref. rewrite (show_device_prints _ _ _ Hwp).
      rewrite IH. rewrite printed_printed. reflexivity.
    + apply IH.
Qed.

(** The display loop of [search] prints one row for each device found. *)
Lemma show_found_print (wp : Q) (found : list ref) (w : World) :
  ~ (wp == 0)%Q ->
  for_each found (show_found wp) w
  = (Return tt,
     printed (map (fun r => device_row (heap (builder w) r)
                                       (balance_value wp (heap (builder w) r)))
                  found) w).
Proof.
  intros Hwp. revert w. induction found as [| r found IH]; intros w; simpl.
  - rewrite printed_nil. reflexivity.
  - unfold bind at 1. unfold show_found at 1.
    unfold bind at 1, deref. rewrite (show_device_prints _ _ _ Hwp).
    rewrite IH. rewrite printed_printed. reflexivity.
Qed.

(** The formula is 0 at the fair share, above 0 over it and below 0 under
    it. *)
Lemma formula_sign (wp : Q) (dev : Dev.t) :
  (0 < Dev.weight dev)%Q -> (0 < wp)%Q ->
  ((formula wp dev == 0)%Q <-> (inject_Z (Dev.parts dev) == fair_share wp dev)%Q)
  /\ ((0 < formula wp dev)%Q <-> (fair_share wp dev < inject_Z (Dev.parts dev))%Q)
  /\ ((formula wp dev < 0)%Q <-> (inject_Z (Dev.parts dev) < fair_share wp dev)%Q).
Proof.
  intros Hw Hwp. unfold formula, fair_share.
  set (p := inject_Z (Dev.parts dev)).
  set (d := (Dev.weight dev * wp)%Q).
  assert (Hd : (0 < d)%Q) by (apply Qmult_lt_0_compat; assumption).
  assert (Hx : (100 * p / d - 100 == 100 * (p - d) / d)%Q) by (field; lra).
  rewrite Hx.
  assert (Hinv : (0 < / d)%Q) by (apply Qinv_lt_0_compat; exact Hd).
  unfold Qdiv. clear Hx. revert Hinv. generalize (/ d)%Q. intros x Hx.
  split; [| split]; split; intros H.
  - apply Qmult_integral in H. destruct H as [H | H]; lra.
  - nra.
  - nra.
  - nra.
  - nra.
  - nra.
Qed.

(** Every value from -100 upwards is a value of the formula. *)
Lemma formula_reaches (m : Q) :
  (-100 <= m)%Q ->
  exists (dev : Dev.t) (wp : Q),
    (0 < Dev.weight dev)%Q /\ (0 < wp)%Q /\ 0 <= Dev.parts dev
    /\ (formula wp dev == m)%Q.
Proof.
  intros Hm. destruct m as [a b].
  exists (Dev.mk 0 1 1 "" 0 "" 0 "" (inject_Z (100 * Z.pos b)) (a + 100 * Z.pos b) ""), 1%Q.
  cbn [Dev.weight Dev.parts].
  assert (Ha : -100 * Z.pos b <= a).
  { unfold Qle in Hm. cbn in Hm. lia. }
  split; [| split; [| split]].
  - unfold Qlt. cbn. lia.
  - reflexivity.
  - lia.
  - unfold formula. cbn [Dev.weight Dev.parts].
    rewrite (Qmake_Qdiv a b). rewrite inject_Z_plus, !inject_Z_mult.
    assert (H : ~ (inject_Z (Z.pos b) == 0)%Q).
    { unfold Qeq. cbn. lia. }
    change (inject_Z 100) with 100%Q.
    field. exact H.
Qed.

(** Runs a computation as far as its steps are known. *)
Ltac run :=
  cbv beta iota zeta delta
      [bind ret exit raise print print_line get_builder call lift with_builder
       argv_get deref printed];
  cbn [builder fs stdout stderr stdin clock fmt args].

Lemma weighted_parts_value (b : RingBuilder Internal) :
  ~ (sum_weights b == 0)%Q ->
  ~ (inject_Z (parts b) * replicas b == 0)%Q ->
  weighted_parts b = Ok (inject_Z (parts b) * replicas b / sum_weights b)%Q
  /\ ~ (inject_Z (parts b) * replicas b / sum_weights b == 0)%Q.
Proof.
  intros Hs Hp. split.
  - unfold weighted_parts, py_div. rewrite (Qeq_bool_false _ _ Hs). reflexivity.
  - intros H. unfold Qdiv in H. apply Qmult_integral in H.
    destruct H as [H | H]; [contradiction |].
    apply Hs. rewrite <- (Qinv_involutive (sum_weights b)). rewrite H. reflexivity.
Qed.

(** A run of [default] on a builder with devices. *)
Lemma default_rows (argv : list string) (w : World) (a1 : string) (bal : Q)
    (b1 : RingBuilder Internal) :
  argv !! 1%nat = Some a1 ->
  devs (builder w) <> [] ->
  get_balance (builder w) = (Ok bal, b1) ->
  devs b1 <> [] ->
  ~ (sum_weights b1 == 0)%Q ->
  ~ (inject_Z (parts b1) * replicas b1 == 0)%Q ->
  exists w' head,
    default argv w = (Exit EXIT_SUCCESS, w')
    /\ length head = 4%nat
    /\ stdout w' =
       stdout w ++ head ++
       map (fun r => device_row (heap b1 r)
                       (balance_value (inject_Z (parts b1) * replicas b1 / sum_weights b1)
                                      (heap b1 r)))
           (live b1).
Proof.
  intros Ha1 Hd Hg Hd1 Hs Hp.
  destruct (weighted_parts_value b1 Hs Hp) as [Hwp Hne].
  unfold default. run. rewrite Ha1. run.
  destruct (devs (builder w)) as [| d0 ds0] eqn:Ed; [contradiction |]. run.
  rewrite Hg. run.
  destruct (devs b1) as [| d1 ds1] eqn:Ed1; [contradiction |]. run.
  rewrite Hwp. rewrite (show_slots_print _ _ _ Hne). run.
  eexists _, [_; _; _; _]. split; [reflexivity |]. split; [reflexivity |].
  rewrite <- !app_assoc. unfold live. rewrite Ed1. reflexivity.
Qed.

(** A run of [search] that finds devices. *)
Lemma search_rows (argv : list string) (w : World) (a3 : string) (sv : SearchValues)
    (found : list ref) (b1 : RingBuilder Internal) :
  argv !! 3%nat = Some a3 ->
  parse_search_value a3 = Ok sv ->
  search_devs sv (builder w) = (Ok found, b1) ->
  found <> [] ->
  ~ (sum_weights b1 == 0)%Q ->
  ~ (inject_Z (parts b1) * replicas b1 == 0)%Q ->
  exists w',
    search argv w = (Exit EXIT_SUCCESS, w')
    /\ stdout w' =
       stdout w ++ Line devices_header [] ::
       map (fun r => device_row (heap b1 r)
                       (balance_value (inject_Z (parts b1) * replicas b1 / sum_weights b1)
                                      (heap b1 r)))
           found.
Proof.
  intros Ha3 Hsv Hfound Hne0 Hs Hp.
  destruct (weighted_parts_value b1 Hs Hp) as [Hwp Hne].
  assert (Hlen : (length argv <? 4)%nat = false).
  { apply Nat.ltb_ge. apply lookup_lt_Some in Ha3. lia. }
  unfold search. rewrite Hlen. run. rewrite Ha3. run. rewrite Hsv. rewrite Hfound. run.
  destruct found as [| r0 found0]; [contradiction |]. run.
  rewrite Hwp. rewrite (show_found_print _ _ _ Hne). run.
  eexists. split; [reflexivity |].
  rewrite <- !app_assoc. reflexivity.
Qed.

(** When the live weights sum to zero, [search] raises at the division that
    gives [weighted_parts], before the row of any device. *)
Lemma search_without_weight (argv : list string) (w : World) (a3 : string)
    (sv : SearchValues) (found : list ref) (b1 : RingBuilder Internal) :
  argv !! 3%nat = Some a3 ->
  parse_search_value a3 = Ok sv ->
  search_devs sv (builder w) = (Ok found, b1) ->
  found <> [] ->
  (sum_weights b1 == 0)%Q ->
  exists w',
    search argv w = (Raise ZeroDivisionError, w')
    /\ stdout w' = stdout w ++ [Line devices_header []].
Proof.
  intros Ha3 Hsv Hfound Hne0 Hs.
  assert (Hlen : (length argv <? 4)%nat = false).
  { apply Nat.ltb_ge. apply lookup_lt_Some in Ha3. lia. }
  assert (Hwp : weighted_parts b1 = Err ZeroDivisionError).
  { unfold weighted_parts, py_div. apply Qeq_bool_iff in Hs. rewrite Hs. reflexivity. }
  unfold search. rewrite Hlen. run. rewrite Ha3. run. rewrite Hsv. rewrite Hfound. run.
  destruct found as [| r0 found0]; [contradiction |]. run.
  rewrite Hwp. eexists. split; reflexivity.
Qed.

(** C1 (amended).  On a builder whose live weights do not sum to zero and
    whose number of replica slots is not zero, [default] and [search] print
    one row for each device they display, and the balance in the row of a
    device is [100 * parts / (weight * weighted_parts) - 100] when its
    weight is not zero, [MAX_BALANCE] when its weight is zero and it holds
    partitions, and 0 when its weight is zero and it holds none, where
    [weighted_parts] is the number of partitions times the replica count
    over the sum of the live weights.  For a positive weight the formula is
    0 at the fair share, positive above it and negative below it.  The
    sentinel is a constant of the ring package; it is not set apart from the
    values of the formula, which takes every value from -100 upwards. *)
Theorem devices_are_shown_with_their_balance (argv : list string) (w : World) :
  (forall a1 bal b1,
      argv !! 1%nat = Some a1 ->
      devs (builder w) <> [] ->
      get_balance (builder w) = (Ok bal, b1) ->
      devs b1 <> [] ->
      ~ (sum_weights b1 == 0)%Q ->
      ~ (inject_Z (parts b1) * replicas b1 == 0)%Q ->
      let wp := (inject_Z (parts b1) * replicas b1 / sum_weights b1)%Q in
      exists w' head,
        default argv w = (Exit EXIT_SUCCESS, w')
        /\ length head = 4%nat
        /\ stdout w' =
           stdout w ++ head ++
           map (fun r => device_row (heap b1 r) (balance_value wp (heap b1 r))) (live b1)
        /\ forall r, In r (live b1) ->
                     reported wp (heap b1 r) (balance_value wp (heap b1 r)))
  /\ (forall a3 sv found b1,
      argv !! 3%nat = Some a3 ->
      parse_search_value a3 = Ok sv ->
      search_devs sv (builder w) = (Ok found, b1) ->
      found <> [] ->
      ~ (sum_weights b1 == 0)%Q ->
      ~ (inject_Z (parts b1) * replicas b1 == 0)%Q ->
      let wp := (inject_Z (parts b1) * replicas b1 / sum_weights b1)%Q in
      exists w',
        search argv w = (Exit EXIT_SUCCESS, w')
        /\ stdout w' =
           stdout w ++ Line devices_header [] ::
           map (fun r => device_row (heap b1 r) (balance_value wp (heap b1 r))) found
        /\ forall r, In r found ->
                     reported wp (heap b1 r) (balance_value wp (heap b1 r)))
  /\ (forall wp dev,
      (0 < Dev.weight dev)%Q -> (0 < wp)%Q ->
      ((formula wp dev == 0)%Q <-> (inject_Z (Dev.parts dev) == fair_share wp dev)%Q)
      /\ ((0 < formula wp dev)%Q <-> (fair_share wp dev < inject_Z (Dev.parts dev))%Q)
      /\ ((formula wp dev < 0)%Q <-> (inject_Z (Dev.parts dev) < fair_share wp dev)%Q))
  /\ ((-100 <= MAX_BALANCE)%Q ->
      exists (dev : Dev.t) (wp : Q),
        (0 < Dev.weight dev)%Q /\ (0 < wp)%Q /\ 0 <= Dev.parts dev
        /\ (formula wp dev == MAX_BALANCE)%Q).
Proof.
  split; [| split; [| split]].
  - intros a1 bal b1 Ha1 Hd Hg Hd1 Hs Hp wp.
    destruct (default_rows argv w a1 bal b1 Ha1 Hd Hg Hd1 Hs Hp) as (w' & head & E & Hl & Ho).
    exists w', head. split; [exact E |]. split; [exact Hl |]. split; [exact Ho |].
    intros r _. apply balance_value_reported.
    apply (weighted_parts_value b1 Hs Hp).
  - intros a3 sv found b1 Ha3 Hsv Hf Hne Hs Hp wp.
    destruct (search_rows argv w a3 sv found b1 Ha3 Hsv Hf Hne Hs Hp) as (w' & E & Ho).
    exists w'. split; [exact E |]. split; [exact Ho |].
    intros r _. apply balance_value_reported.
    apply (weighted_parts_value b1 Hs Hp).
  - intros wp dev. apply formula_sign.
  - apply formula_reaches.
Qed.

(** * Further properties *)

Context {T : RingTools (L := L)}.

(** ** Strings *)

Lemma append_cons (c : ascii) (s t : string) : String c s +:+ t = String c (s +:+ t).
Proof. reflexivity. Qed.

Lemma append_empty (t : string) : EmptyString +:+ t = t.
Proof. reflexivity. Qed.

Lemma append_empty_r (s : string) : s +:+ EmptyString = s.
Proof. induction s as [| c s IH]; [reflexivity |]. rewrite append_cons, IH. reflexivity. Qed.

Lemma append_assoc (a b c : string) : (a +:+ b) +:+ c = a +:+ b +:+ c.
Proof.
  induction a as [| x a IH]; [reflexivity |]. rewrite !append_cons, IH. reflexivity.
Qed.

Lemma every_app (p : ascii -> bool) (a b : string) :
  every p (a +:+ b) = every p a && every p b.
Proof.
  induction a as [| c a IH]; [reflexivity |].
  rewrite append_cons. simpl. rewrite IH. apply andb_assoc.
Qed.

Lemma span_app (p : ascii -> bool) (a rest : string) :
  every p a = true -> led_by p rest = false -> span p (a +:+ rest) = (a, rest).
Proof.
  intros Ha Hr. induction a as [| c a IH].
  - rewrite append_empty. destruct rest as [| c r]; [reflexivity |].
    simpl in *. rewrite Hr. reflexivity.
  - rewrite append_cons. simpl in *. apply andb_true_iff in Ha. destruct Ha as [Hc Ha].
    rewrite Hc, (IH Ha). reflexivity.
Qed.

Lemma contains_every (c : ascii) (s : string) :
  contains c s = false <-> every (is_not c) s = true.
Proof.
  induction s as [| c' s IH]; simpl; [tauto |].
  unfold is_not at 1. rewrite orb_false_iff, andb_true_iff, negb_true_iff. tauto.
Qed.

Lemma lstrip_id (c : ascii) (s : string) : startswith c s = false -> lstrip c s = s.
Proof. destruct s as [| c' s]; simpl; [reflexivity |]. intros ->. reflexivity. Qed.

Lemma contains_startswith (c : ascii) (s : string) :
  contains c s = false -> startswith c s = false.
Proof. destruct s as [| c' s]; simpl; [reflexivity |]. intros H. apply orb_false_iff in H. tauto. Qed.

Lemma rev_app_app (a b t : string) :
  String.rev_app (a +:+ b) t = String.rev_app b (String.rev_app a t).
Proof.
  revert t. induction a as [| c a IH]; intros t; [reflexivity |].
  rewrite append_cons. simpl. apply IH.
Qed.

Lemma rev_app_rev_app (s t u : string) :
  String.rev_app (String.rev_app s t) u = String.rev_app t (s +:+ u).
Proof.
  revert t. induction s as [| c s IH]; intros t; [reflexivity |].
  simpl. rewrite IH. reflexivity.
Qed.

Lemma rev_rev (s : string) : String.rev (String.rev s) = s.
Proof. unfold String.rev. rewrite rev_app_rev_app. simpl. apply append_empty_r. Qed.

Lemma contains_rev_app (c : ascii) (s t : string) :
  contains c (String.rev_app s t) = contains c s || contains c t.
Proof.
  revert t. induction s as [| c' s IH]; intros t; [reflexivity |].
  simpl. rewrite IH. simpl. destruct (Ascii.eqb c' c), (contains c s), (contains c t); reflexivity.
Qed.

(** [rstrip] takes off the one closing character after a text without it. *)
Lemma rstrip_closing (c : ascii) (s : string) :
  contains c s = false -> rstrip c (s +:+ String c EmptyString) = s.
Proof.
  intros H. unfold rstrip, String.rev. rewrite rev_app_app. simpl.
  rewrite Ascii.eqb_refl. rewrite lstrip_id.
  - apply rev_rev.
  - apply contains_startswith. rewrite contains_rev_app, H. reflexivity.
Qed.

(** ** Numbers in decimal *)

Lemma digits_value_app (acc : Z) (a b : string) :
  digits_value acc (a +:+ b)
  = match digits_value acc a with
    | Some v => digits_value v b
    | None => None
    end.
Proof.
  revert acc. induction a as [| c a IH]; intros acc; [reflexivity |].
  rewrite append_cons. simpl. destruct (isdigit c); [apply IH | reflexivity].
Qed.

Lemma pretty_N_char_digit (n : N) :
  (n < 10)%N ->
  isdigit (pretty_N_char n) = true
  /\ Z.of_nat (nat_of_ascii (pretty_N_char n)) - 48 = Z.of_N n.
Proof.
  intros H. destruct n as [| p]; [split; reflexivity |].
  do 4 (try (destruct p as [p | p |]; try lia)); split; reflexivity.
Qed.

(** What [pretty] puts before [s] is the decimal numeral of [x]. *)
Lemma pretty_N_go_digits (x : N) :
  forall s, exists d,
    pretty_N_go x s = d +:+ s
    /\ every isdigit d = true
    /\ (forall acc, digits_value acc d
                    = Some (acc * 10 ^ Z.of_nat (String.length d) + Z.of_N x))
    /\ ((0 < x)%N -> d <> EmptyString).
Proof.
  induction (N.lt_wf_0 x) as [x _ IH]. intros s.
  destruct (N.eq_dec x 0%N) as [-> | Hx].
  - exists EmptyString. rewrite pretty_N_go_0. repeat split.
    + intros acc. simpl. f_equal. lia.
    + intros H. lia.
  - assert (0 < x)%N as Hpos by lia.
    rewrite (pretty_N_go_step x s Hpos).
    destruct (IH (x `div` 10)%N (N.div_lt x 10 Hpos eq_refl)
                 (String (pretty_N_char (x `mod` 10)) s)) as (d & E & Hd & Hv & _).
    destruct (pretty_N_char_digit (x `mod` 10)%N) as [Hc Hcv].
    { apply N.mod_lt. discriminate. }
    exists (d +:+ String (pretty_N_char (x `mod` 10)) EmptyString).
    split; [| split; [| split]].
    + rewrite E, append_assoc. reflexivity.
    + rewrite every_app, Hd. simpl. rewrite Hc. reflexivity.
    + intros acc. rewrite digits_value_app, Hv. simpl. rewrite Hc. f_equal.
      rewrite Hcv.
      assert (String.length (d +:+ String (pretty_N_char (x `mod` 10)) "")
              = S (String.length d)) as ->.
      { clear. induction d as [| c d IH]; [reflexivity |].
        rewrite append_cons. simpl. rewrite IH. reflexivity. }
      rewrite Nat2Z.inj_succ, Z.pow_succ_r by lia.
      rewrite N2Z.inj_div, N2Z.inj_mod.
      pose proof (Z.div_mod (Z.of_N x) 10 ltac:(lia)) as Hdm.
      change (Z.of_N 10) with 10. lia.
    + intros _. destruct d; discriminate.
Qed.

Lemma pretty_digits (z : Z) :
  0 <= z ->
  every isdigit (pretty z) = true
  /\ digits_value 0 (pretty z) = Some z
  /\ pretty z <> EmptyString.
Proof.
  intros Hz. destruct z as [| p | p]; [repeat split; discriminate | | lia].
  unfold pretty, pretty_Z, pretty, pretty_positive, pretty, pretty_N.
  destruct (decide (N.pos p = 0%N)) as [H | _]; [discriminate |].
  destruct (pretty_N_go_digits (N.pos p) EmptyString) as (d & E & Hd & Hv & Hne).
  rewrite append_empty_r in E. rewrite E.
  split; [exact Hd |]. split; [| apply Hne; reflexivity].
  rewrite Hv. reflexivity.
Qed.

Lemma py_int_pretty (z : Z) : 0 <= z -> py_int (pretty z) = Ok z.
Proof.
  intros Hz. destruct (pretty_digits z Hz) as (_ & Hv & Hne).
  unfold py_int. destruct (pretty z); [contradiction |]. rewrite Hv. reflexivity.
Qed.

Lemma span_pretty (z : Z) (rest : string) :
  0 <= z -> led_by isdigit rest = false ->
  span isdigit (pretty z +:+ rest) = (pretty z, rest).
Proof. intros Hz Hr. apply span_app; [apply (pretty_digits z Hz) | exact Hr]. Qed.

(** ** The steps of the scanner on what [format_device] prints *)

Lemma scan_int_pretty (c : ascii) (z : Z) (rest : string) (w : World) :
  0 <= z -> led_by isdigit rest = false ->
  scan_int (String c (pretty z +:+ rest)) w = (Return (z, rest), w).
Proof.
  intros Hz Hr. unfold scan_int. cbn [tail]. rewrite (span_pretty z rest Hz Hr).
  unfold bind, lift. rewrite (py_int_pretty z Hz). reflexivity.
Qed.

Lemma plain_no_colon (s : string) : plain_address s = true -> contains ":" s = false.
Proof.
  unfold plain_address. induction s as [| c s IH]; simpl; [reflexivity |].
  intros H. apply andb_true_iff in H. destruct H as [Hc Hs].
  rewrite (IH Hs), orb_false_r.
  destruct (Ascii.eqb c ":") eqn:E; [| reflexivity].
  apply Ascii.eqb_eq in E. subst c. discriminate.
Qed.

Lemma scan_ip_bracket (c : ascii) (ip rest : string) (w : World) :
  address ip = true -> startswith ":" rest = true ->
  scan_ip (String c (bracket ip +:+ rest)) w = (Return (ip, rest), w).
Proof.
  intros Ha Hr. unfold address in Ha.
  destruct rest as [| c0 rest]; [discriminate |]. simpl in Hr.
  apply Ascii.eqb_eq in Hr. subst c0.
  destruct (plain_address ip) eqn:Hp.
  - unfold bracket. rewrite (plain_no_colon ip Hp). unfold scan_ip. cbn [tail].
    destruct ip as [| c1 ip].
    + reflexivity.
    + rewrite append_cons.
      assert (Hc1 : in_digits_dot c1 = true).
      { unfold plain_address in Hp. simpl in Hp. apply andb_true_iff in Hp. tauto. }
      destruct (Ascii.eqb c1 "[") eqn:E.
      { apply Ascii.eqb_eq in E. subst c1. discriminate. }
      rewrite <- append_cons. rewrite span_app; [reflexivity | exact Hp | reflexivity].
  - simpl in Ha. unfold bracketed_address in Ha.
    apply andb_true_iff in Ha. destruct Ha as [Ha Hopen].
    apply andb_true_iff in Ha. destruct Ha as [Hcolon Hclose].
    apply negb_true_iff in Hopen, Hclose.
    unfold bracket. rewrite Hcolon. unfold scan_ip. cbn [tail].
    rewrite !append_cons, append_empty, append_assoc, append_cons, append_empty.
    rewrite Ascii.eqb_refl.
    rewrite span_app; [| apply contains_every; exact Hclose | reflexivity].
    cbn [first tail]. unfold ret. do 2 f_equal.
    rewrite append_cons. cbn [lstrip]. rewrite Ascii.eqb_refl. rewrite lstrip_id.
    + rewrite append_empty, rstrip_closing; [reflexivity | exact Hclose].
    + rewrite append_empty. destruct ip; [reflexivity |]. exact Hopen.
Qed.


Lemma append_char (c : ascii) (s : string) : String c EmptyString +:+ s = String c s.
Proof. reflexivity. Qed.

Lemma span_name (device rest : string) :
  contains "_" device = false -> led_by (is_not "_") rest = false ->
  span (is_not "_") (device +:+ rest) = (device, rest).
Proof. intros Hd Hr. apply span_app; [apply contains_every; exact Hd | exact Hr]. Qed.

Ltac pass :=
  cbn [startswith]; rewrite ?Ascii.eqb_refl;
  erewrite bind_return by
    first [ reflexivity
          | apply scan_int_pretty; [assumption | reflexivity]
          | apply scan_ip_bracket; [assumption | reflexivity] ].

(** X1. The text that format_device prints after 'd<id>' is a device string that add
    reads back. For a device with non-negative region, zone and ports, addresses
    that are plain (digits and dots) or have a colon (printed in brackets), and
    a device name without '_', the scan reads that text to its end without
    warning or error and gives the device's region, zone, ip, port, replication
    ip, replication port and device name; the meta comes back with the double
    quotes that format_device puts around it. *)
Theorem add_reads_what_format_device_prints (dev : Dev.t) (w : World) :
  0 <= Dev.region dev -> 0 <= Dev.zone dev ->
  0 <= Dev.port dev -> 0 <= Dev.replication_port dev ->
  address (Dev.ip dev) = true -> address (Dev.replication_ip dev) = true ->
  contains "_" (Dev.device dev) = false ->
  exists text,
    format_device dev = "d" +:+ pretty (Dev.id dev) +:+ text
    /\ scan_device text w
       = (Return (fun weight =>
                    NewDev.mk (Dev.region dev) (Dev.zone dev) (Dev.ip dev) (Dev.port dev)
                              (Dev.device dev) (Dev.replication_ip dev)
                              (Dev.replication_port dev) weight
                              (dq +:+ Dev.meta dev +:+ dq)), w).
Proof.
  intros Hregion Hzone Hport Hrport Hip Hrip Hname.
  eexists. split; [reflexivity |].
  unfold scan_device. rewrite !append_char.
  pass. pass. pass. pass. pass. pass. pass.
  cbn [startswith]. rewrite Ascii.eqb_refl.
  unfold bind at 1. pass. pass. pass.
  cbn [ret]. pass.
  cbn [tail]. rewrite span_name by (assumption || reflexivity).
  cbn [startswith tail]. rewrite Ascii.eqb_refl. reflexivity.
Qed.


Lemma scan_short_form (zone port : Z) (ip device suffix : string) (w : World) :
  0 <= zone -> 0 <= port -> address ip = true -> contains "_" device = false ->
  led_by (is_not "_") suffix = false ->
  scan_device (short_form zone ip port device +:+ suffix) w
  = (Return (fun weight => NewDev.mk 1 zone ip port device ip port weight (tail suffix)),
     warned (short_form zone ip port device +:+ suffix) w).
Proof.
  intros Hzone Hport Hip Hname Hsuffix.
  unfold scan_device, warned, short_form. rewrite !append_assoc, !append_char.
  cbn [startswith]. change (Ascii.eqb "z" "r") with false. cbv iota.
  erewrite bind_return by reflexivity.
  pass. pass. pass. pass. pass.
  cbn [startswith]. change (Ascii.eqb "/" "R") with false. cbv iota.
  pass. pass.
  cbn [tail]. rewrite span_name by assumption.
  destruct suffix as [| c suffix]; [reflexivity |].
  cbn in Hsuffix. unfold is_not in Hsuffix. apply negb_false_iff in Hsuffix.
  cbn [startswith tail]. rewrite Hsuffix. reflexivity.
Qed.

(** X2. A device string 'z<zone>-<ip>:<port>/<device>' that gives no region and no
    replication address is read with region 1 and with the ip and port as
    replication ip and port, after one warning on stderr about the missing
    region. The meta is empty, or what follows '_' when the string goes on with
    '_<meta>'. *)
Theorem add_fills_in_what_is_left_out (zone port : Z) (ip device meta : string) (w : World) :
  0 <= zone -> 0 <= port -> address ip = true -> contains "_" device = false ->
  scan_device (short_form zone ip port device) w
  = (Return (fun weight => NewDev.mk 1 zone ip port device ip port weight EmptyString),
     warned (short_form zone ip port device) w)
  /\ scan_device (short_form zone ip port device +:+ "_" +:+ meta) w
     = (Return (fun weight => NewDev.mk 1 zone ip port device ip port weight meta),
        warned (short_form zone ip port device +:+ "_" +:+ meta) w).
Proof.
  intros Hzone Hport Hip Hname. split.
  - rewrite <- (append_empty_r (short_form zone ip port device)).
    apply (scan_short_form zone port ip device EmptyString w); auto.
  - apply (scan_short_form zone port ip device ("_" +:+ meta) w); auto.
Qed.

Lemma scan_int_missing (c : ascii) (rest : string) (w : World) :
  led_by isdigit rest = false ->
  exists msg, scan_int (String c rest) w = (Raise (ValueError msg), w).
Proof.
  intros Hr. unfold scan_int. cbn [tail].
  rewrite <- (append_empty rest). rewrite span_app by (reflexivity || assumption).
  eexists. reflexivity.
Qed.

(** X3. Device strings that add cannot read end in different ways. An 'r' or a 'z'
    that no digit follows raises ValueError and 'z<zone>-' with nothing behind
    it raises IndexError, both uncaught; only a rest that starts with no digit,
    dot, '[' or ':' (a host name, say) prints 'Invalid add value', the message
    that the on-disk builder is unchanged, and exits with status 2, builder and
    files untouched. *)
Theorem add_device_strings_that_do_not_scan (w : World) :
  (forall rest, led_by isdigit rest = false ->
     exists msg, scan_device ("r" +:+ rest) w = (Raise (ValueError msg), w))
  /\ (forall rest, led_by isdigit rest = false ->
     exists msg, scan_device ("z" +:+ rest) w
                 = (Raise (ValueError msg), warned ("z" +:+ rest) w))
  /\ (forall zone, 0 <= zone ->
     scan_device ("z" +:+ pretty zone +:+ "-") w
     = (Raise IndexError, warned ("z" +:+ pretty zone +:+ "-") w))
  /\ (forall zone host, 0 <= zone -> host <> EmptyString -> led_by address_char host = false ->
     let devstr := "z" +:+ pretty zone +:+ "-" +:+ host in
     exists w', scan_device devstr w = (Exit EXIT_ERROR, w')
                /\ stdout w' = stdout w ++ [Line "Invalid add value: %s" [VStr devstr];
                                            Line unchanged_msg []]
                /\ builder w' = builder w /\ fs w' = fs w).
Proof.
  split; [| split; [| split]].
  - intros rest Hr. unfold scan_device. rewrite append_char.
    cbn [startswith]. rewrite Ascii.eqb_refl.
    destruct (scan_int_missing "r" rest w Hr) as [msg E].
    exists msg. apply bind_raise. exact E.
  - intros rest Hr. unfold scan_device. rewrite append_char.
    cbn [startswith]. change (Ascii.eqb "z" "r") with false. cbv iota.
    erewrite bind_return by reflexivity.
    cbn [startswith]. rewrite Ascii.eqb_refl. erewrite bind_return by reflexivity.
    destruct (scan_int_missing "z" rest (warned (String "z" rest) w) Hr) as [msg E].
    exists msg. apply bind_raise. exact E.
  - intros zone Hzone. unfold scan_device. rewrite !append_char.
    cbn [startswith]. change (Ascii.eqb "z" "r") with false. cbv iota.
    erewrite bind_return by reflexivity.
    pass. pass. pass. reflexivity.
  - intros zone host Hzone Hne Hhost devstr. subst devstr.
    unfold scan_device. rewrite !append_char.
    cbn [startswith]. change (Ascii.eqb "z" "r") with false. cbv iota.
    erewrite bind_return by reflexivity.
    pass. pass. pass.
    destruct host as [| c host]; [contradiction |].
    cbn in Hhost. unfold address_char in Hhost.
    apply orb_false_iff in Hhost. destruct Hhost as [Hhost Hcolon].
    apply orb_false_iff in Hhost. destruct Hhost as [Hdd Hopen].
    unfold scan_ip at 1. cbn [tail]. rewrite Hopen.
    cbn [span]. rewrite Hdd.
    erewrite bind_return by reflexivity.
    cbn [startswith]. rewrite Hcolon.
    eexists. split; [reflexivity |]. cbn. rewrite <- app_assoc. repeat split.
Qed.


(** ** [set_info]: the change value *)

Lemma scan_change_ip_bracket (ip rest : string) :
  change_address ip = true -> led_by in_digits_dot rest = false ->
  scan_change_ip (bracket ip +:+ rest) = (Some ip, rest).
Proof.
  intros Ha Hr. unfold change_address in Ha.
  destruct (plain_address ip && led_by isdigit ip) eqn:Hp.
  - apply andb_true_iff in Hp. destruct Hp as [Hp Hd].
    unfold bracket. rewrite (plain_no_colon ip Hp).
    destruct ip as [| c ip]; [discriminate |].
    cbn in Hd. unfold plain_address in Hp. cbn in Hp.
    apply andb_true_iff in Hp. destruct Hp as [_ Hp].
    rewrite append_cons. unfold scan_change_ip. rewrite Hd.
    rewrite span_app by assumption. reflexivity.
  - cbn in Ha. unfold bracketed_address in Ha.
    apply andb_true_iff in Ha. destruct Ha as [Ha Hopen].
    apply andb_true_iff in Ha. destruct Ha as [Hcolon Hclose].
    apply negb_true_iff in Hopen, Hclose.
    unfold bracket. rewrite Hcolon.
    rewrite !append_char, append_cons, append_assoc, append_char.
    unfold scan_change_ip. change (isdigit "[") with false. cbv iota.
    rewrite Ascii.eqb_refl.
    rewrite span_app; [| apply contains_every; exact Hclose | reflexivity].
    cbn [first tail]. f_equal. f_equal.
    rewrite append_char. cbn [lstrip]. rewrite Ascii.eqb_refl. rewrite lstrip_id.
    + apply rstrip_closing. exact Hclose.
    + destruct ip; [reflexivity |]. exact Hopen.
Qed.

Lemma scan_change_port_pretty (port : Z) (rest : string) :
  0 <= port -> led_by isdigit rest = false ->
  scan_change_port (String ":" (pretty port +:+ rest)) = Ok (Some port, rest).
Proof.
  intros Hp Hr. unfold scan_change_port. cbn [startswith tail]. rewrite Ascii.eqb_refl.
  rewrite (span_pretty port rest Hp Hr), (py_int_pretty port Hp). reflexivity.
Qed.

Lemma scan_change_ip_none (cv : string) :
  led_by (fun c => isdigit c || Ascii.eqb c "[") cv = false -> scan_change_ip cv = (None, cv).
Proof.
  destruct cv as [| c cv]; [reflexivity |]. cbn. intros H.
  apply orb_false_iff in H. destruct H as [-> ->]. reflexivity.
Qed.

Lemma scan_change_port_none (cv : string) :
  startswith ":" cv = false -> scan_change_port cv = Ok (None, cv).
Proof. intros H. unfold scan_change_port. rewrite H. reflexivity. Qed.

Lemma scan_change_port_missing (rest : string) :
  led_by isdigit rest = false ->
  exists msg, scan_change_port (String ":" rest) = Err (ValueError msg).
Proof.
  intros Hr. unfold scan_change_port. cbn [startswith tail]. rewrite Ascii.eqb_refl.
  rewrite <- (append_empty rest). rewrite span_app by (reflexivity || assumption).
  eexists. reflexivity.
Qed.

(** Decides [startswith] on a text whose first character is known. *)
Ltac heads :=
  repeat match goal with
         | |- context [startswith ?c (String ?c' ?s)] =>
             let b := eval vm_compute in (Ascii.eqb c' c) in
             change (startswith c (String c' s)) with b
         | |- context [startswith ?c EmptyString] =>
             change (startswith c EmptyString) with false
         end;
  cbv iota; cbn [tail].

(** X4. The text that format_device prints after 'd<id>r<region>z<zone>-' is a
    change value that set_info reads back. For non-negative ports, addresses
    that have a colon or are plain and start with a digit, and a device name
    without '_', it parses to the device's ip, port, replication ip, replication
    port, device name and quoted meta; applying these changes to any device
    gives it exactly these six fields and keeps its id, region, zone, weight and
    parts. *)
Theorem set_info_reads_what_format_device_prints (dev : Dev.t) (a4 : string) :
  0 <= Dev.port dev -> 0 <= Dev.replication_port dev ->
  change_address (Dev.ip dev) = true -> change_address (Dev.replication_ip dev) = true ->
  contains "_" (Dev.device dev) = false ->
  exists text,
    format_device dev
    = "d" +:+ pretty (Dev.id dev) +:+ "r" +:+ pretty (Dev.region dev) +:+
      "z" +:+ pretty (Dev.zone dev) +:+ "-" +:+ text
    /\ parse_change a4 text
       = Ok [SetIp (Dev.ip dev); SetPort (Dev.port dev);
             SetReplicationIp (Dev.replication_ip dev);
             SetReplicationPort (Dev.replication_port dev);
             SetDevice (Dev.device dev); SetMeta (dq +:+ Dev.meta dev +:+ dq)]
    /\ forall target,
         apply_changes [SetIp (Dev.ip dev); SetPort (Dev.port dev);
                        SetReplicationIp (Dev.replication_ip dev);
                        SetReplicationPort (Dev.replication_port dev);
                        SetDevice (Dev.device dev); SetMeta (dq +:+ Dev.meta dev +:+ dq)]
                       target
         = Dev.mk (Dev.id target) (Dev.region target) (Dev.zone target)
                  (Dev.ip dev) (Dev.port dev) (Dev.replication_ip dev)
                  (Dev.replication_port dev) (Dev.device dev)
                  (Dev.weight target) (Dev.parts target) (dq +:+ Dev.meta dev +:+ dq).
Proof.
  intros Hport Hrport Hip Hrip Hname.
  eexists. split; [reflexivity |]. split; [| reflexivity].
  unfold parse_change. rewrite !append_char.
  rewrite scan_change_ip_bracket by (assumption || reflexivity).
  rewrite scan_change_port_pretty by (assumption || reflexivity).
  heads.
  rewrite scan_change_ip_bracket by (assumption || reflexivity).
  rewrite scan_change_port_pretty by (assumption || reflexivity).
  heads.
  rewrite span_name by (assumption || reflexivity).
  heads. reflexivity.
Qed.

(** X5. Every part of a set_info change value can stand alone: an ip, ':<port>',
    'R<ip>:<port>', '/<device>' and '_<meta>' each parse to just that change (an
    ip with a colon written in brackets), and nothing else of the device is set. *)
Theorem set_info_parts_are_optional (a4 : string) :
  (forall ip, change_address ip = true -> parse_change a4 (bracket ip) = Ok [SetIp ip])
  /\ (forall port, 0 <= port -> parse_change a4 (":" +:+ pretty port) = Ok [SetPort port])
  /\ (forall ip port, change_address ip = true -> 0 <= port ->
      parse_change a4 ("R" +:+ bracket ip +:+ ":" +:+ pretty port)
      = Ok [SetReplicationIp ip; SetReplicationPort port])
  /\ (forall device, contains "_" device = false ->
      parse_change a4 ("/" +:+ device) = Ok [SetDevice device])
  /\ (forall meta, parse_change a4 ("_" +:+ meta) = Ok [SetMeta meta]).
Proof.
  split; [| split; [| split; [| split]]].
  - intros ip Hip. unfold parse_change.
    rewrite <- (append_empty_r (bracket ip)) at 1.
    rewrite scan_change_ip_bracket by (assumption || reflexivity). reflexivity.
  - intros port Hport. unfold parse_change. rewrite append_char.
    rewrite <- (append_empty_r (pretty port)) at 1.
    rewrite scan_change_ip_none by reflexivity.
    rewrite scan_change_port_pretty by (assumption || reflexivity). reflexivity.
  - intros ip port Hip Hport. unfold parse_change. rewrite !append_char.
    rewrite <- (append_empty_r (pretty port)) at 1.
    rewrite scan_change_ip_none by reflexivity.
    rewrite scan_change_port_none by reflexivity.
    heads.
    rewrite scan_change_ip_bracket by (assumption || reflexivity).
    rewrite scan_change_port_pretty by (assumption || reflexivity). reflexivity.
  - intros device Hname. unfold parse_change. rewrite append_char.
    rewrite <- (append_empty_r device) at 1.
    rewrite scan_change_ip_none by reflexivity.
    rewrite scan_change_port_none by reflexivity.
    heads.
    rewrite span_name by (assumption || reflexivity). reflexivity.
  - intros meta. reflexivity.
Qed.

(** X6. set_info raises ValueError for a change value that is empty, that starts
    with a character other than a digit, '[', ':', 'R', '/' or '_', or in which
    no digit follows the ':' of the port. *)
Theorem set_info_refuses_other_change_values (a4 : string) :
  (exists msg, parse_change a4 EmptyString = Err (ValueError msg))
  /\ (forall c rest, change_lead c = false ->
      exists msg, parse_change a4 (String c rest) = Err (ValueError msg))
  /\ (forall rest, led_by isdigit rest = false ->
      exists msg, parse_change a4 (":" +:+ rest) = Err (ValueError msg))
  /\ (forall ip rest, change_address ip = true -> led_by isdigit rest = false ->
      exists msg, parse_change a4 (bracket ip +:+ ":" +:+ rest) = Err (ValueError msg)).
Proof.
  split; [| split; [| split]].
  - eexists. reflexivity.
  - intros c rest Hc. unfold change_lead in Hc.
    repeat (apply orb_false_iff in Hc; let H := fresh "H" in destruct Hc as [Hc H]).
    unfold parse_change.
    rewrite scan_change_ip_none by (cbn; rewrite Hc, H3; reflexivity).
    rewrite scan_change_port_none by (cbn; exact H2).
    cbn [startswith]. rewrite H1. cbn [startswith]. rewrite H0. cbn [startswith].
    rewrite H. eexists. reflexivity.
  - intros rest Hr. unfold parse_change. rewrite append_char.
    rewrite scan_change_ip_none by reflexivity.
    destruct (scan_change_port_missing rest Hr) as [msg ->]. eauto.
  - intros ip rest Hip Hr. unfold parse_change. rewrite append_char.
    rewrite scan_change_ip_bracket by (assumption || reflexivity).
    destruct (scan_change_port_missing rest Hr) as [msg ->]. eauto.
Qed.

(** ** The statuses a computation exits with *)

Lemma exits_ret {A} ss (a : A) : exits_with ss (ret a).
Proof. intros w s. discriminate. Qed.

Lemma exits_raise {A} ss (e : exn) : exits_with ss (raise (A := A) e).
Proof. intros w s. discriminate. Qed.

Lemma exits_exit {A} ss (s : Z) : In s ss -> exits_with ss (exit (A := A) s).
Proof. intros H w s' [= <-]. exact H. Qed.

Lemma exits_print ss f a : exits_with ss (print f a).
Proof. intros w s. discriminate. Qed.

Lemma exits_print_line ss l : exits_with ss (print_line l).
Proof. intros w s. discriminate. Qed.

Lemma exits_stderr_write ss s : exits_with ss (stderr_write s).
Proof. intros w s'. discriminate. Qed.

Lemma exits_raw_input ss p a : exits_with ss (raw_input p a).
Proof. intros w s. unfold raw_input. destruct (stdin w); discriminate. Qed.

Lemma exits_get_builder ss : exits_with ss get_builder.
Proof. intros w s. discriminate. Qed.

Lemma exits_call {A} ss (m : method Internal A) : exits_with ss (call m).
Proof. intros w s. unfold call. destruct (m (builder w)) as [[a | e] b]; discriminate. Qed.

Lemma exits_lift {A} ss (r : result A) : exits_with ss (lift r).
Proof. intros w s. destruct r; discriminate. Qed.

Lemma exits_deref ss r : exits_with ss (deref r).
Proof. intros w s. discriminate. Qed.

Lemma exits_assign ss r dev : exits_with ss (assign r dev).
Proof. intros w s. discriminate. Qed.

Lemma exits_argv_get ss argv i : exits_with ss (argv_get argv i).
Proof. intros w s. unfold argv_get. destruct (argv !! i); discriminate. Qed.

Lemma exits_time ss : exits_with ss time_.
Proof. intros w s. discriminate. Qed.

Lemma exits_write_file ss path f : exits_with ss (write_file path f).
Proof. intros w s. discriminate. Qed.

Lemma exits_builder_save ss path : exits_with ss (builder_save path).
Proof. intros w s. discriminate. Qed.

Lemma exits_ring_save ss r path : exits_with ss (ring_save r path).
Proof. intros w s. discriminate. Qed.

Lemma exits_int_of ss s : exits_with ss (int_of s).
Proof. intros w s'. unfold int_of. destruct (int_ s); discriminate. Qed.

Lemma exits_float_of ss s : exits_with ss (float_of s).
Proof. intros w s'. unfold float_of. destruct (float s); discriminate. Qed.

Lemma exits_mkdir ss path : exits_with ss (mkdir path).
Proof. intros w s. unfold mkdir. destruct (mkdir_ path w); discriminate. Qed.

Lemma exits_bind {A B} ss (c : Cmd A) (k : A -> Cmd B) :
  exits_with ss c -> (forall a, exits_with ss (k a)) -> exits_with ss (bind c k).
Proof.
  intros Hc Hk w s. unfold bind. specialize (Hc w).
  destruct (c w) as [[a | s' | e] w1]; cbn in *.
  - apply Hk.
  - intros [= <-]. apply Hc. reflexivity.
  - discriminate.
Qed.

Lemma exits_try_except {A} ss (c : Cmd A) cls h :
  exits_with ss c -> (forall e, exits_with ss (h e)) -> exits_with ss (try_except c cls h).
Proof.
  intros Hc Hh w s. unfold try_except. specialize (Hc w).
  destruct (c w) as [[a | s' | e] w1]; cbn in *.
  - discriminate.
  - intros [= <-]. apply Hc. reflexivity.
  - destruct (cls e); [apply Hh | discriminate].
Qed.

Lemma exits_for_each {A} ss (xs : list A) (body : A -> Cmd unit) :
  (forall x, exits_with ss (body x)) -> exits_with ss (for_each xs body).
Proof.
  intros Hb. induction xs as [| x xs IH]; simpl.
  - apply exits_ret.
  - apply exits_bind; [apply Hb | intros _; exact IH].
Qed.

Lemma exits_collect {A B} ss (f : A -> Cmd B) (xs : list A) :
  (forall x, exits_with ss (f x)) -> exits_with ss (collect f xs).
Proof.
  intros Hf. induction xs as [| x xs IH]; simpl.
  - apply exits_ret.
  - apply exits_bind; [apply Hf | intros y].
    apply exits_bind; [exact IH | intros ys; apply exits_ret].
Qed.

Lemma exits_fold_each {A S} ss (xs : list A) (body : S -> A -> Cmd S) (s : S) :
  (forall s x, exits_with ss (body s x)) -> exits_with ss (fold_each xs body s).
Proof.
  intros Hb. revert s. induction xs as [| x xs IH]; intros s; simpl.
  - apply exits_ret.
  - apply exits_bind; [apply Hb | intros s'; apply IH].
Qed.

Lemma exits_bind_returns {A B} ss (c : Cmd A) (k : A -> Cmd B) (P : A -> Prop) :
  exits_with ss c ->
  (forall w a, fst (c w) = Return a -> P a) ->
  (forall a, P a -> exits_with ss (k a)) ->
  exits_with ss (bind c k).
Proof.
  intros Hc Hr Hk w s. unfold bind. specialize (Hc w). specialize (Hr w).
  destruct (c w) as [[a | s' | e] w1]; cbn in *.
  - apply Hk. apply Hr. reflexivity.
  - intros [= <-]. apply Hc. reflexivity.
  - discriminate.
Qed.

Lemma exits_more {A} ss ss' (c : Cmd A) :
  (forall s, In s ss -> In s ss') -> exits_with ss c -> exits_with ss' c.
Proof. intros H Hc w s E. apply H. apply (Hc w s E). Qed.

Create HintDb exits discriminated.
Create HintDb parts discriminated.

#[local] Hint Resolve exits_ret exits_raise exits_print exits_print_line
  exits_stderr_write exits_raw_input exits_get_builder exits_call exits_lift
  exits_deref exits_assign exits_argv_get exits_time exits_write_file
  exits_builder_save exits_ring_save exits_int_of exits_float_of exits_mkdir : exits.

(** The parts that the commands are made of. *)
#[local] Hint Unfold show_slot show_found show_device
  invalid_add_value scan_ip scan_int scan_device parse_weight parse_add_value
  call_parse_args _parse_add_values check_duplicate add_one confirm
  set_weight_matched set_weight_dev set_weight_one
  check_collision set_info_dev set_info_matched set_info_one
  remove_failed remove_dev_one remove_matched remove_one validation_failed
  count_matches list_parts_turn list_parts_search make_backup_dir : parts.

(** Walks down a computation and checks every [exit] in it. *)
Ltac exits_tac :=
  repeat (intros;
          lazymatch goal with
          | |- exits_with _ (bind _ _) => apply exits_bind
          | |- exits_with _ (try_except _ _ _) => apply exits_try_except
          | |- exits_with _ (for_each _ _) => apply exits_for_each
          | |- exits_with _ (collect _ _) => apply exits_collect
          | |- exits_with _ (fold_each _ _ _) => apply exits_fold_each
          | |- exits_with _ (exit _) => apply exits_exit; cbn; tauto
          | |- exits_with _ (if ?b then _ else _) => destruct b
          | |- exits_with _ (match ?x with _ => _ end) => destruct x
          | |- exits_with _ (let (_, _) := ?x in _) => destruct x
          | |- exits_with _ _ => first [ solve [auto with exits]
                                        | progress autounfold with parts ]
          end).

Lemma exits_parse_add_values argvish :
  exits_with [EXIT_SUCCESS; EXIT_ERROR] (_parse_add_values argvish).
Proof. autounfold with parts. exits_tac. Qed.

Lemma exits_add_one new_dev : exits_with [EXIT_ERROR] (add_one new_dev).
Proof. exits_tac. Qed.

Lemma exits_set_weight_one devstr weightstr :
  exits_with [EXIT_ERROR] (set_weight_one devstr weightstr).
Proof. exits_tac. Qed.

Lemma exits_set_info_one a4 search_value change_value :
  exits_with [EXIT_ERROR] (set_info_one a4 search_value change_value).
Proof. exits_tac. Qed.

Lemma exits_remove_one search_value : exits_with [EXIT_ERROR] (remove_one search_value).
Proof. exits_tac. Qed.

(** ** What a command saves *)

Lemma saves_at_the_end (argv : list string) :
  saves_on_success argv
    (bind (argv_get argv 1) (fun a1 => bind (builder_save a1) (fun _ => exit EXIT_SUCCESS))).
Proof.
  intros w. unfold bind, argv_get. destruct (argv !! 1%nat) as [a1 |] eqn:E; cbn.
  - left. split; [reflexivity |]. exists a1. split; reflexivity.
  - right. split; [discriminate | reflexivity].
Qed.

Lemma saves_bind {A} (argv : list string) (c : Cmd A) (k : A -> Cmd unit) :
  keeps_fs c -> exits_with [EXIT_ERROR] c ->
  (forall a, saves_on_success argv (k a)) ->
  saves_on_success argv (bind c k).
Proof.
  intros Hkeep Hexit Hk w. unfold bind.
  specialize (Hkeep w). specialize (Hexit w).
  destruct (c w) as [[a | s | e] w1]; cbn in *.
  - rewrite <- Hkeep. apply Hk.
  - right. split; [| exact Hkeep].
    intros [= ->]. destruct (Hexit _ eq_refl) as [H | []]. discriminate H.
  - right. split; [discriminate | exact Hkeep].
Qed.

Lemma keeps_fs_int_of s : keeps_fs (int_of s).
Proof. intros w. unfold int_of. destruct (int_ s); reflexivity. Qed.

(** Walks down a command to the [builder.save(argv[1])] that ends it. *)
Ltac saves_tac :=
  repeat (intros;
          lazymatch goal with
          | |- saves_on_success _ (bind (argv_get _ 1) _) => apply saves_at_the_end
          | |- saves_on_success _ (bind _ _) =>
              apply saves_bind; [keeps_fs_tac | exits_tac |]
          end).

(** One goal for each item of the list. *)
Ltac split_list :=
  repeat match goal with
         | |- Forall _ (_ :: _) => constructor
         | |- Forall _ [] => constructor
         end.

(** X7. Each of set_weight, set_info, remove, set_replicas, set_min_part_hours and
    pretend_min_part_hours_passed either exits with status 0 and has then
    written exactly one file, the builder object as the command leaves it, under
    argv[1]; or it ends otherwise (another status or an exception) and has
    written no file. The same holds of add, with one more way to end: when
    parse_args is asked for its help, add exits with status 0 and has changed
    neither the builder object nor a file. *)
Theorem edits_are_saved_when_they_succeed (argv : list string) :
  Forall (saves_on_success argv)
         [set_weight argv; set_info argv; remove argv; set_replicas argv;
          set_min_part_hours argv; pretend_min_part_hours_passed argv]
  /\ saves_or_helps argv (add argv).
Proof.
  pose proof keeps_fs_add_one.
  pose proof keeps_fs_set_weight_one. pose proof keeps_fs_set_info_one.
  pose proof keeps_fs_remove_one. pose proof keeps_fs_int_of.
  split.
  - split_list.
    + unfold set_weight. saves_tac.
    + unfold set_info. saves_tac.
    + unfold remove. saves_tac.
    + unfold set_replicas. saves_tac.
    + unfold set_min_part_hours. saves_tac.
    + unfold pretend_min_part_hours_passed. saves_tac.
  - intros w. unfold add.
    destruct ((length argv <? 5)%nat || negb (length argv mod 2 =? 1)%nat).
    { right. right. cbn. split; [discriminate | reflexivity]. }
    change (bind (ret tt) ?k) with (k tt). cbv beta.
    assert (Hrest : forall new_devs,
               saves_on_success argv
                 (for_each new_devs add_one ;;
                  a1 <- argv_get argv 1 ;; builder_save a1 ;; exit EXIT_SUCCESS)).
    { intros new_devs. saves_tac. }
    destruct (parse_add_values_reports (drop 3 argv) w) as (Hb & Hf & Hs).
    destruct (_parse_add_values (drop 3 argv) w) as [[new_devs | s | e] w1] eqn:E0;
      cbn [fst snd] in *.
    + rewrite (bind_return _ _ _ _ _ E0).
      destruct (Hrest new_devs w1) as [(E & a1 & Ha1 & Hsaved) | (E & Hkept)].
      * left. split; [exact E |]. exists a1. split; [exact Ha1 |].
        rewrite Hsaved, Hf. reflexivity.
      * right. right. split; [exact E | congruence].
    + rewrite (bind_exit _ _ _ _ _ E0). cbn [fst snd].
      destruct (Hs s eq_refl) as [-> | [-> Hhelp]].
      * right. right. split; [discriminate | exact Hf].
      * right. left. split; [reflexivity |]. split; [exact Hhelp |].
        split; [exact Hb | exact Hf].
    + rewrite (bind_raise _ _ _ _ _ E0). cbn [fst snd].
      right. right. split; [discriminate | exact Hf].
Qed.

(** X8. When a command calls exit, the status is 0 or 2 for default, search,
    list_parts, add, set_weight, set_info, remove, set_replicas,
    set_min_part_hours, pretend_min_part_hours_passed, create, validate,
    write_ring and an unknown command; only rebalance can exit with status 1
    (EXIT_WARNING), besides 0 and 2. The statement is about calls of exit, not
    about the status the interpreter gives an uncaught exception. *)
Theorem only_rebalance_exits_with_a_warning (argv : list string)
    (backup_dir ring_file : string) :
  Forall (exits_with [EXIT_SUCCESS; EXIT_ERROR])
         [default argv; search argv; list_parts argv; add argv; set_weight argv;
          set_info argv; remove argv; set_replicas argv; set_min_part_hours argv;
          pretend_min_part_hours_passed argv; create argv; validate;
          write_ring backup_dir ring_file; unknown argv]
  /\ exits_with [EXIT_SUCCESS; EXIT_WARNING; EXIT_ERROR]
                (rebalance argv backup_dir ring_file).
Proof.
  split.
  - split_list.
    + unfold default. exits_tac.
    + unfold search. exits_tac.
    + unfold list_parts. exits_tac.
    + unfold add. exits_tac.
    + unfold set_weight. exits_tac.
    + unfold set_info. exits_tac.
    + unfold remove. exits_tac.
    + unfold set_replicas. exits_tac.
    + unfold set_min_part_hours. exits_tac.
    + unfold pretend_min_part_hours_passed. exits_tac.
    + unfold create. exits_tac.
    + unfold validate. exits_tac.
    + unfold write_ring. exits_tac.
    + unfold unknown. exits_tac.
  - unfold rebalance.
    apply exits_bind; [exits_tac | intros b].
    apply exits_bind; [exits_tac | intros (last & moved & balance)].
    do 6 (apply exits_bind; [solve [exits_tac] | intros ?]).
    apply (exits_bind_returns _ _ _ (fun s => s = EXIT_WARNING \/ s = EXIT_SUCCESS)).
    + exits_tac.
    + intros w s. destruct (Qlt_bool 5 balance); cbn; intros [= <-]; auto.
    + intros s [-> | ->]; exits_tac.
Qed.

(** ** [set_info]: what a change leaves alone *)

Lemma only_reports_deref r : only_reports (deref r).
Proof. intros w. cbn. repeat split; discriminate. Qed.

Lemma only_reports_print_line l : only_reports (print_line l).
Proof. intros w. cbn. repeat split; discriminate. Qed.

Lemma only_reports_for_each {A} (xs : list A) (body : A -> Cmd unit) :
  (forall x, only_reports (body x)) -> only_reports (for_each xs body).
Proof.
  intros Hb. induction xs as [| x xs IH]; simpl.
  - apply only_reports_ret.
  - apply only_reports_bind; [apply Hb | intros _; exact IH].
Qed.

Lemma only_reports_check_collision test_dev d : only_reports (check_collision test_dev d).
Proof.
  unfold check_collision. pose proof only_reports_deref. pose proof only_reports_print_line.
  only_reports_tac.
Qed.

Lemma only_reports_check_duplicate new_dev d : only_reports (check_duplicate new_dev d).
Proof.
  unfold check_duplicate. pose proof only_reports_deref. pose proof only_reports_print_line.
  only_reports_tac.
Qed.

Lemma apply_changes_keeps (cs : list change) (dev : Dev.t) :
  Dev.id (apply_changes cs dev) = Dev.id dev
  /\ Dev.region (apply_changes cs dev) = Dev.region dev
  /\ Dev.zone (apply_changes cs dev) = Dev.zone dev
  /\ Dev.weight (apply_changes cs dev) = Dev.weight dev
  /\ Dev.parts (apply_changes cs dev) = Dev.parts dev.
Proof.
  unfold apply_changes. revert dev. induction cs as [| c cs IH]; intros dev; simpl.
  - repeat split.
  - destruct (IH (apply_change dev c)) as (H1 & H2 & H3 & H4 & H5).
    rewrite H1, H2, H3, H4, H5. destruct c; repeat split.
Qed.

(** X9. set_info's step for one matched device, whatever the change and whether it
    ends with the new values or with the refusal of an address in use, never
    changes the device's id, region, zone, weight or parts, nor another device,
    the builder's list of devices, its devs_changed flag or version, nor any
    file. *)
Theorem set_info_changes_only_the_address (change : list change) (r : ref) (w : World) :
  let dev := heap (builder w) r in
  let w' := snd (set_info_dev change r w) in
  let dev' := heap (builder w') r in
  Dev.id dev' = Dev.id dev /\ Dev.region dev' = Dev.region dev
  /\ Dev.zone dev' = Dev.zone dev /\ Dev.weight dev' = Dev.weight dev
  /\ Dev.parts dev' = Dev.parts dev
  /\ (forall r', r' <> r -> heap (builder w') r' = heap (builder w) r')
  /\ devs (builder w') = devs (builder w)
  /\ devs_changed (builder w') = devs_changed (builder w)
  /\ version (builder w') = version (builder w)
  /\ fs w' = fs w.
Proof.
  cbv zeta. unfold set_info_dev. run.
  destruct (for_each (devs (builder w))
              (check_collision (apply_changes change (heap (builder w) r))) w)
    as [[[] | s | e] w1] eqn:E;
    destruct (only_reports_run _ _ _ _
                (only_reports_for_each _ _ (only_reports_check_collision _)) E)
      as [Hb Hf]; cbn [snd].
  - unfold assign. cbn. rewrite Hb, Hf, Nat.eqb_refl.
    destruct (apply_changes_keeps change (heap (builder w) r)) as (H1 & H2 & H3 & H4 & H5).
    repeat split; try assumption.
    intros r' Hr. apply Nat.eqb_neq in Hr. rewrite Hr. reflexivity.
  - rewrite Hb, Hf. repeat split.
  - rewrite Hb, Hf. repeat split.
Qed.

(** ** The question asked when several devices match *)

Lemma shown_devices (found : list ref) (w : World) :
  exists w1,
    for_each found (fun r => bind (deref r) (fun dev =>
                               print "    %s" [VStr (format_device dev)])) w
    = (Return tt, w1)
    /\ builder w1 = builder w /\ fs w1 = fs w /\ stdin w1 = stdin w.
Proof.
  revert w. induction found as [| r found IH]; intros w; simpl.
  - eexists. repeat split.
  - unfold bind at 1. cbn.
    match goal with |- context [for_each found ?f ?w0] => destruct (IH w0) as (w1 & E & Hb & Hf & Hs) end.
    exists w1. rewrite E. repeat split; assumption.
Qed.

(** With at most one device found, nothing is asked. *)
Lemma confirm_one (found : list ref) (question abort : string) (w : World) :
  (length found <= 1)%nat -> confirm found question abort w = (Return tt, w).
Proof.
  intros H. unfold confirm. apply Nat.ltb_ge in H. rewrite H. reflexivity.
Qed.

(** With several, anything but the answer [y] ends the command. *)
Lemma confirm_unanswered (found : list ref) (question abort : string) (w : World) :
  (1 < length found)%nat -> head (stdin w) <> Some "y" ->
  exists o w', confirm found question abort w = (o, w')
               /\ stopped o /\ builder w' = builder w /\ fs w' = fs w.
Proof.
  intros Hlen Hans. unfold confirm. apply Nat.ltb_lt in Hlen. rewrite Hlen.
  unfold bind at 1. cbn [print].
  unfold bind at 1.
  match goal with
  | |- context [for_each found ?f ?w0] => destruct (shown_devices found w0) as (w1 & E & Hb & Hf & Hs)
  end.
  rewrite E. cbn in Hb, Hf, Hs.
  unfold bind at 1, raw_input. rewrite Hs.
  destruct (stdin w) as [| answer rest] eqn:Ein.
  - eexists _, _. split; [reflexivity |]. cbn. split; [right; eauto | auto].
  - destruct (String.eqb answer "y") eqn:Ey.
    + apply String.eqb_eq in Ey. subst answer. cbn in Hans. congruence.
    + cbn. eexists _, _. split; [reflexivity |]. cbn. split; [left; reflexivity | auto].
Qed.

Lemma stopped_bind {A B} (c : Cmd A) (k : A -> Cmd B) w o w1 :
  c w = (o, w1) -> stopped o -> exists o', bind c k w = (o', w1) /\ stopped o'.
Proof.
  intros E [-> | [e ->]].
  - exists (Exit EXIT_ERROR). split; [apply bind_exit; exact E | left; reflexivity].
  - exists (Raise e). split; [apply bind_raise; exact E | right; eauto].
Qed.

(** X10. When a search value of remove, set_weight or set_info matches more than one
    device and the next line of standard input is not 'y', the command ends
    without the edit of these devices, by exit status 2 or by the exception of
    the read; no file is written, and the builder object is as the search left
    it, so devices of earlier items stay edited in memory only. *)
Theorem several_matches_need_a_yes (argv : list string) (w : World) :
  (forall pre search_value post w1 sv found b1,
      drop 3 argv = pre ++ search_value :: post ->
      for_each pre remove_one w = (Return tt, w1) ->
      parse_search_value search_value = Ok sv ->
      search_devs sv (builder w1) = (Ok found, b1) ->
      (1 < length found)%nat ->
      head (stdin w1) <> Some "y" ->
      exists o w', remove argv w = (o, w')
                   /\ failed o /\ builder w' = b1 /\ fs w' = fs w)
  /\ (forall pre devstr weightstr post w1 sv found b1 weight,
      (5 <= length argv)%nat -> (length argv mod 2 = 1)%nat ->
      pairs (drop 3 argv) = pre ++ (devstr, weightstr) :: post ->
      for_each pre (fun p => set_weight_one (fst p) (snd p)) w = (Return tt, w1) ->
      parse_search_value devstr = Ok sv ->
      search_devs sv (builder w1) = (Ok found, b1) ->
      float weightstr = Some weight ->
      (1 < length found)%nat ->
      head (stdin w1) <> Some "y" ->
      exists o w', set_weight argv w = (o, w')
                   /\ failed o /\ builder w' = b1 /\ fs w' = fs w)
  /\ (forall a4 pre search_value change_value post w1 sv found b1 change,
      (length argv mod 2 = 1)%nat ->
      argv !! 4%nat = Some a4 ->
      pairs (drop 3 argv) = pre ++ (search_value, change_value) :: post ->
      for_each pre (fun p => set_info_one a4 (fst p) (snd p)) w = (Return tt, w1) ->
      parse_search_value search_value = Ok sv ->
      search_devs sv (builder w1) = (Ok found, b1) ->
      parse_change a4 change_value = Ok change ->
      (1 < length found)%nat ->
      head (stdin w1) <> Some "y" ->
      exists o w', set_info argv w = (o, w')
                   /\ failed o /\ builder w' = b1 /\ fs w' = fs w).
Proof.
  split; [| split].
  - intros pre search_value post w1 sv found b1 Hargv Hpre Hsv Hfound Hlen Hans.
    assert (Hguard : (length argv <? 4)%nat = false).
    { apply Nat.ltb_ge. apply (f_equal length) in Hargv.
      rewrite length_drop, length_app in Hargv. cbn in Hargv. lia. }
    destruct (confirm_unanswered found
                "Are you sure you want to remove these %s devices? (y/N) "
                "Aborting device removals" (with_builder b1 w1) Hlen Hans)
      as (o & w2 & Ec & Ho & Hb & Hf).
    assert (Hone : exists o', remove_one search_value w1 = (o', w2) /\ stopped o').
    { unfold remove_one, remove_matched.
      unfold bind at 1. unfold bind at 1. unfold lift. rewrite Hsv.
      unfold bind at 1. unfold call. rewrite Hfound.
      destruct found as [| r0 found0]; [cbn in Hlen; lia |].
      unfold bind at 1. cbn [ret].
      destruct (stopped_bind _ (fun _ => ret (r0 :: found0)) _ _ _ Ec Ho) as (o1 & E1 & Ho1).
      rewrite E1.
      destruct Ho1 as [-> | [e ->]]; eexists; (split; [reflexivity |]);
        [left; reflexivity | right; eauto]. }
    destruct Hone as (o' & Hone & Ho'). exists o', w2.
    split; [| split; [exact Ho' | split; [exact Hb |]]].
    + unfold remove. rewrite Hguard. unfold bind at 1. cbn [ret].
      apply bind_failed; [| exact Ho']. rewrite Hargv.
      apply (for_each_failed _ _ _ _ _ _ _ _ Hpre Hone Ho').
    + rewrite Hf. cbn.
      apply (keeps_fs_run _ _ _ _ (keeps_fs_for_each _ _ keeps_fs_remove_one) Hpre).
  - intros pre devstr weightstr post w1 sv found b1 weight Hlen5 Hodd Hargv Hpre Hsv
           Hfound Hfloat Hlen Hans.
    assert (Hguard : (length argv <? 5)%nat || negb (length argv mod 2 =? 1)%nat = false).
    { rewrite Hodd. replace (length argv <? 5)%nat with false; [reflexivity |].
      symmetry. apply Nat.ltb_ge. lia. }
    destruct (confirm_unanswered found
                "Are you sure you want to update the weight for these %s devices? (y/N) "
                "Aborting device modifications" (with_builder b1 w1) Hlen Hans)
      as (o & w2 & Ec & Ho & Hb & Hf).
    assert (Hone : exists o', set_weight_one devstr weightstr w1 = (o', w2) /\ stopped o').
    { unfold set_weight_one, set_weight_matched.
      unfold bind at 1. unfold bind at 1. unfold lift. rewrite Hsv.
      unfold bind at 1. unfold call. rewrite Hfound.
      unfold bind at 1. rewrite Hfloat. cbn [ret].
      destruct found as [| r0 found0]; [cbn in Hlen; lia |].
      unfold bind at 1. cbn [ret].
      destruct (stopped_bind _ (fun _ => ret (r0 :: found0, weight)) _ _ _ Ec Ho)
        as (o1 & E1 & Ho1).
      rewrite E1.
      destruct Ho1 as [-> | [e ->]]; eexists; (split; [reflexivity |]);
        [left; reflexivity | right; eauto]. }
    destruct Hone as (o' & Hone & Ho'). exists o', w2.
    split; [| split; [exact Ho' | split; [exact Hb |]]].
    + unfold set_weight. rewrite Hguard. unfold bind at 1. cbn [ret].
      apply bind_failed; [| exact Ho']. rewrite Hargv.
      apply (for_each_failed _ _ (devstr, weightstr) _ _ _ _ _ Hpre Hone Ho').
    + rewrite Hf. cbn.
      apply (keeps_fs_run _ _ _ _
               (keeps_fs_for_each _ _ (fun p => keeps_fs_set_weight_one (fst p) (snd p)))
               Hpre).
  - intros a4 pre search_value change_value post w1 sv found b1 change Hodd Ha4 Hargv Hpre
           Hsv Hfound Hchange Hlen Hans.
    assert (Hguard : (length argv <? 5)%nat || negb (length argv mod 2 =? 1)%nat = false).
    { rewrite Hodd. replace (length argv <? 5)%nat with false; [reflexivity |].
      symmetry. apply Nat.ltb_ge. apply lookup_lt_Some in Ha4. lia. }
    destruct (confirm_unanswered found
                "Are you sure you want to update the info for these %s devices? (y/N) "
                "Aborting device modifications" (with_builder b1 w1) Hlen Hans)
      as (o & w2 & Ec & Ho & Hb & Hf).
    assert (Hone : exists o', set_info_one a4 search_value change_value w1 = (o', w2)
                              /\ stopped o').
    { unfold set_info_one, set_info_matched.
      unfold bind at 1. unfold bind at 1. unfold lift at 1. rewrite Hsv.
      unfold bind at 1. unfold call. rewrite Hfound.
      unfold bind at 1. unfold lift. rewrite Hchange.
      destruct found as [| r0 found0]; [cbn in Hlen; lia |].
      unfold bind at 1. cbn [ret].
      destruct (stopped_bind _ (fun _ => ret (r0 :: found0, change)) _ _ _ Ec Ho)
        as (o1 & E1 & Ho1).
      rewrite E1.
      destruct Ho1 as [-> | [e ->]]; eexists; (split; [reflexivity |]);
        [left; reflexivity | right; eauto]. }
    destruct Hone as (o' & Hone & Ho'). exists o', w2.
    split; [| split; [exact Ho' | split; [exact Hb |]]].
    + unfold set_info. rewrite Hguard. unfold bind at 1. cbn [ret].
      unfold bind at 1, argv_get. rewrite Ha4. cbn [ret].
      apply bind_failed; [| exact Ho']. rewrite Hargv.
      apply (for_each_failed _ _ (search_value, change_value)
               (fun p => set_info_one a4 (fst p) (snd p)) _ _ _ _ Hpre Hone Ho').
    + rewrite Hf. cbn.
      apply (keeps_fs_run _ _ _ _
               (keeps_fs_for_each _ _ (fun p => keeps_fs_set_info_one a4 (fst p) (snd p)))
               Hpre).
Qed.

(** ** The commands when nothing stands in their way *)

Lemma check_duplicate_passes (new_dev : NewDev.t) (ds : list (option ref)) (w : World) :
  (forall r, In (Some r) ds ->
             same_address (NewDev.ip new_dev) (NewDev.port new_dev) (NewDev.device new_dev)
                          (heap (builder w) r) = false) ->
  for_each ds (check_duplicate new_dev) w = (Return tt, w).
Proof.
  intros H. induction ds as [| d ds IH]; [reflexivity |].
  simpl. unfold bind at 1. destruct d as [r |]; simpl.
  - unfold bind at 1, deref. cbn. rewrite (H r (or_introl eq_refl)). cbn.
    apply IH. intros r' Hr'. apply H. right. exact Hr'.
  - apply IH. intros r' Hr'. apply H. right. exact Hr'.
Qed.

Lemma check_collision_passes (test_dev : Dev.t) (ds : list (option ref)) (w : World) :
  (forall c, In (Some c) ds ->
             Dev.id (heap (builder w) c) = Dev.id test_dev
             \/ same_address (Dev.ip test_dev) (Dev.port test_dev) (Dev.device test_dev)
                             (heap (builder w) c) = false) ->
  for_each ds (check_collision test_dev) w = (Return tt, w).
Proof.
  intros H. induction ds as [| d ds IH]; [reflexivity |].
  simpl. unfold bind at 1. destruct d as [c |]; simpl.
  - unfold bind at 1, deref. cbn.
    destruct (H c (or_introl eq_refl)) as [Hid | Hsame].
    + apply Z.eqb_eq in Hid. rewrite Hid. cbn.
      apply IH. intros c' Hc'. apply H. right. exact Hc'.
    + destruct (Dev.id (heap (builder w) c) =? Dev.id test_dev); cbn;
        [| rewrite Hsame; cbn]; apply IH; intros c' Hc'; apply H; right; exact Hc'.
  - apply IH. intros c' Hc'. apply H. right. exact Hc'.
Qed.

Lemma drop_3_length (argv : list string) (items : list string) :
  drop 3 argv = items -> items <> [] -> length argv = (3 + length items)%nat.
Proof.
  intros H Hne. apply (f_equal length) in H. rewrite length_drop in H.
  destruct items; [contradiction |]. cbn in *. lia.
Qed.

(** X11. add with arguments that read as one device, whose ip, port and device name
    no device of the builder uses, hands it to add_dev, prints 'Device ... with
    ... weight got id ...' with the id the library gave, saves the builder under
    argv[1] and exits with status 0. *)
Theorem add_registers_a_new_device (argv : list string) (w : World)
    (new_dev : NewDev.t) (w0 : World) (dev_id : Z) (b' : RingBuilder Internal)
    (a1 : string) :
  (5 <= length argv)%nat -> (length argv mod 2 = 1)%nat ->
  argv !! 1%nat = Some a1 ->
  _parse_add_values (drop 3 argv) w = (Return [new_dev], w0) ->
  ~ address_in_use (NewDev.ip new_dev) (NewDev.port new_dev) (NewDev.device new_dev)
                   (builder w0) ->
  add_dev new_dev (builder w0) = (Ok dev_id, b') ->
  exists w',
    add argv w = (Exit EXIT_SUCCESS, w')
    /\ builder w' = b'
    /\ fs w' = <[a1 := BuilderFile b']> (fs w)
    /\ stdout w' = stdout w0 ++
                   [Line "Device %s with %s weight got id %s"
                         [VStr (format_device (added new_dev dev_id));
                          VFloat (NewDev.weight new_dev); VInt dev_id]].
Proof.
  intros Hlen Hodd Ha1 Hparse Hfree Hadd.
  assert (Hguard : (length argv <? 5)%nat || negb (length argv mod 2 =? 1)%nat = false).
  { rewrite Hodd. replace (length argv <? 5)%nat with false; [reflexivity |].
    symmetry. apply Nat.ltb_ge. lia. }
  assert (Hloop : for_each (devs (builder w0)) (check_duplicate new_dev) w0 = (Return tt, w0)).
  { apply check_duplicate_passes. intros r Hr.
    destruct (same_address _ _ _ (heap (builder w0) r)) eqn:E; [| reflexivity].
    destruct Hfree. exists r. auto. }
  pose proof (keeps_fs_run _ _ _ _ (keeps_fs_parse_add_values _) Hparse) as Hfs.
  unfold add. rewrite Hguard. unfold bind at 1. cbn [ret].
  rewrite (bind_return _ _ _ _ _ Hparse).
  cbn [for_each]. unfold add_one. run. rewrite Hloop. rewrite Hadd. run.
  rewrite Ha1. unfold builder_save, write_file. run.
  eexists. split; [reflexivity |]. cbn. rewrite Hfs. repeat split.
Qed.

(** X12. With one search value that matches exactly one device, remove, set_weight
    and set_info ask nothing and read no input: they make the edit, print one
    line about it, save the builder under argv[1] and exit with status 0.
    set_weight hands any weight that float reads on to the library; set_info
    needs that no other device has the new ip, port and device name. *)
Theorem one_match_goes_through_unasked (argv : list string) (w : World) (a1 : string)
    (sv : SearchValues) (r : ref) (b1 b2 : RingBuilder Internal) :
  argv !! 1%nat = Some a1 ->
  (forall search_value,
      drop 3 argv = [search_value] ->
      parse_search_value search_value = Ok sv ->
      search_devs sv (builder w) = (Ok [r], b1) ->
      remove_dev (Dev.id (heap b1 r)) b1 = (Ok tt, b2) ->
      exists w',
        remove argv w = (Exit EXIT_SUCCESS, w')
        /\ builder w' = b2 /\ fs w' = <[a1 := BuilderFile b2]> (fs w)
        /\ stdin w' = stdin w
        /\ stdout w' = stdout w ++
                       [Line "%s marked for removal and will be removed next rebalance."
                             [VStr (format_device (heap b2 r))]])
  /\ (forall devstr weightstr weight,
      drop 3 argv = [devstr; weightstr] ->
      parse_search_value devstr = Ok sv ->
      search_devs sv (builder w) = (Ok [r], b1) ->
      float weightstr = Some weight ->
      set_dev_weight (Dev.id (heap b1 r)) weight b1 = (Ok tt, b2) ->
      exists w',
        set_weight argv w = (Exit EXIT_SUCCESS, w')
        /\ builder w' = b2 /\ fs w' = <[a1 := BuilderFile b2]> (fs w)
        /\ stdin w' = stdin w
        /\ stdout w' = stdout w ++
                       [Line "%s weight set to %s"
                             [VStr (format_device (heap b2 r));
                              VFloat (Dev.weight (heap b2 r))]])
  /\ (forall search_value change_value change,
      drop 3 argv = [search_value; change_value] ->
      parse_search_value search_value = Ok sv ->
      search_devs sv (builder w) = (Ok [r], b1) ->
      parse_change change_value change_value = Ok change ->
      (forall c, In (Some c) (devs b1) ->
                 Dev.id (heap b1 c) = Dev.id (heap b1 r)
                 \/ same_address (Dev.ip (apply_changes change (heap b1 r)))
                                 (Dev.port (apply_changes change (heap b1 r)))
                                 (Dev.device (apply_changes change (heap b1 r)))
                                 (heap b1 c) = false) ->
      exists w',
        set_info argv w = (Exit EXIT_SUCCESS, w')
        /\ builder w' = store r (apply_changes change (heap b1 r)) b1
        /\ fs w' = <[a1 := BuilderFile (store r (apply_changes change (heap b1 r)) b1)]> (fs w)
        /\ stdin w' = stdin w
        /\ stdout w' = stdout w ++
                       [Line "Device %s is now %s"
                             [VStr (format_device (heap b1 r));
                              VStr (format_device (apply_changes change (heap b1 r)))]]).
Proof.
  intros Ha1. split; [| split].
  - intros search_value Hargv Hsv Hfound Hremove.
    pose proof (drop_3_length _ _ Hargv ltac:(discriminate)) as Hlen. cbn in Hlen.
    unfold remove. rewrite Hlen, Hargv. cbn [Nat.ltb Nat.leb for_each].
    unfold remove_one, remove_matched, remove_dev_one, try_except. run.
    rewrite Hsv. rewrite Hfound. run.
    unfold confirm. cbn [length Nat.ltb Nat.leb]. run. cbn [for_each]. run.
    rewrite Hremove. run. rewrite Ha1. unfold builder_save, write_file. run.
    eexists. split; [reflexivity |]. cbn. repeat split.
  - intros devstr weightstr weight Hargv Hsv Hfound Hfloat Hset.
    pose proof (drop_3_length _ _ Hargv ltac:(discriminate)) as Hlen. cbn in Hlen.
    unfold set_weight. rewrite Hlen, Hargv.
    cbn [Nat.ltb Nat.leb Nat.modulo Nat.divmod fst snd Nat.eqb negb orb Nat.sub pairs for_each].
    unfold set_weight_one, set_weight_matched, set_weight_dev. run.
    rewrite Hsv. rewrite Hfound. rewrite Hfloat. run.
    unfold confirm. cbn [length Nat.ltb Nat.leb]. run. cbn [for_each fst snd]. run.
    rewrite Hset. run. rewrite Ha1. unfold builder_save, write_file. run.
    eexists. split; [reflexivity |]. cbn. repeat split.
  - intros search_value change_value change Hargv Hsv Hfound Hchange Hfree.
    pose proof (drop_3_length _ _ Hargv ltac:(discriminate)) as Hlen. cbn in Hlen.
    assert (Ha4 : argv !! 4%nat = Some change_value).
    { change 4%nat with (3 + 1)%nat. rewrite <- lookup_drop, Hargv. reflexivity. }
    unfold set_info. rewrite Hlen, Hargv.
    cbn [Nat.ltb Nat.leb Nat.modulo Nat.divmod fst snd Nat.eqb negb orb Nat.sub pairs for_each].
    run. rewrite Ha4. run.
    unfold set_info_one, set_info_matched, set_info_dev. run.
    rewrite Hsv. rewrite Hfound. rewrite Hchange. run.
    unfold confirm. cbn [length Nat.ltb Nat.leb]. run. cbn [for_each fst snd]. run.
    rewrite check_collision_passes
      by (intros c Hc; cbn [builder]; rewrite apply_changes_id; apply Hfree; exact Hc).
    run.
    unfold assign. run. rewrite Ha1. unfold builder_save, write_file. run.
    eexists. split; [reflexivity |]. cbn. rewrite Nat.eqb_refl. repeat split.
Qed.

(** ** [rebalance]: the run that is saved, and the one the library refuses *)

(** X13. A rebalance that reassigned partitions and changed the balance enough, on a
    builder that validates, writes four files: time-stamped backups of the ring
    and of the builder under backup_dir, then the ring file and the builder file
    argv[1]. It exits with status 0 if the balance is at most 5 and with status
    1 (EXIT_WARNING) if the balance is above 5. *)
Theorem rebalance_writes_the_ring_and_the_builder (argv : list string)
    (backup_dir ring_file : string) (w : World) (a1 : string) (last : Q) (moved : Z)
    (balance : Q) (b1 b2 b3 b4 b5 : RingBuilder Internal) (ring1 ring2 : RingData) :
  argv !! 1%nat = Some a1 ->
  get_balance (builder w) = (Ok last, b1) ->
  rebalance_ (argv !! 3%nat) b1 = (Ok (moved, balance), b2) ->
  moved <> 0 ->
  too_small (devs_changed (builder w)) last balance = false ->
  validate_ b2 = (Ok tt, b3) ->
  parts b3 <> 0 ->
  get_ring b3 = (Ok ring1, b4) ->
  get_ring b4 = (Ok ring2, b5) ->
  exists status w',
    rebalance argv backup_dir ring_file w = (Exit status, w')
    /\ ((balance <= 5)%Q -> status = EXIT_SUCCESS)
    /\ ((5 < balance)%Q -> status = EXIT_WARNING)
    /\ builder w' = b5
    /\ fs w' = <[a1 := BuilderFile b5]>
                 (<[ring_file := RingFile ring2]>
                    (<[backup_path backup_dir (clock w) a1 := BuilderFile b4]>
                       (<[backup_path backup_dir (clock w) ring_file := RingFile ring1]>
                          (fs w)))).
Proof.
  intros Ha1 Hg Hr Hm Hsmall Hv Hparts Hring1 Hring2.
  assert (Hdiv : Qeq_bool (inject_Z (parts b3)) 0 = false).
  { apply Qeq_bool_false. unfold Qeq. cbn. lia. }
  apply Z.eqb_neq in Hm.
  unfold rebalance.
  unfold bind at 1. cbn [get_builder].
  unfold bind at 1. rewrite (rebalance_calls _ _ _ _ _ _ _ Hg Hr).
  run. rewrite Hm. run. rewrite Hsmall. run.
  unfold try_except. run. rewrite Hv. run.
  unfold py_div. rewrite Hdiv. run.
  exists (if Qlt_bool 5 balance then EXIT_WARNING else EXIT_SUCCESS).
  destruct (Qlt_bool 5 balance) eqn:E5; run; unfold time_; run;
    rewrite Hring1; run; unfold ring_save, builder_save, write_file; run;
    rewrite Ha1; run; rewrite Hring2; run;
    (eexists; split; [reflexivity |]; cbn; split; [| split; [| split; reflexivity]]).
  - apply Qlt_bool_true in E5. intros H. lra.
  - reflexivity.
  - reflexivity.
  - apply Qlt_bool_false in E5. intros H. lra.
Qed.

(** X14. If get_balance or the library's rebalance raises a RingBuilderError,
    rebalance prints a line of dashes, a message with the error and another line
    of dashes, writes no file and exits with status 2. *)
Theorem rebalance_stops_on_a_builder_error (argv : list string)
    (backup_dir ring_file : string) (w : World) (e : exn) (b' : RingBuilder Internal) :
  get_balance (builder w) = (Err e, b')
  \/ (exists last b1, get_balance (builder w) = (Ok last, b1)
                      /\ rebalance_ (argv !! 3%nat) b1 = (Err e, b')) ->
  isRingBuilderError e = true ->
  exists w' text,
    rebalance argv backup_dir ring_file w = (Exit EXIT_ERROR, w')
    /\ builder w' = b' /\ fs w' = fs w
    /\ stdout w' = stdout w ++ [Line dashes []; Line text [VStr (message e)]; Line dashes []].
Proof.
  intros [Hg | (last & b1 & Hg & Hr)] He; unfold rebalance, try_except; run; rewrite Hg; run.
  - rewrite He. unfold validation_failed. run.
    eexists _, _. split; [reflexivity |]. cbn. rewrite <- !app_assoc. repeat split.
  - rewrite Hr, He. unfold validation_failed. run.
    eexists _, _. split; [reflexivity |]. cbn. rewrite <- !app_assoc. repeat split.
Qed.

(** ** [default] and [search] at the edges *)

(** X15. On a builder without devices, default prints the file name with the version,
    a summary with 0 regions, 0 zones, 0 devices and balance 0.00 without asking
    the library for the balance, and the minimum part hours; it prints no device
    table and exits with status 0. *)
Theorem default_on_a_builder_without_devices (argv : list string) (w : World)
    (a1 : string) :
  argv !! 1%nat = Some a1 ->
  devs (builder w) = [] ->
  default argv w
  = (Exit EXIT_SUCCESS,
     printed
       [Line "%s, build version %d" [VStr a1; VInt (version (builder w))];
        Line "%d partitions, %.6f replicas, %d regions, %d zones, %d devices, %.02f balance"
             [VInt (parts (builder w)); VFloat (replicas (builder w));
              VInt 0; VInt 0; VInt 0; VFloat 0];
        Line "The minimum number of hours before a partition can be reassigned is %s"
             [VInt (min_part_hours (builder w))]] w).
Proof.
  intros Ha1 Hd. unfold default. run. rewrite Ha1. run. rewrite Hd. run.
  rewrite Hd. run. rewrite <- !app_assoc. reflexivity.
Qed.

(** X16. When the weights of the builder's devices sum to 0, default (on a builder
    with devices) and search (with a match) print the heading of the device
    table and then end with an uncaught ZeroDivisionError instead of rows. *)
Theorem no_rows_without_weight (argv : list string) (w : World) :
  (forall a1 bal b1,
      argv !! 1%nat = Some a1 ->
      devs (builder w) <> [] ->
      get_balance (builder w) = (Ok bal, b1) ->
      devs b1 <> [] ->
      (sum_weights b1 == 0)%Q ->
      exists w' head,
        default argv w = (Raise ZeroDivisionError, w')
        /\ length head = 3%nat
        /\ stdout w' = stdout w ++ head ++ [Line devices_header []])
  /\ (forall a3 sv found b1,
      argv !! 3%nat = Some a3 ->
      parse_search_value a3 = Ok sv ->
      search_devs sv (builder w) = (Ok found, b1) ->
      found <> [] ->
      (sum_weights b1 == 0)%Q ->
      exists w',
        search argv w = (Raise ZeroDivisionError, w')
        /\ stdout w' = stdout w ++ [Line devices_header []]).
Proof.
  split.
  - intros a1 bal b1 Ha1 Hd Hg Hd1 Hs.
    assert (Hwp : weighted_parts b1 = Err ZeroDivisionError).
    { unfold weighted_parts, py_div. apply Qeq_bool_iff in Hs. rewrite Hs. reflexivity. }
    unfold default. run. rewrite Ha1. run.
    destruct (devs (builder w)) as [| d0 ds0] eqn:Ed; [contradiction |]. run.
    rewrite Hg. run.
    destruct (devs b1) as [| d1 ds1] eqn:Ed1; [contradiction |]. run.
    rewrite Hwp. eexists _, [_; _; _]. split; [reflexivity |]. split; [reflexivity |].
    cbn. rewrite <- !app_assoc. reflexivity.
  - intros a3 sv found b1 Ha3 Hsv Hfound Hne0 Hs.
    assert (Hlen : (length argv <? 4)%nat = false).
    { apply Nat.ltb_ge. apply lookup_lt_Some in Ha3. lia. }
    assert (Hwp : weighted_parts b1 = Err ZeroDivisionError).
    { unfold weighted_parts, py_div. apply Qeq_bool_iff in Hs. rewrite Hs. reflexivity. }
    unfold search. rewrite Hlen. run. rewrite Ha3. run. rewrite Hsv. rewrite Hfound. run.
    destruct found as [| r0 found0]; [contradiction |]. run.
    rewrite Hwp. eexists. split; reflexivity.
Qed.

(** ** [list_parts] *)

Lemma line_eta (l : line) : Line (fmt l) (args l) = l.
Proof. destruct l. reflexivity. Qed.

Lemma print_lines {A} (f : A -> line) (xs : list A) (w : World) :
  for_each xs (fun x => print_line (f x)) w = (Return tt, printed (map f xs) w).
Proof.
  revert w. induction xs as [| x xs IH]; intros w; simpl.
  - rewrite printed_nil. reflexivity.
  - unfold bind at 1. cbn. rewrite IH. unfold printed. cbn.
    rewrite <- app_assoc, line_eta. reflexivity.
Qed.

(** The printing loop of [list_parts], over the buckets from index [a] on. *)
Lemma print_buckets (most : Z) (matches : list (list Z)) (a : nat) (w : World) :
  for_each (imap (fun index ps => ((a + index)%nat, ps)) matches)
           (fun ip => for_each (snd ip)
                        (fun part => print_line
                                       (partition_row part (most - Z.of_nat (fst ip))))) w
  = (Return tt,
     printed (concat (imap (fun index ps =>
                              map (fun part =>
                                     partition_row part (most - Z.of_nat (a + index)%nat)) ps)
                           matches)) w).
Proof.
  revert a w. induction matches as [| ps matches IH]; intros a w.
  - cbn. rewrite printed_nil. reflexivity.
  - rewrite !imap_cons. cbn [for_each concat]. unfold bind at 1. cbn [fst snd].
    rewrite print_lines.
    rewrite (imap_ext _ (fun index ps0 => ((S a + index)%nat, ps0)))
      by (intros; cbn; f_equal; lia).
    rewrite IH. rewrite printed_printed. do 2 f_equal.
    rewrite Nat.add_0_r. do 2 f_equal.
    apply imap_ext. intros i x _. cbn. rewrite Nat.add_succ_r. reflexivity.
Qed.

Lemma rows_of_buckets (most : Z) (count : Z -> Z) (ps : list Z) (a n : nat) :
  concat (imap (fun index ps' =>
                  map (fun part => partition_row part (most - Z.of_nat (a + index)%nat)) ps')
               (map (fun i => filter (fun part => count part = most - Z.of_nat i) ps)
                    (seq a n)))
  = flat_map (fun i => map (fun part => partition_row part (most - Z.of_nat i))
                           (filter (fun part => count part = most - Z.of_nat i) ps))
             (seq a n).
Proof.
  revert a. induction n as [| n IH]; intros a; [reflexivity |].
  cbn [seq map flat_map]. rewrite imap_cons. cbn [concat]. rewrite Nat.add_0_r. f_equal.
  rewrite <- IH. f_equal. apply imap_ext. intros i x _. cbn.
  rewrite Nat.add_succ_r. reflexivity.
Qed.

Lemma buckets_nil (most : Z) (count : Z -> Z) :
  buckets most count [] = repeat [] (Z.to_nat most).
Proof.
  unfold buckets. generalize 0%nat. induction (Z.to_nat most) as [| n IH]; intros a.
  - reflexivity.
  - cbn. f_equal. apply IH.
Qed.

Lemma length_buckets (most : Z) (count : Z -> Z) (ps : list Z) :
  length (buckets most count ps) = Z.to_nat most.
Proof. unfold buckets. rewrite length_map, length_seq. reflexivity. Qed.

Lemma lookup_buckets (most : Z) (count : Z -> Z) (ps : list Z) (j : nat) :
  buckets most count ps !! j
  = if (j <? Z.to_nat most)%nat
    then Some (filter (fun part => count part = most - Z.of_nat j) ps)
    else None.
Proof.
  unfold buckets. rewrite list_lookup_fmap.
  destruct (j <? Z.to_nat most)%nat eqn:E.
  - apply Nat.ltb_lt in E. rewrite lookup_seq_lt by exact E. reflexivity.
  - apply Nat.ltb_ge in E. rewrite lookup_seq_ge by exact E. reflexivity.
Qed.

(** A partition without a match leaves the buckets as they are. *)
Lemma buckets_skip (most : Z) (count : Z -> Z) (ps : list Z) (part : Z) :
  count part = 0 -> buckets most count (ps ++ [part]) = buckets most count ps.
Proof.
  intros Hc. unfold buckets. apply map_ext_in. intros i Hi.
  apply in_seq in Hi. rewrite filter_app.
  rewrite (filter_cons_False _ part); [rewrite filter_nil; apply app_nil_r |].
  rewrite Hc. lia.
Qed.

(** A partition with [count] matches goes to the end of bucket
    [most - count]. *)
Lemma buckets_put (most : Z) (count : Z -> Z) (ps : list Z) (part : Z) :
  1 <= count part <= most ->
  alter (fun a => a ++ [part]) (Z.to_nat (most - count part)) (buckets most count ps)
  = buckets most count (ps ++ [part]).
Proof.
  intros Hc. apply list_eq. intros j.
  destruct (decide (j = Z.to_nat (most - count part))) as [-> | Hj].
  - rewrite list_lookup_alter_eq, !lookup_buckets.
    replace (Z.to_nat (most - count part) <? Z.to_nat most)%nat with true
      by (symmetry; apply Nat.ltb_lt; lia).
    cbn. f_equal. rewrite filter_app. f_equal.
    rewrite filter_cons_True by lia. rewrite filter_nil. reflexivity.
  - rewrite list_lookup_alter_ne by congruence. rewrite !lookup_buckets.
    destruct (j <? Z.to_nat most)%nat eqn:E; [| reflexivity].
    apply Nat.ltb_lt in E. f_equal. rewrite filter_app.
    rewrite (filter_cons_False _ part); [rewrite filter_nil; symmetry; apply app_nil_r |].
    intros H. apply Hj. lia.
Qed.

Section ListParts.

Variables (b : RingBuilder Internal) (ids : list Z) (on : Z -> list ref).

Hypothesis reads : forall part, 0 <= part < parts b -> get_part_devices part b = (Ok (on part), b).

Hypothesis fits :
  forall part, 0 <= part < parts b -> matching b ids (on part) <= Qceiling (replicas b).
Hypothesis small : parts b <= INT_MAX + 1.

Lemma list_parts_turn_puts (ps : list Z) (part : Z) (w : World) :
  builder w = b -> 0 <= part < parts b ->
  list_parts_turn ids (Qceiling (replicas b))
                  (buckets (Qceiling (replicas b)) (fun part => matching b ids (on part)) ps)
                  part w
  = (Return (buckets (Qceiling (replicas b)) (fun part => matching b ids (on part))
                     (ps ++ [part])),
     with_builder b w).
Proof.
  intros Hb Hpart.
  set (most := Qceiling (replicas b)) in *.
  set (count := fun part => matching b ids (on part)) in *.
  unfold list_parts_turn, count_matches. run.
  rewrite Hb, (reads part Hpart). run.
  fold (matching b ids (on part)). fold (count part).
  assert (0 <= count part) as Hpos by (unfold count, matching; lia).
  destruct (count part =? 0) eqn:E0.
  - apply Z.eqb_eq in E0. rewrite (buckets_skip _ _ _ _ E0). reflexivity.
  - apply Z.eqb_neq in E0. pose proof (fits part Hpart) as Hfit.
    change (count part <= most) in Hfit.
    rewrite length_buckets. unfold py_index.
    replace ((0 <=? most - count part) && (most - count part <? Z.of_nat (Z.to_nat most)))
      with true by (symmetry; apply andb_true_iff; split; [apply Z.leb_le | apply Z.ltb_lt]; lia).
    replace (part <=? INT_MAX) with true by (symmetry; apply Z.leb_le; lia).
    rewrite buckets_put by lia. reflexivity.
Qed.

Lemma list_parts_loop (todo done : list Z) (w : World) :
  builder w = b ->
  (forall part, In part todo -> 0 <= part < parts b) ->
  exists w',
    fold_each todo (list_parts_turn ids (Qceiling (replicas b)))
              (buckets (Qceiling (replicas b)) (fun part => matching b ids (on part)) done) w
    = (Return (buckets (Qceiling (replicas b)) (fun part => matching b ids (on part))
                       (done ++ todo)), w')
    /\ builder w' = b /\ fs w' = fs w /\ stdout w' = stdout w.
Proof.
  revert done w. induction todo as [| part todo IH]; intros done w Hb Hin.
  - exists w. rewrite app_nil_r. repeat split. exact Hb.
  - cbn [fold_each]. unfold bind at 1.
    rewrite (list_parts_turn_puts done part w Hb (Hin part (or_introl eq_refl))).
    destruct (IH (done ++ [part]) (with_builder b w) eq_refl
                 (fun p Hp => Hin p (or_intror Hp))) as (w' & E & Hb' & Hf & Ho).
    exists w'. rewrite E, <- app_assoc. repeat split; assumption.
Qed.

End ListParts.

Lemma match_nonempty {A B} (l : list A) (x y : B) :
  l <> [] -> match l with [] => x | _ :: _ => y end = y.
Proof. destruct l; [contradiction | reflexivity]. Qed.

Lemma In_partitions (n part : Z) : In part (partitions n) -> 0 <= part < n.
Proof.
  unfold partitions. rewrite in_map_iff. intros (i & <- & Hi). apply in_seq in Hi. lia.
Qed.

(** X17. list_parts prints, after its heading line, one row for each partition that
    holds a matched device, with the number of matched devices on it: the
    partitions with the most matches first, in ascending order, then those with
    one match less, down to one match; it writes no file and exits with status
    0. This holds when the builder has at most 2^31 partitions, get_part_devices
    answers for each of them without changing the builder, and no partition
    holds more matched devices than the replica count rounded up. *)
Theorem list_parts_lists_by_matches (argv : list string) (w w1 : World)
    (found : list (list ref)) (on : Z -> list ref) :
  let b := builder w1 in
  let ids := map (fun r => Dev.id (heap b r)) (concat found) in
  let most := Qceiling (replicas b) in
  (4 <= length argv)%nat ->
  collect list_parts_search (drop 3 argv) w = (Return found, w1) ->
  concat found <> [] ->
  parts b <= INT_MAX + 1 ->
  (forall part, 0 <= part < parts b -> get_part_devices part b = (Ok (on part), b)) ->
  (forall part, 0 <= part < parts b -> matching b ids (on part) <= most) ->
  exists w',
    list_parts argv w = (Exit EXIT_SUCCESS, w')
    /\ stdout w' = stdout w1 ++
                   Line "Partition   Matches" [] ::
                   rows_by_matches most (fun part => matching b ids (on part))
                                   (partitions (parts b))
    /\ builder w' = b /\ fs w' = fs w1.
Proof.
  cbv zeta. intros Hlen Hfound Hne Hsmall Hreads Hfits.
  apply Nat.ltb_ge in Hlen.
  unfold list_parts. rewrite Hlen. unfold bind at 1. cbn [ret].
  rewrite (bind_return _ _ _ _ _ Hfound).
  rewrite (match_nonempty _ _ _ Hne).
  unfold bind at 1. cbn [ret]. unfold bind at 1. cbn [get_builder].
  set (b := builder w1) in *.
  set (ids := map (fun r => Dev.id (heap b r)) (concat found)) in *.
  set (most := Qceiling (replicas b)) in *.
  set (count := fun part => matching b ids (on part)).
  rewrite <- (buckets_nil most count).
  destruct (list_parts_loop b ids on Hreads Hfits Hsmall (partitions (parts b)) [] w1 eq_refl
              (In_partitions (parts b))) as (w2 & E & Hb & Hf & Ho).
  fold (partitions (parts b)). fold most count in E.
  rewrite (bind_return _ _ _ _ _ E). cbn [app].
  unfold bind at 1. cbn [print].
  unfold bind at 1.
  pose proof (print_buckets most (buckets most count (partitions (parts b))) 0) as Hprint.
  cbn [Nat.add] in Hprint. rewrite Hprint.
  eexists. split; [reflexivity |]. cbn. rewrite Ho, Hb, Hf. split; [| split; reflexivity].
  rewrite <- app_assoc. cbn. do 2 f_equal.
  apply (rows_of_buckets most count (partitions (parts b)) 0).
Qed.

(** ** [create] and [write_ring] *)

(** X18. create makes a new builder from argv[3], argv[4] and argv[5], writes it to a
    time-stamped backup in the directory 'backups' beside the builder file and
    then to argv[1], replacing a file that is there, and exits with status 0; a
    backups directory that exists already (OSError with EEXIST) is no error. *)
Theorem create_replaces_the_builder_file (argv : list string) (w : World)
    (a1 a3 a4 a5 : string) (part_power : Z) (replicas : pyfloat) (min_part_hours : Z)
    (new_builder : RingBuilder Internal) :
  argv !! 1%nat = Some a1 -> argv !! 3%nat = Some a3 ->
  argv !! 4%nat = Some a4 -> argv !! 5%nat = Some a5 ->
  int_ a3 = Some part_power -> float a4 = Some replicas -> int_ a5 = Some min_part_hours ->
  RingBuilder_ part_power replicas min_part_hours = Ok new_builder ->
  (forall e, mkdir_ (pathjoin (dirname a1) "backups") w = Some e ->
             isOSError e = true /\ errno_is_EEXIST e = true) ->
  exists w',
    create argv w = (Exit EXIT_SUCCESS, w')
    /\ fs w' = <[a1 := BuilderFile new_builder]>
                 (<[backup_path (pathjoin (dirname a1) "backups") (clock w) a1
                    := BuilderFile new_builder]> (fs w))
    /\ fs w' !! a1 = Some (BuilderFile new_builder)
    /\ builder w' = builder w.
Proof.
  intros Ha1 Ha3 Ha4 Ha5 Hpower Hreplicas Hhours Hnew Hmkdir.
  assert (Hlen : (length argv <? 6)%nat = false).
  { apply Nat.ltb_ge. apply lookup_lt_Some in Ha5. lia. }
  unfold create. rewrite Hlen. run. rewrite Ha3. run. unfold int_of. rewrite Hpower. run.
  rewrite Ha4. run. unfold float_of. rewrite Hreplicas. run.
  rewrite Ha5. run. rewrite Hhours. run. rewrite Hnew. run. rewrite Ha1. run.
  unfold make_backup_dir, try_except, mkdir.
  destruct (mkdir_ (pathjoin (dirname a1) "backups") w) as [e |] eqn:Em.
  - destruct (Hmkdir e eq_refl) as [Hos Hex]. rewrite Hos, Hex.
    unfold time_, write_file. run.
    eexists. split; [reflexivity |]. cbn. split; [reflexivity |].
    split; [apply lookup_insert_eq | reflexivity].
  - unfold time_, write_file. run.
    eexists. split; [reflexivity |]. cbn. split; [reflexivity |].
    split; [apply lookup_insert_eq | reflexivity].
Qed.

(** X19. write_ring writes the ring the builder gives to a time-stamped backup under
    backup_dir and to the ring file, and exits with status 0. A ring without
    partition assignments is written all the same, after one line of warning;
    otherwise nothing is printed. *)
Theorem write_ring_writes_the_ring (backup_dir ring_file : string) (w : World)
    (ring : RingData) (b1 : RingBuilder Internal) :
  get_ring (builder w) = (Ok ring, b1) ->
  exists w',
    write_ring backup_dir ring_file w = (Exit EXIT_SUCCESS, w')
    /\ fs w' = <[ring_file := RingFile ring]>
                 (<[backup_path backup_dir (clock w) ring_file := RingFile ring]> (fs w))
    /\ builder w' = b1
    /\ (no_assignments ring = false -> stdout w' = stdout w)
    /\ (no_assignments ring = true ->
        exists warning, stdout w' = stdout w ++ [Line warning []]).
Proof.
  intros Hring. unfold write_ring. run. rewrite Hring. run.
  destruct (no_assignments ring); [destruct (no_devs ring) |];
    run; unfold time_, ring_save, write_file; run;
    (eexists; split; [reflexivity |]; cbn;
     split; [reflexivity |]; split; [reflexivity |]; split;
     [intros H; try discriminate H; reflexivity | intros H; try discriminate H; eauto]).
Qed.

(** ** The items of [add], [set_weight] and [set_info] *)

Lemma pairs_cover (l : list string) :
  (length l mod 2 = 0)%nat ->
  flat_map (fun p => [fst p; snd p]) (pairs l) = l.
Proof.
  assert (H : forall n (l : list string), (length l <= n)%nat -> (length l mod 2 = 0)%nat ->
                                          flat_map (fun p => [fst p; snd p]) (pairs l) = l).
  { clear l. induction n as [| n IH]; intros l Hn Hl.
    - destruct l; [reflexivity | cbn in Hn; lia].
    - destruct l as [| a [| b l]]; [reflexivity | discriminate Hl |].
      cbn [pairs flat_map fst snd app]. do 2 f_equal. apply IH.
      + cbn in Hn. lia.
      + cbn [length] in Hl.
        replace (S (S (length l))) with (length l + 1 * 2)%nat in Hl by lia.
        rewrite Nat.Div0.mod_add in Hl. exact Hl. }
  apply (H (length l)). lia.
Qed.

(** X20. add, set_weight and set_info refuse a command line of fewer than 5 or of an
    even number of arguments: they print their usage and exit with status 2. A
    command line that passes is taken two arguments at a time with none left
    out, and _parse_add_values likewise refuses an odd number of positional
    arguments and pairs up an even number completely. *)
Theorem items_are_taken_in_pairs (argv : list string) (w : World) :
  ((length argv < 5)%nat \/ (length argv mod 2 = 0)%nat ->
   add argv w = (Exit EXIT_ERROR, printed [Line (doc "add") []] w)
   /\ set_weight argv w
      = (Exit EXIT_ERROR,
         printed [Line (doc "set_weight") []; Line "" []; Line search_doc []] w)
   /\ set_info argv w
      = (Exit EXIT_ERROR,
         printed [Line (doc "set_info") []; Line "" []; Line search_doc []] w))
  /\ ((5 <= length argv)%nat -> (length argv mod 2 = 1)%nat ->
      flat_map (fun p => [fst p; snd p]) (pairs (drop 3 argv)) = drop 3 argv)
  /\ (forall opts args,
      parse_args (drop 3 argv) = Parsed opts args ->
      (length args mod 2 = 1)%nat ->
      _parse_add_values (drop 3 argv) w
      = (Exit EXIT_ERROR, printed [Line (doc "add") []] w))
  /\ (forall opts args,
      parse_args (drop 3 argv) = Parsed opts args ->
      (length args mod 2 = 0)%nat ->
      flat_map (fun p => [fst p; snd p]) (pairs args) = args).
Proof.
  split; [| split; [| split]].
  - intros H.
    assert (Hguard : (length argv <? 5)%nat || negb (length argv mod 2 =? 1)%nat = true).
    { destruct H as [H | H].
      - apply Nat.ltb_lt in H. rewrite H. reflexivity.
      - rewrite H. apply orb_true_r. }
    unfold add, set_weight, set_info. rewrite Hguard. run.
    rewrite <- !app_assoc. repeat split.
  - intros Hlen Hodd. apply pairs_cover. rewrite length_drop.
    pose proof (Nat.div_mod_eq (length argv) 2) as H1.
    pose proof (Nat.div_mod_eq (length argv - 3) 2) as H2.
    pose proof (Nat.mod_upper_bound (length argv - 3) 2 ltac:(lia)) as H3. lia.
  - intros opts args Hargs Hodd. rewrite (parse_add_values_parsed _ _ _ Hargs).
    assert (Hpos : (0 <? length args)%nat = true).
    { apply Nat.ltb_lt. destruct args; [discriminate Hodd | cbn; lia]. }
    rewrite Hpos, Hodd. cbn [andb Nat.eqb negb].
    destruct (opts_used opts); reflexivity.
  - intros opts args _ Heven. apply pairs_cover. exact Heven.
Qed.

(** ** [add] reads the whole batch before it adds *)

(** X21. _parse_add_values never changes the builder object or a file, and when it
    exits the status is 2, or 0 where parse_args was asked for its help. So add
    reads all its device strings before it adds the first device: if the
    arguments do not read, the builder object and the files are as they were,
    and add ends with status 2 or an exception, or with status 0 after the
    help of parse_args. *)
Theorem add_reads_the_batch_before_it_adds (argv : list string) (w : World) :
  (builder (snd (_parse_add_values (drop 3 argv) w)) = builder w
   /\ fs (snd (_parse_add_values (drop 3 argv) w)) = fs w
   /\ forall s, fst (_parse_add_values (drop 3 argv) w) = Exit s ->
                s = EXIT_ERROR
                \/ (s = EXIT_SUCCESS
                    /\ exists text, parse_args (drop 3 argv) = ParseHelp text))
  /\ ((forall new_devs, fst (_parse_add_values (drop 3 argv) w) <> Return new_devs) ->
      builder (snd (add argv w)) = builder w
      /\ fs (snd (add argv w)) = fs w
      /\ (stopped (fst (add argv w))
          \/ (fst (add argv w) = Exit EXIT_SUCCESS
              /\ exists text, parse_args (drop 3 argv) = ParseHelp text))).
Proof.
  split; [apply parse_add_values_reports |].
  intros Hnone. unfold add.
  destruct ((length argv <? 5)%nat || negb (length argv mod 2 =? 1)%nat).
  { cbn. split; [reflexivity |]. split; [reflexivity |]. left. left. reflexivity. }
  destruct (parse_add_values_reports (drop 3 argv) w) as (Hb & Hf & Hs).
  unfold bind, ret. cbn [fst snd].
  destruct (_parse_add_values (drop 3 argv) w) as [[new_devs | s | e] w1]; cbn [fst snd] in *.
  - destruct (Hnone new_devs). reflexivity.
  - split; [exact Hb |]. split; [exact Hf |].
    destruct (Hs s eq_refl) as [-> | [-> Hhelp]].
    + left. left. reflexivity.
    + right. split; [reflexivity | exact Hhelp].
  - split; [exact Hb |]. split; [exact Hf |]. left. right. exists e. reflexivity.
Qed.

End Properties.

(** * Runs on concrete command lines *)

Import Example.

(** C10 on the replica counts [abc], [0.5], [-inf] and [2.5]. *)
Lemma set_replicas_checks_the_count_witness :
  (exists w', set_replicas (L := lib) (command "set_replicas" ["abc"]) (world pair_ring [])
              = (Exit EXIT_ERROR, w')
              /\ builder w' = pair_ring /\ fs w' = ∅)
  /\ (exists w', set_replicas (L := lib) (command "set_replicas" ["0.5"]) (world pair_ring [])
                 = (Exit EXIT_ERROR, w')
                 /\ builder w' = pair_ring /\ fs w' = ∅)
  /\ (exists w', set_replicas (L := lib) (command "set_replicas" [" -inf"])
                              (world pair_ring [])
                 = (Exit EXIT_ERROR, w')
                 /\ builder w' = pair_ring /\ fs w' = ∅)
  /\ (exists w' a1, command "set_replicas" ["2.5"] !! 1%nat = Some a1
                    /\ set_replicas (L := lib) (command "set_replicas" ["2.5"])
                                    (world pair_ring [])
                       = (Exit EXIT_SUCCESS, w')
                    /\ builder w' = snd (impl_set_replicas 2.5 pair_ring)
                    /\ fs w' = <[a1 := BuilderFile (snd (impl_set_replicas 2.5 pair_ring))]> ∅).
Proof.
  split; [| split; [| split]].
  - apply (set_replicas_checks_the_count (L := lib) (command "set_replicas" ["abc"])
             (world pair_ring []) "abc" eq_refl).
    reflexivity.
  - apply (proj1 (proj2 (set_replicas_checks_the_count (L := lib)
                           (command "set_replicas" ["0.5"]) (world pair_ring []) "0.5"
                           eq_refl)) (Finite 0.5) eq_refl).
    right. exists 0.5%Q. split; reflexivity.
  - apply (proj1 (proj2 (set_replicas_checks_the_count (L := lib)
                           (command "set_replicas" [" -inf"]) (world pair_ring []) " -inf"
                           eq_refl)) (Inf true) eq_refl).
    left. reflexivity.
  - apply (proj1 (proj2 (proj2 (set_replicas_checks_the_count (L := lib)
                                  (command "set_replicas" ["2.5"]) (world pair_ring [])
                                  "2.5" eq_refl))) (Finite 2.5) _ eq_refl).
    + right. right. exists 2.5%Q. split; [reflexivity | discriminate].
    + reflexivity.
Defined.

(** C10 as stated fails: [nan] is not a number, yet [float] reads it and no
    comparison finds it lower than 1, so the command does not exit with
    status 2: it calls [builder.set_replicas] with it, and ends as that call
    does. *)
Lemma set_replicas_hands_nan_to_the_builder :
  float (RingLib := lib) "nan" = Some NaN
  /\ float_lt NaN 1 = false
  /\ fst (set_replicas (L := lib) (command "set_replicas" ["nan"]) (world pair_ring []))
     = match fst (set_replicas_ (RingLib := lib) NaN pair_ring) with
       | Ok _ => Exit EXIT_SUCCESS
       | Err e => Raise e
       end
  /\ fst (set_replicas (L := lib) (command "set_replicas" ["nan"]) (world pair_ring []))
     <> Exit EXIT_ERROR.
Proof. repeat split. discriminate. Qed.

(** C3 on a ring where [rebalance] moves nothing. *)
Lemma rebalance_that_moves_nothing_witness :
  exists w',
    rebalance (L := lib) (command "rebalance" []) "backups" "x.ring.gz" nothing_moves
    = (Exit 1, w')
    /\ stdout w' =
       [Line "No partitions could be reassigned." [];
        Line "Either none need to be or none can be due to min_part_hours [%s]." [VInt 1]]
    /\ fs w' = ∅.
Proof.
  destruct (rebalance_that_moves_nothing (L := lib) (command "rebalance" [])
              "backups" "x.ring.gz" nothing_moves 0%Q (builder nothing_moves) 0%Q
              (snd (impl_rebalance None (builder nothing_moves))) eq_refl eq_refl)
    as (w' & E & Hout & Hfs & _).
  exists w'. split; [exact E |]. split; [exact Hout | exact Hfs].
Defined.



(** C2 on a ring that fails validation after the rebalance. *)
Lemma rebalance_validates_before_writing_witness :
  exists w',
    rebalance (L := lib) (command "rebalance" []) "backups" "x.ring.gz" validation_fails
    = (Exit 2, w')
    /\ fs w' = ∅.
Proof.
  apply (proj1 (rebalance_validates_before_writing (L := lib) (command "rebalance" [])
                  "backups" "x.ring.gz" validation_fails)
           50%Q (builder validation_fails) 10 2%Q
           (snd (impl_rebalance None (builder validation_fails)))
           (LibraryError "RingValidationError" "a partition lacks replicas")
           (snd (impl_rebalance None (builder validation_fails)))
           eq_refl eq_refl).
  - discriminate.
  - reflexivity.
  - reflexivity.
  - reflexivity.
Defined.

(** C6 on the removal of the only device of a ring. *)
Lemma remove_stops_on_builder_error_witness :
  exists w',
    remove (L := lib) (command "remove" ["d0"]) (world single_ring []) = (Exit 2, w')
    /\ fs w' = ∅.
Proof.
  apply (remove_stops_on_builder_error (L := lib) (command "remove" ["d0"])
           (world single_ring []) [] "d0" [] (world single_ring [])
           [] 0%nat [] (world single_ring []) (world single_ring [])
           (LibraryError "RingBuilderError" "too few devices would be left")
           single_ring);
    reflexivity.
Defined.

(** C7 on a change that gives device 1 the address of device 0. *)
Lemma set_info_rejects_collision_witness :
  exists w',
    set_info (L := lib) (command "set_info" ["d1"; "10.0.0.1:6000/sda"]) (world pair_ring [])
    = (Exit 2, w')
    /\ builder w' = pair_ring /\ fs w' = ∅.
Proof.
  apply (set_info_rejects_collision (L := lib)
           (command "set_info" ["d1"; "10.0.0.1:6000/sda"]) (world pair_ring [])
           "10.0.0.1:6000/sda" [] "d1" "10.0.0.1:6000/sda" [] (world pair_ring [])
           [] 1%nat [] [SetIp "10.0.0.1"; SetPort 6000; SetDevice "sda"]
           (world pair_ring []) (world pair_ring []) 0%nat);
    try reflexivity.
  - left. reflexivity.
  - discriminate.
Defined.

(** The registry of the small ring package keeps what it adds. *)

Lemma live_In (ds : list (option ref)) (r : ref) :
  In (Some r) ds -> In r (omap id ds).
Proof.
  induction ds as [| d ds IH]; simpl; [tauto |].
  intros [-> | H]; simpl; [left; reflexivity |].
  destruct d; simpl; auto.
Qed.

Lemma below_fresh (b : Example.t) (r : ref) : In (Some r) (devs b) -> (r < fresh b)%nat.
Proof.
  intros H. apply live_In in H. unfold fresh, live.
  induction (omap id (devs b)) as [| x l IH]; simpl in *; [tauto |].
  destruct H as [-> | H]; [lia |]. specialize (IH H). lia.
Qed.

Lemma free_slot_is_free (ds : list (option ref)) (i : nat) :
  (i <= free_slot i ds)%nat
  /\ ((free_slot i ds < i + length ds)%nat -> ds !! (free_slot i ds - i)%nat = Some None).
Proof.
  revert i. induction ds as [| d ds IH]; intros i; simpl.
  - split; [lia | intros H; lia].
  - destruct d as [r |].
    + destruct (IH (S i)) as [H1 H2]. split; [lia |].
      intros H. replace (free_slot (S i) ds - i)%nat with (S (free_slot (S i) ds - S i)) by lia.
      simpl. apply H2. lia.
    + split; [lia |]. intros _. replace (i - i)%nat with 0%nat by lia. reflexivity.
Qed.

Lemma In_insert_free (l : list (option ref)) (s : nat) (x : option ref) (r : ref) :
  l !! s = Some None -> In (Some r) l -> In (Some r) (<[s := x]> l).
Proof.
  revert s. induction l as [| d l IH]; intros s Hs Hin; [destruct Hin |].
  destruct s as [| s]; simpl in *.
  - injection Hs as ->. destruct Hin as [H | H]; [discriminate | right; exact H].
  - destruct Hin as [H | H]; [left; exact H | right; apply IH; assumption].
Qed.

Lemma In_insert_here (l : list (option ref)) (s : nat) (x : option ref) :
  (s < length l)%nat -> In x (<[s := x]> l).
Proof.
  revert s. induction l as [| d l IH]; intros s Hs; simpl in *; [lia |].
  destruct s as [| s]; simpl; [left; reflexivity | right; apply IH; lia].
Qed.

Lemma same_address_added (new_dev : NewDev.t) (dev_id : Z) :
  same_address (NewDev.ip new_dev) (NewDev.port new_dev) (NewDev.device new_dev)
               (added new_dev dev_id) = true.
Proof.
  unfold same_address, added. cbn.
  rewrite !String.eqb_refl, Z.eqb_refl. reflexivity.
Qed.

Lemma example_add_dev_registers : add_dev_registers (L := lib).
Proof.
  unfold add_dev_registers, address_in_use. cbv [Internal add_dev lib].
  intros new_dev b dev_id b' H. unfold impl_add_dev in H.
  destruct (existsb _ (live b)); [discriminate H |].
  destruct (negb (valid_weight (NewDev.weight new_dev))); [discriminate H |].
  injection H as _ <-.
  pose proof (free_slot_is_free (devs b) 0) as [_ Hfree].
  rewrite Nat.sub_0_r in Hfree. cbn in Hfree.
  split.
  - exists (fresh b). cbn [devs heap]. split.
    + destruct (free_slot 0 (devs b) <? length (devs b))%nat eqn:E.
      * apply In_insert_here. apply Nat.ltb_lt. exact E.
      * apply in_or_app. right. left. reflexivity.
    + rewrite Nat.eqb_refl. apply same_address_added.
  - intros ip port device (r & Hin & Hsame).
    exists r. cbn [devs heap]. split.
    + destruct (free_slot 0 (devs b) <? length (devs b))%nat eqn:E.
      * apply In_insert_free; [| exact Hin]. apply Hfree. apply Nat.ltb_lt. exact E.
      * apply in_or_app. left. exact Hin.
    + pose proof (below_fresh b r Hin) as Hlt.
      replace (r =? fresh b)%nat with false; [exact Hsame |].
      symmetry. apply Nat.eqb_neq. lia.
Qed.

(** C4 on a device string with the address of a device of the ring, and on
    a batch whose second device string repeats the address of the first. *)
Lemma add_rejects_duplicate_witness :
  (exists w',
      add (L := lib) (command "add" ["z3-10.0.0.2:6000/sdb"; "100"]) (world pair_ring [])
      = (Exit 2, w')
      /\ builder w' = pair_ring /\ fs w' = ∅)
  /\ (exists w',
         add (L := lib)
             (command "add" ["z1-10.0.0.9:6000/sdx"; "100"; "z2-10.0.0.9:6000/sdx"; "50"])
             (world empty_ring [])
         = (Exit 2, w')
         /\ length (live (builder w')) = 1%nat /\ fs w' = ∅).
Proof.
  split.
  - pose (argv := command "add" ["z3-10.0.0.2:6000/sdb"; "100"]).
    pose (w := world pair_ring []).
    pose (w0 := snd (_parse_add_values (L := lib) (drop 3 argv) w)).
    apply (proj1 (add_rejects_duplicate (L := lib) argv w eq_refl ltac:(cbn; lia))
             [] (NewDev.mk 1 3 "10.0.0.2" 6000 "sdb" "10.0.0.2" 6000 100 "") [] w0 w0).
    + reflexivity.
    + reflexivity.
    + exists 1%nat. split; [right; left; reflexivity | reflexivity].
  - pose (argv := command "add" ["z1-10.0.0.9:6000/sdx"; "100"; "z2-10.0.0.9:6000/sdx"; "50"]).
    pose (w := world empty_ring []).
    pose (first := NewDev.mk 1 1 "10.0.0.9" 6000 "sdx" "10.0.0.9" 6000 100 "").
    pose (second := NewDev.mk 1 2 "10.0.0.9" 6000 "sdx" "10.0.0.9" 6000 50 "").
    pose (w0 := snd (_parse_add_values (L := lib) (drop 3 argv) w)).
    pose (w1 := snd (for_each [first] (add_one (L := lib)) w0)).
    destruct (proj2 (add_rejects_duplicate (L := lib) argv w eq_refl ltac:(cbn; lia))
                example_add_dev_registers [] first [] second [] w0 w1
                eq_refl eq_refl eq_refl eq_refl eq_refl)
      as (w' & E & Hb & Hfs).
    exists w'. split; [exact E |]. split; [| exact Hfs].
    rewrite Hb. reflexivity.
Defined.

(** C5 on a [set_weight] whose second search value matches nothing, a
    [set_info] whose change value is malformed and a [remove] whose second
    search value matches nothing. *)
Lemma edits_fail_as_a_whole_witness :
  (exists o w',
      set_weight (L := lib) (command "set_weight" ["d0"; "2.5"; "d7"; "1"]) (world pair_ring [])
      = (o, w')
      /\ failed o /\ fs w' = ∅)
  /\ (exists o w',
         set_info (L := lib) (command "set_info" ["d0"; "bogus!"]) (world pair_ring [])
         = (o, w')
         /\ failed o /\ fs w' = ∅)
  /\ (exists o w',
         remove (L := lib) (command "remove" ["d0"; "d7"]) (world small_ring []) = (o, w')
         /\ failed o /\ fs w' = ∅).
Proof.
  split; [| split].
  - pose (w := world pair_ring []).
    pose (w1 := snd (for_each [("d0", "2.5")]
                       (fun p => set_weight_one (L := lib) (fst p) (snd p)) w)).
    apply (proj1 (edits_fail_as_a_whole (L := lib)
                    (command "set_weight" ["d0"; "2.5"; "d7"; "1"]) w)
             [("d0", "2.5")] "d7" "1" [] w1 eq_refl eq_refl).
    right. right. exists (ById 7), (builder w1). split; reflexivity.
  - pose (w := world pair_ring []).
    apply (proj1 (proj2 (edits_fail_as_a_whole (L := lib)
                           (command "set_info" ["d0"; "bogus!"]) w))
             "bogus!" [] "d0" "bogus!" [] w eq_refl eq_refl eq_refl).
    left. eexists. reflexivity.
  - pose (w := world small_ring []).
    pose (w1 := snd (for_each ["d0"] (remove_one (L := lib)) w)).
    apply (proj1 (proj2 (proj2 (edits_fail_as_a_whole (L := lib)
                                  (command "remove" ["d0"; "d7"]) w)))
             ["d0"] "d7" [] w1 eq_refl eq_refl).
    right. exists (ById 7), (builder w1). split; reflexivity.
Defined.





(** C1 as stated fails: in a ring of 2^17 partitions, a device of weight
    10000 that holds 109999 of them is shown, by the formula, with the
    balance that the device without weight next to it is shown with as
    the sentinel. *)
Lemma sentinel_is_a_value_of_the_formula :
  exists v,
    dev_balance (L := lib)
                (inject_Z (parts uneven_ring) * replicas uneven_ring
                 / sum_weights (L := lib) uneven_ring)%Q heavy = Ok v
    /\ Qeq_bool (Dev.weight heavy) 0 = false
    /\ (v == MAX_BALANCE (RingLib := lib))%Q
    /\ In (device_row heavy v)
          (stdout (snd (default (L := lib) ["swift-ring-builder"; "x.builder"]
                                (world uneven_ring []))))
    /\ In (device_row drained (MAX_BALANCE (RingLib := lib)))
          (stdout (snd (default (L := lib) ["swift-ring-builder"; "x.builder"]
                                (world uneven_ring [])))).
Proof.
  eexists. split; [reflexivity |]. split; [reflexivity |]. split; [reflexivity |].
  split.
  - vm_compute. do 4 right. left. reflexivity.
  - vm_compute. do 6 right. left. reflexivity.
Qed.

(** C1 on [default] and on [search z3] over that ring. *)
Lemma devices_are_shown_with_their_balance_witness :
  (exists w' head,
      default (L := lib) ["swift-ring-builder"; "x.builder"] (world uneven_ring [])
      = (Exit 0, w')
      /\ length head = 4%nat
      /\ stdout w' =
         head ++
         map (fun r => device_row (heap uneven_ring r)
                         (balance_value (L := lib)
                            (inject_Z (parts uneven_ring) * replicas uneven_ring
                             / sum_weights (L := lib) uneven_ring)%Q
                            (heap uneven_ring r)))
             (live uneven_ring))
  /\ (exists w',
         search (L := lib) (command "search" ["z3"]) (world uneven_ring []) = (Exit 0, w')
         /\ stdout w' =
            [Line devices_header [];
             device_row drained (MAX_BALANCE (RingLib := lib));
             device_row idle 0%Q]).
Proof.
  split.
  - destruct (proj1 (devices_are_shown_with_their_balance (L := lib)
                       ["swift-ring-builder"; "x.builder"] (world uneven_ring []))
                "x.builder" 0%Q uneven_ring eq_refl ltac:(discriminate) eq_refl
                ltac:(discriminate) ltac:(discriminate) ltac:(discriminate))
      as (w' & head & E & Hl & Ho & _).
    exists w', head. split; [exact E |]. split; [exact Hl | exact Ho].
  - destruct (proj1 (proj2 (devices_are_shown_with_their_balance (L := lib)
                              (command "search" ["z3"]) (world uneven_ring [])))
                "z3" (ByZone 3) [2%nat; 3%nat] uneven_ring eq_refl eq_refl eq_refl
                ltac:(discriminate) ltac:(discriminate) ltac:(discriminate))
      as (w' & E & Ho & _).
    exists w'. split; [exact E | exact Ho].
Defined.

(** * Further runs on concrete command lines *)

(** X1 on a device with plain addresses and on one with bracketed ones. *)
Lemma add_reads_what_format_device_prints_witness :
  (exists text,
      format_device sda = "d" +:+ pretty (Dev.id sda) +:+ text
      /\ scan_device (L := lib) text (world pair_ring [])
         = (Return (fun weight =>
                      NewDev.mk (Dev.region sda) (Dev.zone sda) (Dev.ip sda) (Dev.port sda)
                                (Dev.device sda) (Dev.replication_ip sda)
                                (Dev.replication_port sda) weight
                                (dq +:+ Dev.meta sda +:+ dq)), world pair_ring []))
  /\ (exists text,
         format_device sdq = "d" +:+ pretty (Dev.id sdq) +:+ text
         /\ scan_device (L := lib) text (world pair_ring [])
            = (Return (fun weight =>
                         NewDev.mk (Dev.region sdq) (Dev.zone sdq) (Dev.ip sdq) (Dev.port sdq)
                                   (Dev.device sdq) (Dev.replication_ip sdq)
                                   (Dev.replication_port sdq) weight
                                   (dq +:+ Dev.meta sdq +:+ dq)), world pair_ring [])).
Proof.
  split.
  - apply (add_reads_what_format_device_prints (L := lib) sda (world pair_ring []));
      first [reflexivity | discriminate].
  - apply (add_reads_what_format_device_prints (L := lib) sdq (world pair_ring []));
      first [reflexivity | discriminate].
Defined.

(** X2 on [z1-10.0.0.1:6000/sda], without and with meta data. *)
Lemma add_fills_in_what_is_left_out_witness :
  short_form 1 "10.0.0.1" 6000 "sda" = "z1-10.0.0.1:6000/sda"
  /\ scan_device (L := lib) (short_form 1 "10.0.0.1" 6000 "sda") (world empty_ring [])
     = (Return (fun weight =>
                  NewDev.mk 1 1 "10.0.0.1" 6000 "sda" "10.0.0.1" 6000 weight EmptyString),
        warned (short_form 1 "10.0.0.1" 6000 "sda") (world empty_ring []))
  /\ scan_device (L := lib) (short_form 1 "10.0.0.1" 6000 "sda" +:+ "_" +:+ "rack 4")
                 (world empty_ring [])
     = (Return (fun weight =>
                  NewDev.mk 1 1 "10.0.0.1" 6000 "sda" "10.0.0.1" 6000 weight "rack 4"),
        warned (short_form 1 "10.0.0.1" 6000 "sda" +:+ "_" +:+ "rack 4")
               (world empty_ring [])).
Proof.
  split; [reflexivity |].
  apply (add_fills_in_what_is_left_out (L := lib) 1 6000 "10.0.0.1" "sda" "rack 4"
           (world empty_ring []));
    first [reflexivity | discriminate].
Defined.

(** X3 on [rz1-...], [z-...], [z1-] and a host name. *)
Lemma add_device_strings_that_do_not_scan_witness :
  (exists msg, scan_device (L := lib) ("r" +:+ "z1-10.0.0.1:6000/sda") (world empty_ring [])
               = (Raise (ValueError msg), world empty_ring []))
  /\ (exists msg, scan_device (L := lib) ("z" +:+ "-10.0.0.1:6000/sda") (world empty_ring [])
                  = (Raise (ValueError msg),
                     warned ("z" +:+ "-10.0.0.1:6000/sda") (world empty_ring [])))
  /\ scan_device (L := lib) ("z" +:+ pretty 1 +:+ "-") (world empty_ring [])
     = (Raise IndexError, warned ("z" +:+ pretty 1 +:+ "-") (world empty_ring []))
  /\ (exists w', scan_device (L := lib) ("z" +:+ pretty 1 +:+ "-" +:+ "node1:6000/sda")
                             (world empty_ring [])
                 = (Exit EXIT_ERROR, w')
                 /\ stdout w'
                    = stdout (world empty_ring []) ++
                      [Line "Invalid add value: %s"
                            [VStr ("z" +:+ pretty 1 +:+ "-" +:+ "node1:6000/sda")];
                       Line unchanged_msg []]
                 /\ builder w' = builder (world empty_ring [])
                 /\ fs w' = fs (world empty_ring [])).
Proof.
  destruct (add_device_strings_that_do_not_scan (L := lib) (world empty_ring []))
    as (H1 & H2 & H3 & H4).
  split; [| split; [| split]].
  - apply H1. reflexivity.
  - apply H2. reflexivity.
  - apply H3. discriminate.
  - apply (H4 1 "node1:6000/sda"); [discriminate | discriminate | reflexivity].
Defined.

(** X4 on the two devices of above. *)
Lemma set_info_reads_what_format_device_prints_witness :
  (exists text,
      format_device sdb
      = "d" +:+ pretty (Dev.id sdb) +:+ "r" +:+ pretty (Dev.region sdb) +:+
        "z" +:+ pretty (Dev.zone sdb) +:+ "-" +:+ text
      /\ parse_change "" text
         = Ok [SetIp "10.0.0.2"; SetPort 6000; SetReplicationIp "10.0.0.2";
               SetReplicationPort 6000; SetDevice "sdb"; SetMeta (dq +:+ "" +:+ dq)])
  /\ (exists text,
         format_device sdq
         = "d" +:+ pretty (Dev.id sdq) +:+ "r" +:+ pretty (Dev.region sdq) +:+
           "z" +:+ pretty (Dev.zone sdq) +:+ "-" +:+ text
         /\ parse_change "" text
            = Ok [SetIp "fe80::1"; SetPort 6000; SetReplicationIp "fe80::2";
                  SetReplicationPort 6001; SetDevice "sdq";
                  SetMeta (dq +:+ "rack 4" +:+ dq)]).
Proof.
  split.
  - destruct (set_info_reads_what_format_device_prints sdb "")
      as (text & E1 & E2 & _); first [reflexivity | discriminate | idtac].
    exists text. split; [exact E1 | exact E2].
  - destruct (set_info_reads_what_format_device_prints sdq "")
      as (text & E1 & E2 & _); first [reflexivity | discriminate | idtac].
    exists text. split; [exact E1 | exact E2].
Defined.

(** X5 on change values that name one part. *)
Lemma set_info_parts_are_optional_witness :
  parse_change "" (bracket "10.0.0.9") = Ok [SetIp "10.0.0.9"]
  /\ parse_change "" (":" +:+ pretty 6001) = Ok [SetPort 6001]
  /\ parse_change "" ("R" +:+ bracket "fe80::9" +:+ ":" +:+ pretty 6002)
     = Ok [SetReplicationIp "fe80::9"; SetReplicationPort 6002]
  /\ parse_change "" ("/" +:+ "sdz") = Ok [SetDevice "sdz"]
  /\ parse_change "" ("_" +:+ "snet: 5.6.7.8") = Ok [SetMeta "snet: 5.6.7.8"].
Proof.
  destruct (set_info_parts_are_optional "") as (H1 & H2 & H3 & H4 & H5).
  split; [| split; [| split; [| split]]].
  - apply H1. reflexivity.
  - apply H2. discriminate.
  - apply H3; [reflexivity | discriminate].
  - apply H4. reflexivity.
  - apply H5.
Defined.

(** X6 on [xyz], [:abc] and [10.0.0.9:/sdz]. *)
Lemma set_info_refuses_other_change_values_witness :
  (exists msg, parse_change "" (String "x" "yz") = Err (ValueError msg))
  /\ (exists msg, parse_change "" (":" +:+ "abc") = Err (ValueError msg))
  /\ (exists msg, parse_change "" (bracket "10.0.0.9" +:+ ":" +:+ "/sdz")
                  = Err (ValueError msg)).
Proof.
  destruct (set_info_refuses_other_change_values "") as (_ & H2 & H3 & H4).
  split; [| split].
  - apply H2. reflexivity.
  - apply H3. reflexivity.
  - apply H4; reflexivity.
Defined.

(** X10 on two devices of zone 3 and the answer [n]. *)
Lemma several_matches_need_a_yes_witness :
  (exists o w',
      remove (L := lib) (command "remove" ["z3"]) (world uneven_ring ["n"]) = (o, w')
      /\ failed o /\ builder w' = uneven_ring /\ fs w' = ∅)
  /\ (exists o w',
         set_weight (L := lib) (command "set_weight" ["z3"; "5"]) (world uneven_ring ["n"])
         = (o, w')
         /\ failed o /\ builder w' = uneven_ring /\ fs w' = ∅)
  /\ (exists o w',
         set_info (L := lib) (command "set_info" ["z3"; "_rack 4"]) (world uneven_ring [])
         = (o, w')
         /\ failed o /\ builder w' = uneven_ring /\ fs w' = ∅).
Proof.
  split; [| split].
  - apply (proj1 (several_matches_need_a_yes (L := lib) (command "remove" ["z3"])
                    (world uneven_ring ["n"]))
             [] "z3" [] (world uneven_ring ["n"]) (ByZone 3) [2; 3]%nat uneven_ring);
      first [reflexivity | discriminate | (cbn; lia)].
  - apply (proj1 (proj2 (several_matches_need_a_yes (L := lib)
                           (command "set_weight" ["z3"; "5"]) (world uneven_ring ["n"])))
             [] "z3" "5" [] (world uneven_ring ["n"]) (ByZone 3) [2; 3]%nat uneven_ring 5%Q);
      first [reflexivity | discriminate | (cbn; lia)].
  - apply (proj2 (proj2 (several_matches_need_a_yes (L := lib)
                           (command "set_info" ["z3"; "_rack 4"]) (world uneven_ring [])))
             "_rack 4" [] "z3" "_rack 4" [] (world uneven_ring []) (ByZone 3) [2; 3]%nat
             uneven_ring [SetMeta "rack 4"]);
      first [reflexivity | discriminate | (cbn; lia)].
Defined.

(** X12 on device 0 of a ring of three, for [remove], and of a ring of two. *)
Lemma one_match_goes_through_unasked_witness :
  (exists w',
      remove (L := lib) (command "remove" ["d0"]) (world small_ring []) = (Exit 0, w')
      /\ builder w' = reweigh 0 0 small_ring
      /\ fs w' = <["x.builder" := BuilderFile (reweigh 0 0 small_ring)]> ∅
      /\ stdin w' = [])
  /\ (exists w',
         set_weight (L := lib) (command "set_weight" ["d0"; "-50"]) (world pair_ring [])
         = (Exit 0, w')
         /\ builder w' = reweigh 0 (-50) pair_ring
         /\ fs w' = <["x.builder" := BuilderFile (reweigh 0 (-50) pair_ring)]> ∅
         /\ stdin w' = [])
  /\ (exists w',
         set_info (L := lib) (command "set_info" ["d0"; "_rack 4"]) (world pair_ring [])
         = (Exit 0, w')
         /\ builder w' = store 0%nat (apply_changes [SetMeta "rack 4"] sda) pair_ring
         /\ stdin w' = []).
Proof.
  split; [| split].
  - destruct (proj1 (one_match_goes_through_unasked (L := lib) (command "remove" ["d0"])
                       (world small_ring []) "x.builder" (ById 0) 0%nat small_ring
                       (reweigh 0 0 small_ring) eq_refl)
                "d0" eq_refl eq_refl eq_refl eq_refl) as (w' & E & Hb & Hf & Hi & _).
    exists w'. repeat split; assumption.
  - destruct (proj1 (proj2 (one_match_goes_through_unasked (L := lib)
                              (command "set_weight" ["d0"; "-50"])
                              (world pair_ring []) "x.builder" (ById 0) 0%nat pair_ring
                              (reweigh 0 (-50) pair_ring) eq_refl))
                "d0" "-50" (-50)%Q eq_refl eq_refl eq_refl eq_refl eq_refl)
      as (w' & E & Hb & Hf & Hi & _).
    exists w'. repeat split; assumption.
  - destruct (proj2 (proj2 (one_match_goes_through_unasked (L := lib)
                              (command "set_info" ["d0"; "_rack 4"])
                              (world pair_ring []) "x.builder" (ById 0) 0%nat pair_ring
                              pair_ring eq_refl))
                "d0" "_rack 4" [SetMeta "rack 4"] eq_refl eq_refl eq_refl eq_refl)
      as (w' & E & Hb & Hf & Hi & _).
    + intros c [H | [H | []]]; injection H as <-; [left | right]; reflexivity.
    + exists w'. repeat split; assumption.
Defined.

(** X11 on a third device for a ring of two. *)
Lemma add_registers_a_new_device_witness :
  exists w',
    add (L := lib) (command "add" ["z3-10.0.0.3:6000/sdc"; "100"]) (world pair_ring [])
    = (Exit 0, w')
    /\ length (live (builder w')) = 3%nat
    /\ fs w' = <["x.builder" := BuilderFile (builder w')]> ∅.
Proof.
  pose (argv := command "add" ["z3-10.0.0.3:6000/sdc"; "100"]).
  pose (w := world pair_ring []).
  pose (new_dev := NewDev.mk 1 3 "10.0.0.3" 6000 "sdc" "10.0.0.3" 6000 100 "").
  pose (w0 := snd (_parse_add_values (L := lib) (drop 3 argv) w)).
  destruct (add_registers_a_new_device (L := lib) argv w new_dev w0 2
              (snd (impl_add_dev new_dev pair_ring)) "x.builder"
              ltac:(cbn; lia) eq_refl eq_refl eq_refl) as (w' & E & Hb & Hf & _).
  - intros (r & Hin & Hsame).
    destruct Hin as [H | [H | []]]; injection H as <-; discriminate Hsame.
  - reflexivity.
  - exists w'. split; [exact E |]. rewrite Hf, Hb. split; reflexivity.
Defined.

(** X13 on a rebalance that brings the balance to 2, and on one that leaves
    it at 7.5. *)
Lemma rebalance_writes_the_ring_and_the_builder_witness :
  (exists w',
      rebalance (L := lib) (command "rebalance" []) "backups" "x.ring.gz" much_moves
      = (Exit 0, w')
      /\ dom (fs w') = {["x.builder"; "x.ring.gz"; "backups/1700000000.x.builder";
                         "backups/1700000000.x.ring.gz"]})
  /\ (exists w',
         rebalance (L := lib) (command "rebalance" []) "backups" "x.ring.gz" still_uneven
         = (Exit 1, w')
         /\ dom (fs w') = {["x.builder"; "x.ring.gz"; "backups/1700000000.x.builder";
                            "backups/1700000000.x.ring.gz"]}).
Proof.
  split.
  - pose (b := builder much_moves). pose (b2 := snd (impl_rebalance None b)).
    destruct (rebalance_writes_the_ring_and_the_builder (L := lib) (command "rebalance" [])
                "backups" "x.ring.gz" much_moves "x.builder" 50%Q 10 2%Q b b2 b2 b2 b2
                (map (heap b2) (live b2)) (map (heap b2) (live b2))
                eq_refl eq_refl eq_refl ltac:(discriminate) eq_refl eq_refl
                ltac:(discriminate) eq_refl eq_refl)
      as (status & w' & E & Hs & _ & _ & Hf).
    exists w'. rewrite (Hs ltac:(discriminate)) in E. split; [exact E |].
    rewrite Hf. vm_compute. reflexivity.
  - pose (b := builder still_uneven). pose (b2 := snd (impl_rebalance None b)).
    destruct (rebalance_writes_the_ring_and_the_builder (L := lib) (command "rebalance" [])
                "backups" "x.ring.gz" still_uneven "x.builder" 50%Q 10 7.5%Q b b2 b2 b2 b2
                (map (heap b2) (live b2)) (map (heap b2) (live b2))
                eq_refl eq_refl eq_refl ltac:(discriminate) eq_refl eq_refl
                ltac:(discriminate) eq_refl eq_refl)
      as (status & w' & E & _ & Hs & _ & Hf).
    exists w'. rewrite (Hs ltac:(reflexivity)) in E. split; [exact E |].
    rewrite Hf. vm_compute. reflexivity.
Defined.

(** X14 on a builder without devices, with the engine that refuses it. *)
Lemma rebalance_stops_on_a_builder_error_witness :
  exists w' text,
    rebalance (L := strict) (command "rebalance" []) "backups" "x.ring.gz"
              (mkWorld (L := strict) empty_ring ∅ [] [] [] 1700000000)
    = (Exit 2, w')
    /\ builder w' = empty_ring /\ fs w' = ∅
    /\ stdout w' = [Line dashes []; Line text [VStr "no devices to rebalance"];
                    Line dashes []].
Proof.
  apply (rebalance_stops_on_a_builder_error (L := strict) (command "rebalance" [])
           "backups" "x.ring.gz" (mkWorld (L := strict) empty_ring ∅ [] [] [] 1700000000)
           (LibraryError "RingBuilderError" "no devices to rebalance") empty_ring).
  - right. exists 0%Q, empty_ring. split; reflexivity.
  - reflexivity.
Defined.

(** X15 on a builder that was just created. *)
Lemma default_on_a_builder_without_devices_witness :
  default (L := lib) ["swift-ring-builder"; "x.builder"] (world empty_ring [])
  = (Exit 0,
     printed
       [Line "%s, build version %d" [VStr "x.builder"; VInt 1];
        Line "%d partitions, %.6f replicas, %d regions, %d zones, %d devices, %.02f balance"
             [VInt 128; VFloat 1; VInt 0; VInt 0; VInt 0; VFloat 0];
        Line "The minimum number of hours before a partition can be reassigned is %s"
             [VInt 1]] (world empty_ring [])).
Proof.
  apply (default_on_a_builder_without_devices (L := lib) ["swift-ring-builder"; "x.builder"]
           (world empty_ring []) "x.builder" eq_refl eq_refl).
Defined.

(** X16 on a ring whose two devices have no weight. *)
Lemma no_rows_without_weight_witness :
  (exists w' head,
      default (L := lib) ["swift-ring-builder"; "x.builder"] (world weightless_ring [])
      = (Raise ZeroDivisionError, w')
      /\ length head = 3%nat
      /\ stdout w' = head ++ [Line devices_header []])
  /\ (exists w',
         search (L := lib) (command "search" ["z3"]) (world weightless_ring [])
         = (Raise ZeroDivisionError, w')
         /\ stdout w' = [Line devices_header []]).
Proof.
  split.
  - apply (proj1 (no_rows_without_weight (L := lib) ["swift-ring-builder"; "x.builder"]
                    (world weightless_ring []))
             "x.builder" 0%Q weightless_ring eq_refl ltac:(discriminate) eq_refl
             ltac:(discriminate)).
    reflexivity.
  - apply (proj2 (no_rows_without_weight (L := lib) (command "search" ["z3"])
                    (world weightless_ring []))
             "z3" (ByZone 3) [0; 1]%nat weightless_ring eq_refl eq_refl eq_refl
             ltac:(discriminate)).
    reflexivity.
Defined.

(** X17 on a ring of three devices and four partitions, two replicas each,
    asked for the partitions of devices 0 and 1. *)
Lemma list_parts_lists_by_matches_witness :
  exists w',
    list_parts (L := lib) (T := tools) (command "list_parts" ["z1"; "d1"])
               (world small_ring [])
    = (Exit 0, w')
    /\ stdout w' = [Line "Partition   Matches" [];
                    partition_row 0 2; partition_row 3 2;
                    partition_row 1 1; partition_row 2 1].
Proof.
  destruct (list_parts_lists_by_matches (L := lib) (T := tools)
              (command "list_parts" ["z1"; "d1"]) (world small_ring [])
              (world small_ring []) [[0]; [1]]%nat
              (fun part => remove_dups (omap (slot small_ring) [part; part + 1])))
    as (w' & E & Hout & _).
  - cbn. lia.
  - reflexivity.
  - discriminate.
  - discriminate.
  - intros part _. reflexivity.
  - intros part H. change (parts (builder (world small_ring []))) with 4 in H.
    assert (part = 0 \/ part = 1 \/ part = 2 \/ part = 3) as [-> | [-> | [-> | ->]]] by lia;
      discriminate.
  - exists w'. split; [exact E |]. rewrite Hout. reflexivity.
Defined.

(** X18 on a command line whose builder file exists. *)
Lemma create_replaces_the_builder_file_witness :
  exists w',
    create (L := lib) (T := tools) (command "create" ["3"; "2"; "1"])
           (on_disk pair_ring pair_ring)
    = (Exit 0, w')
    /\ fs (on_disk pair_ring pair_ring) !! "x.builder" = Some (BuilderFile pair_ring)
    /\ fs w' !! "x.builder"
       = Some (BuilderFile (mkBuilder (fun _ => none) [] 8 2 1 0 false quiet))
    /\ builder w' = pair_ring.
Proof.
  destruct (create_replaces_the_builder_file (L := lib) (T := tools)
              (command "create" ["3"; "2"; "1"]) (on_disk pair_ring pair_ring)
              "x.builder" "3" "2" "1" 3 2%Q 1
              (mkBuilder (fun _ => none) [] 8 2 1 0 false quiet)
              eq_refl eq_refl eq_refl eq_refl eq_refl eq_refl eq_refl eq_refl)
    as (w' & E & _ & Hnew & Hb).
  - intros e H. discriminate H.
  - exists w'. split; [exact E |]. split; [reflexivity |]. split; [exact Hnew | exact Hb].
Defined.

(** X19 on a ring of two devices. *)
Lemma write_ring_writes_the_ring_witness :
  exists w',
    write_ring (L := lib) (T := tools) "backups" "x.ring.gz" (world pair_ring [])
    = (Exit 0, w')
    /\ fs w' = <["x.ring.gz" := RingFile [sda; sdb]]>
                 (<["backups/1700000000.x.ring.gz" := RingFile [sda; sdb]]> ∅)
    /\ stdout w' = [].
Proof.
  destruct (write_ring_writes_the_ring (L := lib) (T := tools) "backups" "x.ring.gz"
              (world pair_ring []) [sda; sdb] pair_ring eq_refl)
    as (w' & E & Hf & _ & Hquiet & _).
  exists w'. split; [exact E |]. split; [exact Hf |]. apply Hquiet. reflexivity.
Defined.

(** X20 on a [set_weight] without a weight and on an [add] of two devices. *)
Lemma items_are_taken_in_pairs_witness :
  set_weight (L := lib) (command "set_weight" ["d0"]) (world pair_ring [])
  = (Exit 2,
     printed [Line (doc "set_weight") []; Line "" []; Line search_doc []]
             (world pair_ring []))
  /\ flat_map (fun p => [fst p; snd p])
              (pairs (drop 3 (command "add" ["z1-10.0.0.1:6000/sda"; "100";
                                             "z2-10.0.0.2:6000/sdb"; "50"])))
     = ["z1-10.0.0.1:6000/sda"; "100"; "z2-10.0.0.2:6000/sdb"; "50"]
  /\ _parse_add_values (L := lib) ["z1-10.0.0.1:6000/sda"; "100"; "50"] (world pair_ring [])
     = (Exit 2, printed [Line (doc "add") []] (world pair_ring [])).
Proof.
  split; [| split].
  - apply (proj1 (items_are_taken_in_pairs (L := lib) (command "set_weight" ["d0"])
                    (world pair_ring []))).
    left. cbn. lia.
  - apply (proj1 (proj2 (items_are_taken_in_pairs (L := lib)
                           (command "add" ["z1-10.0.0.1:6000/sda"; "100";
                                           "z2-10.0.0.2:6000/sdb"; "50"])
                           (world pair_ring []))));
      [cbn; lia | reflexivity].
  - apply (proj1 (proj2 (proj2 (items_are_taken_in_pairs (L := lib)
                                  (command "x" ["z1-10.0.0.1:6000/sda"; "100"; "50"])
                                  (world pair_ring []))))
             tt ["z1-10.0.0.1:6000/sda"; "100"; "50"] eq_refl eq_refl).
Defined.

(** X21 on a batch whose second device string is no device string, and on
    a command line that asks for the help. *)
Lemma add_reads_the_batch_before_it_adds_witness :
  (builder (snd (add (L := lib)
                     (command "add" ["z1-10.0.0.1:6000/sda"; "100"; "sdb"; "50"])
                     (world empty_ring [])))
   = empty_ring
   /\ fs (snd (add (L := lib) (command "add" ["z1-10.0.0.1:6000/sda"; "100"; "sdb"; "50"])
                   (world empty_ring [])))
      = ∅
   /\ fst (add (L := lib) (command "add" ["z1-10.0.0.1:6000/sda"; "100"; "sdb"; "50"])
               (world empty_ring []))
      = Exit 2)
  /\ (builder (snd (add (L := lib) (command "add" ["--help"; "x"]) (world empty_ring [])))
      = empty_ring
      /\ fs (snd (add (L := lib) (command "add" ["--help"; "x"]) (world empty_ring []))) = ∅
      /\ fst (add (L := lib) (command "add" ["--help"; "x"]) (world empty_ring []))
         = Exit 0).
Proof.
  split.
  - destruct (proj2 (add_reads_the_batch_before_it_adds (L := lib)
                       (command "add" ["z1-10.0.0.1:6000/sda"; "100"; "sdb"; "50"])
                       (world empty_ring [])))
      as (Hb & Hf & _).
    + intros new_devs. discriminate.
    + split; [exact Hb |]. split; [exact Hf | reflexivity].
  - destruct (proj2 (add_reads_the_batch_before_it_adds (L := lib)
                       (command "add" ["--help"; "x"]) (world empty_ring [])))
      as (Hb & Hf & _).
    + intros new_devs. discriminate.
    + split; [exact Hb |]. split; [exact Hf | reflexivity].
Defined.
